(** * Navigation generator [generate_quarto_nav.py]: model and properties

    A shallow embedding of the navigation-tree pipeline of
    [generate_quarto_nav.py]: record normalisation, the tree builder
    [read_nodes], path derivation ([compute_default_file_path],
    [ensure_paths]), the sidebar renderer ([landing_render_mode],
    [build_sidebar_contents], [build_yaml]), the page writers and [main].

    Conventions of the embedding.
    - A Python [str] is a [string]; a character is read as the code point
      with the same number, so the model covers text over U+0000..U+00FF.
      The predicates [str.isspace], [str.isdigit] and the case mapping
      [str.lower] are the restrictions of Python's to that range.
    - A Python [int] is a [Z].
    - The dict [nodes] keeps insertion order and is keyed by the [id] of the
      node it stores: it is a list of nodes, looked up by [id].
    - [children] (a [defaultdict(list)]), normalised rows, content records
      and the file system are finite maps keyed by strings.
    - A computation that can raise or loop returns a [res]: a value, an
      exception, or [OutOfFuel] when the loop bound given to the model is
      exhausted (the Python loop has no bound).
    - Output is a trace of events: lines printed and files written.
    - The file system maps a path to the text written there. Files are
      opened in text mode on a platform whose line separator is the line
      feed: what is written is stored as it is, and what is read comes back
      with universal newlines. Directories are not modelled: a write is
      taken to succeed. *)

From stdpp Require Import base list strings gmap pretty.
From Stdlib Require Import ZArith Ascii String Sorted Permutation OrderedTypeEx.

#[local] Open Scope Z_scope.
#[local] Open Scope nat_scope.

(** ** Python string primitives *)

Module Py.

Definition code (c : ascii) : nat := nat_of_ascii c.

Definition between (lo hi : nat) (c : ascii) : bool :=
  (lo <=? code c) && (code c <=? hi).

(** [str.isspace] on one character: TAB..CR, FS..US, SPACE, NEL, NBSP. *)
Definition isspace (c : ascii) : bool :=
  between 9 13 c || between 28 32 c || (code c =? 133) || (code c =? 160).

(** ['0'..'9']: the characters [int] accepts as digits. *)
Definition isdecimal (c : ascii) : bool := between 48 57 c.

(** [str.isdigit] on one character: the decimal digits and the
    superscript digits U+00B2, U+00B3, U+00B9. *)
Definition isdigit_char (c : ascii) : bool :=
  isdecimal c || (code c =? 178) || (code c =? 179) || (code c =? 185).

(** [str.lower] on one character: A..Z, and U+00C0..U+00DE except the
    multiplication sign U+00D7, move up by 32. *)
Definition lower_char (c : ascii) : ascii :=
  if between 65 90 c || (between 192 222 c && negb (code c =? 215))
  then ascii_of_nat (code c + 32)
  else c.

Fixpoint lower (s : string) : string :=
  match s with
  | EmptyString => EmptyString
  | String c s' => String (lower_char c) (lower s')
  end.

(** [s.isdigit()]: non-empty and every character is a digit. *)
Fixpoint all_chars (p : ascii -> bool) (s : string) : bool :=
  match s with
  | EmptyString => true
  | String c s' => p c && all_chars p s'
  end.

Definition nonempty (s : string) : bool :=
  match s with EmptyString => false | _ => true end.

Definition isdigit (s : string) : bool := nonempty s && all_chars isdigit_char s.

(** Value of a string of decimal digits, most significant first. *)
Fixpoint digits_value (acc : Z) (s : string) : Z :=
  match s with
  | EmptyString => acc
  | String c s' => digits_value (10 * acc + Z.of_nat (code c - 48))%Z s'
  end.

(** CPython's default bound on the digits of a decimal literal
    ([sys.int_info.default_max_str_digits]). *)
Definition int_max_str_digits : nat := 4300.

(** [int(s)] where [s] is already stripped and holds no sign, no
    underscore and no blank (which is what [s.isdigit()] leaves possible):
    [None] stands for [ValueError]. *)
Definition int (s : string) : option Z :=
  if nonempty s && all_chars isdecimal s && (String.length s <=? int_max_str_digits)
  then Some (digits_value 0 s)
  else None.

(** [s.lstrip(chars)], [s.rstrip(chars)] and [s.strip(chars)] for a set of
    characters given as a predicate. *)
Fixpoint lstrip_by (p : ascii -> bool) (s : string) : string :=
  match s with
  | EmptyString => EmptyString
  | String c s' => if p c then lstrip_by p s' else s
  end.

Fixpoint rstrip_by (p : ascii -> bool) (s : string) : string :=
  match s with
  | EmptyString => EmptyString
  | String c s' =>
      match rstrip_by p s' with
      | EmptyString => if p c then EmptyString else String c EmptyString
      | r => String c r
      end
  end.

Definition strip_by (p : ascii -> bool) (s : string) : string :=
  rstrip_by p (lstrip_by p s).

Definition strip : string -> string := strip_by isspace.
Definition rstrip : string -> string := rstrip_by isspace.

(** [sep.join(parts)]. *)
Definition join (sep : string) (parts : list string) : string :=
  String.concat sep parts.

(** [sub in s]. *)
Fixpoint contains (sub s : string) : bool :=
  String.prefix sub s ||
  match s with
  | EmptyString => false
  | String _ s' => contains sub s'
  end.

(** [s[:n]], and what [f.read(n)] returns of a text file holding [s]. *)
Fixpoint take (n : nat) (s : string) : string :=
  match n, s with
  | S n', String c s' => String c (take n' s')
  | _, _ => EmptyString
  end.

(** What reading a text file that holds [s] returns (universal newlines,
    the default of [open(path, "r")]): a carriage return, with the line
    feed that follows it if there is one, comes back as one line feed. *)
Fixpoint universal_newlines (s : string) : string :=
  match s with
  | EmptyString => EmptyString
  | String c s' =>
      if code c =? 13
      then String (ascii_of_nat 10)
             match s' with
             | String d s'' => if code d =? 10 then universal_newlines s''
                               else universal_newlines s'
             | EmptyString => EmptyString
             end
      else String c (universal_newlines s')
  end.

(** [s.endswith(suffix)]. *)
Definition endswith (s suffix : string) : bool :=
  String.prefix (String.rev suffix) (String.rev s).

(** [str(n)] for a line number. *)
Definition str_of_nat (n : nat) : string := pretty n.

(** [a or b] on strings: [a] when it is non-empty. *)
Definition or_else (a b : string) : string := if nonempty a then a else b.

End Py.

Arguments Py.take : simpl never.
Arguments Py.contains : simpl never.
Arguments Py.rstrip_by : simpl never.
Arguments Py.lstrip_by : simpl never.
Arguments Py.join : simpl never.

(** ** [slugify] *)

(** The class [[a-z0-9\-_\s]] of the first substitution. *)
Definition slug_char (c : ascii) : bool :=
  Py.between 97 122 c || Py.between 48 57 c ||
  (Py.code c =? 45) || (Py.code c =? 95) || Py.isspace c.

Fixpoint keep_chars (p : ascii -> bool) (s : string) : string :=
  match s with
  | EmptyString => EmptyString
  | String c s' => if p c then String c (keep_chars p s') else keep_chars p s'
  end.

(** [re.sub(r"[\s]+", "-", text)]: every maximal run of blanks becomes one
    hyphen. [in_run] tells that the previous character was a blank. *)
Fixpoint squeeze_spaces (in_run : bool) (s : string) : string :=
  match s with
  | EmptyString => EmptyString
  | String c s' =>
      if Py.isspace c
      then (if in_run then squeeze_spaces true s'
            else String "-" (squeeze_spaces true s'))
      else String c (squeeze_spaces false s')
  end.

Definition is_hyphen (c : ascii) : bool := Py.code c =? 45.

Definition slugify (text : string) : string :=
  let text := Py.lower text in
  let text := keep_chars slug_char text in
  let text := Py.strip_by is_hyphen (squeeze_spaces false text) in
  Py.or_else text "page".

(** ** Results, exceptions and events *)

(** Exceptions the program raises. The payload is what the message
    interpolates:
    - [ValueError_missing]: "CSV validation error on line {line_no}: missing
      required column(s) {missing}. Row: {row}";
    - [ValueError_duplicate]: "Duplicate id '{nid}' on line {line_no}";
    - [ValueError_int]: raised by [int] on a literal it rejects;
    - [ValueError_parent]: "parent_id '{pid}' of node '{nid}' not found in CSV";
    - [KeyError]: a failed subscript [nodes[key]];
    - [SystemExit]: with its message. *)
Inductive exn : Type :=
| ValueError_missing (line_no : nat) (missing : list string) (row : gmap string string)
| ValueError_duplicate (nid : string) (line_no : nat)
| ValueError_int (literal : string)
| ValueError_parent (pid nid : string)
| KeyError (key : string)
| SystemExit (msg : string).

Inductive res (A : Type) : Type :=
| Ok (a : A)
| Raise (e : exn)
| OutOfFuel.

Arguments Ok {A} a.
Arguments Raise {A} e.
Arguments OutOfFuel {A}.

#[export] Instance res_ret : MRet res := fun A a => Ok a.

#[export] Instance res_bind : MBind res := fun A B k r =>
  match r with
  | Ok a => k a
  | Raise e => Raise e
  | OutOfFuel => OutOfFuel
  end.

(** ** The node model *)

Record Node : Type := mkNode {
  id : string;
  parent_id : string;
  label : string;
  slug : string;
  kind : string;
  file_path : string;
  order : Z;
  description : string;
  draft : string;
  search_exclude : string;
  external_url : string;
  icon : string;
  sidebar_as : string
}.

Definition set_slug (n : Node) (s : string) : Node :=
  mkNode (id n) (parent_id n) (label n) s (kind n) (file_path n) (order n)
         (description n) (draft n) (search_exclude n) (external_url n) (icon n)
         (sidebar_as n).

Definition set_file_path (n : Node) (p : string) : Node :=
  mkNode (id n) (parent_id n) (label n) (slug n) (kind n) p (order n)
         (description n) (draft n) (search_exclude n) (external_url n) (icon n)
         (sidebar_as n).

(** [nodes.get(key)]: the dict is keyed by [id]. *)
Fixpoint nodes_get (nodes : list Node) (key : string) : option Node :=
  match nodes with
  | [] => None
  | n :: rest => if String.eqb (id n) key then Some n else nodes_get rest key
  end.

(** [key in nodes]. *)
Definition nodes_mem (nodes : list Node) (key : string) : bool :=
  match nodes_get nodes key with Some _ => true | None => false end.

(** [nodes[key]]. *)
Definition nodes_item (nodes : list Node) (key : string) : res Node :=
  match nodes_get nodes key with
  | Some n => Ok n
  | None => Raise (KeyError key)
  end.

(** In-place update of the node stored under [id n]. *)
Fixpoint nodes_set (nodes : list Node) (n : Node) : list Node :=
  match nodes with
  | [] => []
  | m :: rest => if String.eqb (id m) (id n) then n :: rest else m :: nodes_set rest n
  end.

(** ** Reading the records *)

(** A record as [csv.DictReader] yields it: column name and field, in column
    order. The name is [None] for the fields beyond the header, a field is
    [None] when the record is shorter than the header. *)
Definition raw_row : Type := list (option string * option string).

Definition opt_str (v : option string) : string := default "" v.

(** [normalize_row_keys]. The characters [lstrip] would remove (U+FEFF) lie
    outside the modelled range, so on modelled keys it removes nothing. *)
Fixpoint normalize_into (out : gmap string string) (raw : raw_row) : gmap string string :=
  match raw with
  | [] => out
  | (None, _) :: rest => normalize_into out rest
  | (Some k, v) :: rest =>
      let nk := Py.lower (Py.strip k) in
      normalize_into (<[nk := Py.strip (opt_str v)]> out) rest
  end.

Definition normalize_row_keys (raw : raw_row) : gmap string string :=
  normalize_into ∅ raw.

(** [row.get(k, "")], which is also [row.get(k) or ""]. *)
Definition row_get (row : gmap string string) (k : string) : string :=
  opt_str (row !! k).

(** [not any((row.get(k) or "").strip() for k in row)]. *)
Definition row_blank (row : gmap string string) : bool :=
  forallb (fun kv => negb (Py.nonempty (Py.strip (snd kv)))) (map_to_list row).

(** The set [required]; the order in which Python walks it only shows in the
    order of the names inside the message. *)
Definition required : list string := ["id"; "label"; "kind"].

Definition missing_columns (row : gmap string string) : list string :=
  filter (fun c => row_get row c = "") required.

Definition order_of (row : gmap string string) : res Z :=
  if Py.isdigit (row_get row "order")
  then match Py.int (row_get row "order") with
       | Some z => Ok z
       | None => Raise (ValueError_int (row_get row "order"))
       end
  else Ok 999%Z.

(** The dict display of [read_nodes]. *)
Definition make_node (row : gmap string string) : res Node :=
  ord ← order_of row;
  Ok (mkNode (row_get row "id")
             (row_get row "parent_id")
             (row_get row "label")
             (Py.or_else (row_get row "slug") (slugify (row_get row "label")))
             (row_get row "kind")
             (row_get row "file_path")
             ord
             (row_get row "description")
             (row_get row "draft")
             (row_get row "search_exclude")
             (row_get row "external_url")
             (row_get row "icon")
             (Py.lower (row_get row "sidebar_as"))).

(** First loop of [read_nodes]; [line_no] is the counter before the record. *)
Fixpoint read_rows (raws : list raw_row) (line_no : nat) (nodes : list Node)
  : res (list Node) :=
  match raws with
  | [] => Ok nodes
  | raw :: rest =>
      let line_no := S line_no in
      let row := normalize_row_keys raw in
      if row_blank row then read_rows rest line_no nodes
      else match missing_columns row with
           | (_ :: _) as missing => Raise (ValueError_missing line_no missing row)
           | [] =>
               let nid := row_get row "id" in
               if nodes_mem nodes nid then Raise (ValueError_duplicate nid line_no)
               else node ← make_node row;
                    read_rows rest line_no (nodes ++ [node])
           end
  end.

(** [children[pid].append(nid)] on the [defaultdict(list)]. *)
Definition children_append (children : gmap string (list string)) (pid nid : string)
  : gmap string (list string) :=
  <[pid := default [] (children !! pid) ++ [nid]]> children.

(** Second loop of [read_nodes], over [todo] = [nodes.values()]. *)
Fixpoint link_children (nodes todo : list Node) (children : gmap string (list string))
  : res (gmap string (list string)) :=
  match todo with
  | [] => Ok children
  | n :: rest =>
      let pid := parent_id n in
      if Py.nonempty pid then
        if nodes_mem nodes pid
        then link_children nodes rest (children_append children pid (id n))
        else Raise (ValueError_parent pid (id n))
      else link_children nodes rest children
  end.

(** The sort key [(order, label.lower())] and Python's [<] on such pairs. *)
Definition sort_key : Type := Z * string.

Definition key_lt (a b : sort_key) : bool :=
  (fst a <? fst b)%Z || ((fst a =? fst b)%Z && String.ltb (snd a) (snd b)).

Definition node_key (n : Node) : sort_key := (order n, Py.lower (label n)).

(** Key of a child id. Every id in a bucket is the id of a stored node; the
    other branch is never taken. *)
Definition id_key (nodes : list Node) (nid : string) : sort_key :=
  match nodes_get nodes nid with
  | Some n => node_key n
  | None => (0%Z, "")
  end.

(** [list.sort(key=...)] and [sorted(..., key=...)]: the stable sort, written
    as insertion from the right. An element moves past those strictly
    smaller only, so equal keys keep their order. *)
Fixpoint insert_by {A : Type} (key : A -> sort_key) (x : A) (l : list A) : list A :=
  match l with
  | [] => [x]
  | y :: l' => if key_lt (key y) (key x) then y :: insert_by key x l' else x :: y :: l'
  end.

Fixpoint sort_by {A : Type} (key : A -> sort_key) (l : list A) : list A :=
  match l with
  | [] => []
  | x :: l' => insert_by key x (sort_by key l')
  end.

(** [read_nodes], from the records the CSV reader yields. *)
Definition read_nodes (raws : list raw_row)
  : res (list Node * gmap string (list string)) :=
  nodes ← read_rows raws 1 [];
  children ← link_children nodes nodes ∅;
  Ok (nodes, sort_by (id_key nodes) <$> (children : gmap string (list string))).

Definition is_root (n : Node) : bool :=
  String.eqb (parent_id n) "" && String.eqb (kind n) "navbar".

Definition find_roots (nodes : list Node) : list Node := filter is_root nodes.

(** ** Path derivation *)

Definition nl : string := String (ascii_of_nat 10) EmptyString.
Definition dq : string := String (ascii_of_nat 34) EmptyString.

Definition index_kind (k : string) : bool :=
  String.eqb k "navbar" || String.eqb k "landing" || String.eqb k "section".

(** The [while pid:] loop of [compute_default_file_path]. *)
Fixpoint ancestry_loop (fuel : nat) (nodes : list Node) (path_slugs : list string)
  (pid : string) : res (list string) :=
  if Py.nonempty pid then
    match fuel with
    | O => OutOfFuel
    | S fuel' =>
        p ← nodes_item nodes pid;
        ancestry_loop fuel' nodes (path_slugs ++ [slug p]) (parent_id p)
    end
  else Ok path_slugs.

Definition compute_default_file_path (fuel : nat) (nodes : list Node)
  (children : gmap string (list string)) (node_id : string) : res string :=
  n ← nodes_item nodes node_id;
  if String.eqb (kind n) "external" then Ok EmptyString
  else
    path_slugs ← ancestry_loop fuel nodes [slug n] (parent_id n);
    let path_slugs := rev path_slugs in
    if index_kind (kind n)
    then Ok (Py.join "/" (path_slugs ++ ["index.qmd"]))
    else Ok (Py.join "/" (removelast path_slugs ++ [slug n +:+ ".qmd"])).

(** Body of the loop of [ensure_paths] for the node stored under [nid]. *)
Definition ensure_path (fuel : nat) (children : gmap string (list string))
  (nodes : list Node) (nid : string) : res (list Node) :=
  n ← nodes_item nodes nid;
  let n := if Py.nonempty (slug n) then n else set_slug n (slugify (label n)) in
  let nodes := nodes_set nodes n in
  if negb (String.eqb (kind n) "external") && negb (Py.nonempty (file_path n))
  then
    p ← compute_default_file_path fuel nodes children nid;
    Ok (nodes_set nodes (set_file_path n p))
  else Ok nodes.

Fixpoint ensure_loop (fuel : nat) (children : gmap string (list string))
  (nodes : list Node) (todo : list string) : res (list Node) :=
  match todo with
  | [] => Ok nodes
  | nid :: rest =>
      nodes' ← ensure_path fuel children nodes nid;
      ensure_loop fuel children nodes' rest
  end.

Definition ensure_paths (fuel : nat) (nodes : list Node)
  (children : gmap string (list string)) : res (list Node) :=
  ensure_loop fuel children nodes (map id nodes).

(** ** Sidebar and navbar rendering *)

Definition landing_render_mode (node : Node) (has_children : bool) : string * string :=
  let mode := Py.lower (sidebar_as node) in
  if String.eqb mode "text" || String.eqb mode "section"
  then (mode, "explicit")
  else ((if has_children then "section" else "text"), "auto").

(** [children.get(node_id, [])]. *)
Definition children_get (children : gmap string (list string)) (node_id : string)
  : list string :=
  default [] (children !! node_id).

Definition nonempty_list {A : Type} (l : list A) : bool :=
  match l with [] => false | _ => true end.

(** The mode bound in [build_sidebar_contents] for a landing or section
    node. *)
Definition sidebar_mode (n : Node) (kids : list string) : string :=
  if String.eqb (kind n) "landing"
  then fst (landing_render_mode n (nonempty_list kids))
  else "section".

Definition href_of (n : Node) : string :=
  if String.eqb (kind n) "external" then external_url n else file_path n.

Definition indent_lines (pad : string) (lines : list string) : list string :=
  map (fun l => pad +:+ l) lines.

(** A [for] loop that extends a list of lines by what [body] gives for each
    element. *)
Fixpoint for_lines {A : Type} (body : A -> res (list string)) (l : list A)
  : res (list string) :=
  match l with
  | [] => Ok []
  | x :: rest =>
      here ← body x;
      more ← for_lines body rest;
      Ok (here ++ more)
  end.

Definition text_entry (n : Node) : list string :=
  [ "- text: " +:+ dq +:+ label n +:+ dq;
    "  href: " +:+ href_of n ].

(** Body of the loop over [kids] in [build_sidebar_contents]; [render] is
    the nested call. *)
Definition nested_child_lines (render : string -> res (list string))
  (nodes : list Node) (cid : string) : res (list string) :=
  child ← nodes_item nodes cid;
  if String.eqb (kind child) "landing" || String.eqb (kind child) "section"
  then sub ← render cid;
       Ok (indent_lines "    " sub)
  else Ok [ "    - text: " +:+ dq +:+ label child +:+ dq;
            "      href: " +:+ href_of child ].

Fixpoint build_sidebar_contents (fuel : nat) (nodes : list Node)
  (children : gmap string (list string)) (node_id : string) : res (list string) :=
  match fuel with
  | O => OutOfFuel
  | S fuel' =>
      n ← nodes_item nodes node_id;
      let kids := children_get children node_id in
      if String.eqb (kind n) "landing" || String.eqb (kind n) "section" then
        if String.eqb (sidebar_mode n kids) "section" then
          let lines :=
            ["- section: " +:+ dq +:+ label n +:+ dq] ++
            (if Py.nonempty (file_path n) then ["  href: " +:+ file_path n] else []) in
          if nonempty_list kids then
            sub ← for_lines
                    (nested_child_lines (build_sidebar_contents fuel' nodes children) nodes)
                    kids;
            Ok (lines ++ ["  contents:"] ++ sub)
          else Ok lines
        else Ok (text_entry n)
      else Ok (text_entry n)
  end.

(** The navbar entry of one root. *)
Definition navbar_entry (root : Node) : list string :=
  ["      - text: " +:+ dq +:+ label root +:+ dq] ++
  (if Py.nonempty (file_path root) then ["        href: " +:+ file_path root] else []).

Definition truthy (o : option string) : bool :=
  match o with Some s => Py.nonempty s | None => false end.

(** [any(nodes[cid]["kind"] == "landing" for cid in root_children)]. *)
Fixpoint any_landing (nodes : list Node) (root_children : list string) : res bool :=
  match root_children with
  | [] => Ok false
  | cid :: rest =>
      c ← nodes_item nodes cid;
      if String.eqb (kind c) "landing" then Ok true else any_landing nodes rest
  end.

(** The default link of a root at the head of its sidebar. *)
Definition root_link (root : Node) : list string :=
  [ "        - text: " +:+ dq +:+ label root +:+ dq;
    "          href: " +:+ file_path root ].

(** The loop over [root_children] in [build_yaml]. *)
Definition root_child_lines (fuel : nat) (nodes : list Node)
  (children : gmap string (list string)) (cid : string) : res (list string) :=
  c ← nodes_item nodes cid;
  if String.eqb (kind c) "landing" || String.eqb (kind c) "section" then
    sub ← build_sidebar_contents fuel nodes children cid;
    Ok (indent_lines "        " sub)
  else if String.eqb (kind c) "item" || String.eqb (kind c) "external" then
    Ok [ "        - text: " +:+ dq +:+ label c +:+ dq;
         "          href: " +:+ href_of c ]
  else Ok [].

(** The lines that open the sidebar of one root. *)
Definition sidebar_head (sidebar_style sidebar_background : option string) (root : Node)
  : list string :=
  ["    - title: " +:+ dq +:+ label root +:+ dq] ++
  (if truthy sidebar_style
   then ["      style: " +:+ dq +:+ opt_str sidebar_style +:+ dq] else []) ++
  (if truthy sidebar_background
   then ["      background: " +:+ opt_str sidebar_background] else []) ++
  ["      contents:"].

(** The lines [build_yaml] appends for one root in the sidebar loop. *)
Definition sidebar_block (fuel : nat) (nodes : list Node)
  (children : gmap string (list string))
  (sidebar_style sidebar_background : option string) (root : Node)
  : res (list string) :=
  let root_children := children_get children (id root) in
  has_explicit_landing_child ← any_landing nodes root_children;
  let link :=
    if Py.nonempty (file_path root) && negb has_explicit_landing_child
    then root_link root else [] in
  kids ← for_lines (root_child_lines fuel nodes children) root_children;
  Ok (sidebar_head sidebar_style sidebar_background root ++ link ++ kids ++ [EmptyString]).

Definition build_yaml (fuel : nat) (site_title : string) (roots nodes : list Node)
  (children : gmap string (list string)) (theme1 theme2 css : string) (toc : bool)
  (sidebar_style sidebar_background : option string) : res string :=
  let L :=
    [ "project:";
      "  pre-render:";
      "    - " +:+ dq +:+ "python generate_quarto_nav.py nodes.csv --yml-out _quarto.yml --create-stubs --sidebar-style docked --sidebar-background light" +:+ dq;
      "  resources:";
      "    - nodes.csv";
      "    - page_content.csv";
      "  type: website";
      EmptyString;
      "website:";
      "  title: " +:+ dq +:+ site_title +:+ dq;
      "  navbar:";
      "    left:" ] ++
    List.concat (map navbar_entry roots) ++
    [ EmptyString; "  sidebar:" ] in
  blocks ← for_lines (sidebar_block fuel nodes children sidebar_style sidebar_background) roots;
  let L := L ++ blocks ++
    [ EmptyString;
      "format:";
      "  html:";
      "    theme:";
      "      - " +:+ theme1;
      "      - " +:+ theme2;
      "    css: " +:+ css;
      "    toc: " +:+ (if toc then "true" else "false");
      EmptyString ] in
  Ok (Py.rstrip (Py.join nl L) +:+ nl).

(** ** Validation printout *)

Definition node_line (children : gmap string (list string)) (n : Node) : string :=
  let basic := label n +:+ " [" +:+ kind n +:+ "]" in
  if String.eqb (kind n) "landing" then
    let mode := fst (landing_render_mode n (nonempty_list (children_get children (id n)))) in
    basic +:+ " (sidebar_as=" +:+ Py.or_else (sidebar_as n) "auto" +:+ " -> " +:+ mode +:+ ")"
  else basic.

Definition landing_warning (children : gmap string (list string)) (n : Node)
  : list string :=
  if String.eqb (kind n) "landing" then
    let has_kids := nonempty_list (children_get children (id n)) in
    if String.eqb (fst (landing_render_mode n has_kids)) "text" && has_kids
    then ["Landing '" +:+ label n +:+ "' (id=" +:+ id n +:+
          ") set to 'text' but has children; children won't appear nested under it."]
    else []
  else [].

Fixpoint spaces (depth : nat) : string :=
  match depth with
  | O => EmptyString
  | S d => "  " +:+ spaces d
  end.

(** The inner function [walk]: the lines it prints. *)
Fixpoint walk (fuel : nat) (nodes : list Node) (children : gmap string (list string))
  (nid : string) (depth : nat) : res (list string) :=
  match fuel with
  | O => OutOfFuel
  | S fuel' =>
      n ← nodes_item nodes nid;
      below ← for_lines (fun cid => walk fuel' nodes children cid (S depth))
                        (children_get children nid);
      Ok ((spaces depth +:+ "- " +:+ node_line children n) :: below)
  end.

(** [validate_tree]: the lines it prints. *)
Definition validate_tree (fuel : nat) (nodes : list Node)
  (children : gmap string (list string)) : res (list string) :=
  let roots := sort_by node_key (find_roots nodes) in
  let warnings := List.concat (map (landing_warning children) nodes) in
  tree ← for_lines (fun r => walk fuel nodes children (id r) 0) roots;
  Ok (["=== Navigation tree ==="] ++ tree ++
      (if nonempty_list warnings
       then (nl +:+ "=== Warnings ===") :: map (fun w => "- " +:+ w) warnings
       else [nl +:+ "No warnings."])).

(** ** Page content *)

(** [read_page_content] on the records of the content file; [None] when the
    file does not exist. *)
Fixpoint content_items (items : gmap string (gmap string string)) (raws : list raw_row)
  : gmap string (gmap string string) :=
  match raws with
  | [] => items
  | raw :: rest =>
      let row := normalize_row_keys raw in
      let nid := Py.strip (row_get row "id") in
      if Py.nonempty nid then content_items (<[nid := row]> items) rest
      else content_items items rest
  end.

Definition read_page_content (content : option (list raw_row))
  : gmap string (gmap string string) :=
  match content with
  | None => ∅
  | Some raws => content_items ∅ raws
  end.

Definition autogen_marker : string := "autogen: true".

(** [file_has_autogen_flag] on what reading the file returns ([None]: it
    cannot be read). *)
Definition file_has_autogen_flag (held : option string) : bool :=
  match held with
  | Some text => Py.contains autogen_marker (Py.take 2000 text)
  | None => false
  end.

Definition grid_keys : list string :=
  ["grid_sidebar_width"; "grid_body_width"; "grid_margin_width"; "grid_gutter_width"].

Definition grid_lines (cfg : gmap string string) : list string :=
  if existsb (fun k => Py.nonempty (row_get cfg k)) grid_keys then
    filter (fun ln => Py.endswith ln ": " = false)
      [ "format:";
        "  html:";
        "    grid:";
        Py.rstrip ("      sidebar-width: " +:+ row_get cfg "grid_sidebar_width");
        Py.rstrip ("      body-width: " +:+ row_get cfg "grid_body_width");
        Py.rstrip ("      margin-width: " +:+ row_get cfg "grid_margin_width");
        Py.rstrip ("      gutter-width: " +:+ row_get cfg "grid_gutter_width") ]
  else [].

Definition front_matter_text (cfg : gmap string string) (title : string) : string :=
  Py.join nl (["---"; "title: " +:+ dq +:+ title +:+ dq; autogen_marker] ++
              grid_lines cfg ++ ["---"]).

Definition iframe_block (style height width src : string) : list string :=
  [ "```{=html}";
    "<iframe style=" +:+ dq +:+ style +:+ dq +:+ " height=" +:+ dq +:+ height +:+ dq +:+
    " width=" +:+ dq +:+ width +:+ dq +:+ " src=" +:+ dq +:+ src +:+ dq +:+ "></iframe>";
    "```";
    EmptyString ].

(** [cfg.get(new) or cfg.get(old) or fallback]. *)
Definition cfg_first (cfg : gmap string string) (new old fallback : string) : string :=
  Py.or_else (row_get cfg new) (Py.or_else (row_get cfg old) fallback).

Definition first_iframe (cfg : gmap string string) : list string :=
  iframe_block (cfg_first cfg "iframe1_style" "iframe_style" "border:none;")
               (cfg_first cfg "iframe1_height" "iframe_height" "800")
               (cfg_first cfg "iframe1_width" "iframe_width" "100%")
               (cfg_first cfg "iframe1_src" "iframe_src" EmptyString).

Definition second_iframe (cfg : gmap string string) : list string :=
  iframe_block (Py.or_else (row_get cfg "iframe2_style") "border:none;")
               (Py.or_else (row_get cfg "iframe2_height") "800")
               (Py.or_else (row_get cfg "iframe2_width") "100%")
               (row_get cfg "iframe2_src").

Definition layout_open (cfg : gmap string string) (fallback : string) : list string :=
  let intro := Py.strip (row_get cfg "intro_md") in
  let layout := Py.strip (Py.or_else (row_get cfg "layout") fallback) in
  (if Py.nonempty intro then [intro; EmptyString] else []) ++
  [ "::: {layout=" +:+ dq +:+ layout +:+ dq +:+ "}"; EmptyString ].

Definition render_single_iframe (cfg : gmap string string) (title : string) : string :=
  let body := layout_open cfg "[ [1] ]" ++ first_iframe cfg ++ [":::"] in
  front_matter_text cfg title +:+ nl +:+ nl +:+ Py.join nl body +:+ nl.

Definition render_doble_iframe (cfg : gmap string string) (title : string) : string :=
  let body := layout_open cfg "[ [1,1] ]" ++ first_iframe cfg ++ second_iframe cfg ++ [":::"] in
  front_matter_text cfg title +:+ nl +:+ nl +:+ Py.join nl body +:+ nl.

(** The text [write_stub] writes when the page does not exist. *)
Definition stub_text (title : string) (is_landing : bool)
  (children_links : option (list (string * string))) (description : string) : string :=
  let front_matter :=
    ["---"; "title: " +:+ dq +:+ title +:+ dq] ++
    (if Py.nonempty description
     then ["description: " +:+ dq +:+ description +:+ dq] else []) ++
    ["---"] in
  let fm := Py.join nl front_matter +:+ nl +:+ nl in
  let links := default [] children_links in
  let body :=
    if is_landing && nonempty_list links
    then "## Contents" +:+ nl +:+ nl +:+
         fold_left (fun body l => body +:+ "- [" +:+ fst l +:+ "](" +:+ snd l +:+ ")" +:+ nl)
                   links EmptyString +:+ nl
    else "Content for **" +:+ title +:+ "**." +:+ nl in
  fm +:+ body.

(** ** Files and output *)

Inductive event : Type :=
| Print (line : string)
| Write (path content : string).

(** The file system (path to text) and the trace of events so far. *)
Record world : Type := mkWorld {
  files : gmap string string;
  trace : list event
}.

Definition io (A : Type) : Type := world -> res A * world.

#[export] Instance io_ret : MRet io := fun A a w => (Ok a, w).

#[export] Instance io_bind : MBind io := fun A B k m w =>
  match m w with
  | (Ok a, w') => k a w'
  | (Raise e, w') => (Raise e, w')
  | (OutOfFuel, w') => (OutOfFuel, w')
  end.

Definition io_lift {A : Type} (r : res A) : io A := fun w => (r, w).

Definition io_print (line : string) : io unit :=
  fun w => (Ok tt, mkWorld (files w) (trace w ++ [Print line])).

(** [open(path, "w").write(text)], taken to succeed. Directories are not
    modelled, so [make_dirs_for] changes nothing, and the errors [open]
    raises for a missing directory or for a path that is a directory are
    outside the model. *)
Definition io_write (path text : string) : io unit :=
  fun w => (Ok tt, mkWorld (<[path := text]> (files w)) (trace w ++ [Write path text])).

(** What reading the file at [path] in text mode returns, [None] when
    there is no file. *)
Definition io_read (path : string) : io (option string) :=
  fun w => (Ok (Py.universal_newlines <$> files w !! path), w).

(** [os.path.exists(path)]. *)
Definition io_exists (path : string) : io bool :=
  fun w => (Ok (bool_decide (is_Some (files w !! path))), w).

Fixpoint io_for {A : Type} (body : A -> io unit) (l : list A) : io unit :=
  match l with
  | [] => mret tt
  | x :: rest => _ ← body x; io_for body rest
  end.

Definition write_stub (page_path title : string) (is_landing : bool)
  (children_links : option (list (string * string))) (description : string) : io unit :=
  there ← io_exists page_path;
  if (there : bool) then mret tt
  else io_write page_path (stub_text title is_landing children_links description).

(** ** The entry point *)

Record Args : Type := mkArgs {
  site_title : string;
  yml_out : string;
  create_stubs : bool;
  dry_run : bool;
  validate : bool;
  sidebar_style : option string;
  sidebar_background : option string;
  theme1 : string;
  theme2 : string;
  css : string;
  no_toc : bool
}.

Definition no_roots_message : string :=
  "No root navbar nodes found (kind=navbar & empty parent_id).".

(** [content_cfg and content_cfg.get("template") == name]: a record that
    holds a template is not empty. *)
Definition selects (content_cfg : option (gmap string string)) (name : string) : bool :=
  match content_cfg with
  | Some cfg => bool_decide (cfg !! "template" = Some name)
  | None => false
  end.

(** The branch of the page loop shared by the two templates. *)
Definition write_content (fp text template : string) : io unit :=
  there ← io_exists fp;
  held ← io_read fp;
  let can_write := negb there || file_has_autogen_flag held in
  if can_write then
    _ ← io_write fp text;
    io_print ("Wrote content for " +:+ fp +:+ " (" +:+ template +:+ ")")
  else io_print ("Skip content write (manual page): " +:+ fp).

Fixpoint child_links (nodes : list Node) (kids : list string)
  : res (list (string * string)) :=
  match kids with
  | [] => Ok []
  | cid :: rest =>
      child ← nodes_item nodes cid;
      more ← child_links nodes rest;
      Ok ((label child, href_of child) :: more)
  end.

(** Body of the loop [for n in nodes.values()] under [--create-stubs]. *)
Definition create_page (nodes : list Node) (children : gmap string (list string))
  (content_by_id : gmap string (gmap string string)) (n : Node) : io unit :=
  if String.eqb (kind n) "external" then mret tt
  else
    let fp := file_path n in
    if negb (Py.nonempty fp) then mret tt
    else
      let content_cfg := content_by_id !! id n in
      if selects content_cfg "single_iframe" then
        write_content fp (render_single_iframe (default ∅ content_cfg) (label n)) "single_iframe"
      else if selects content_cfg "doble_iframe" then
        write_content fp (render_doble_iframe (default ∅ content_cfg) (label n)) "doble_iframe"
      else
        let is_landing := String.eqb (kind n) "landing" || String.eqb (kind n) "section" in
        children_links ←
          match (if is_landing then children !! id n else None) with
          | Some kids => links ← io_lift (child_links nodes kids); mret (Some links)
          | None => mret None
          end;
        write_stub fp (label n) is_landing children_links (description n).

(** The change-only write of the configuration document. *)
Definition write_yaml (yml_out yaml_text : string) : io unit :=
  old ← io_read yml_out;
  if bool_decide (old = Some yaml_text)
  then io_print (yml_out +:+ " unchanged")
  else _ ← io_write yml_out yaml_text;
       io_print ("Wrote " +:+ yml_out).

(** The nodes the list [roots] refers to, as they are now: the list holds
    the dicts stored in [nodes], which [ensure_paths] updates in place. *)
Fixpoint deref (nodes : list Node) (ids : list string) : res (list Node) :=
  match ids with
  | [] => Ok []
  | i :: rest =>
      n ← nodes_item nodes i;
      more ← deref nodes rest;
      Ok (n :: more)
  end.

(** [main] up to [ensure_paths]: the table with its paths, [children], and
    the sorted roots as they are after path derivation. *)
Definition plan (fuel : nat) (raws : list raw_row)
  : res (list Node * gmap string (list string) * list Node) :=
  read ← read_nodes raws;
  let nodes := fst (read : list Node * gmap string (list string)) in
  let children := snd read in
  let roots := sort_by node_key (find_roots nodes) in
  if negb (nonempty_list roots) then Raise (SystemExit no_roots_message)
  else
    nodes ← ensure_paths fuel nodes children;
    roots ← deref nodes (map id roots);
    Ok (nodes, children, roots).

(** The call of [build_yaml] in [main]. *)
Definition render_yaml (fuel : nat) (args : Args) (nodes : list Node)
  (children : gmap string (list string)) (roots : list Node) : res string :=
  build_yaml fuel (site_title args) roots nodes children
             (theme1 args) (theme2 args) (css args) (negb (no_toc args))
             (sidebar_style args) (sidebar_background args).

Definition main (fuel : nat) (args : Args) (raws : list raw_row)
  (content : option (list raw_row)) : io unit :=
  planned ← io_lift (plan fuel raws);
  let nodes := fst (fst (planned : list Node * gmap string (list string) * list Node)) in
  let children := snd (fst planned) in
  let roots := snd planned in
  let content_by_id := read_page_content content in
  if validate args then
    lines ← io_lift (validate_tree fuel nodes children);
    io_for io_print lines
  else
    yaml_text ← io_lift (render_yaml fuel args nodes children roots);
    _ ← (if dry_run args then io_print yaml_text
         else write_yaml (yml_out args) yaml_text);
    if create_stubs args
    then io_for (create_page nodes children content_by_id) nodes
    else mret tt.

(** A world with the given files and nothing printed yet. *)
Definition start (fs : gmap string string) : world := mkWorld fs [].

(** ** The derived path in the words of the specification *)

(** [ancestry nodes i chain]: [chain] lists the slugs from the root down to
    the node stored under [i], following [parent_id] links to a node whose
    [parent_id] is empty. *)
Inductive ancestry (nodes : list Node) : string -> list string -> Prop :=
| ancestry_root i n :
    nodes_get nodes i = Some n ->
    parent_id n = EmptyString ->
    ancestry nodes i [slug n]
| ancestry_child i n chain :
    nodes_get nodes i = Some n ->
    parent_id n <> EmptyString ->
    ancestry nodes (parent_id n) chain ->
    ancestry nodes i (chain ++ [slug n]).

(** The path of a page: the ancestry and "index" for an index page, the
    ancestry but its last slug and the node's slug otherwise, joined by the
    separator, with the page extension. *)
Definition derived_path (n : Node) (chain : list string) : string :=
  if index_kind (kind n)
  then Py.join "/" (chain ++ ["index"]) +:+ ".qmd"
  else Py.join "/" (removelast chain ++ [slug n]) +:+ ".qmd".

(** * Vocabulary of the properties *)

(** The claim C8 as stated: a field that is the decimal representation of an
    integer gives that integer. *)
Definition order_is_integer_value : Prop :=
  forall (row : gmap string string) (z : Z),
    row_get row "order" = pretty z ->
    exists node, make_node row = Ok node /\ order node = z.

Definition ids (nodes : list Node) : list string := map id nodes.

(** The records [read_nodes] keeps: normalised and not blank. *)
Definition records (raws : list raw_row) : list (gmap string string) :=
  filter (fun row => row_blank row = false) (map normalize_row_keys raws).

Definition record_id (row : gmap string string) : string := row_get row "id".

(** [a <= b] on sort keys: Python's [not (b < a)]. *)
Definition key_le (a b : sort_key) : Prop := key_lt b a = false.

(** The order a key function induces on what it keys. *)
Definition le_by {A : Type} (key : A -> sort_key) (x y : A) : Prop :=
  key_le (key x) (key y).

(** The ids of the nodes whose [parent_id] is [pid], in table order. *)
Definition kids_of (nodes : list Node) (pid : string) : list string :=
  id <$> filter (fun n => parent_id n = pid) nodes.

(** What [children] holds once the nodes [done] have been linked. *)
Definition linked (done : list Node) (children : gmap string (list string)) : Prop :=
  forall pid,
    children !! pid =
      if decide (pid = EmptyString \/ kids_of done pid = []) then None
      else Some (kids_of done pid).

(** [a] may stand before [b] among siblings: by order, then by lowercased
    label. *)
Definition sibling_le (nodes : list Node) (a b : string) : Prop :=
  exists na nb,
    nodes_get nodes a = Some na /\ nodes_get nodes b = Some nb /\
    ((order na < order nb)%Z \/
     (order na = order nb /\
      String.leb (Py.lower (label na)) (Py.lower (label nb)) = true)).

(** A node gets a path when it is not external and has none. *)
Definition needs_path (n : Node) : bool :=
  negb (String.eqb (kind n) "external") && negb (Py.nonempty (file_path n)).

(** What the ancestry walk reads of a node. *)
Definition skeleton (n : Node) : string * string * string * string :=
  (id n, parent_id n, slug n, kind n).

(** What [ensure_paths] makes of one node: [n'] is [n] with the computed
    path when the node needs one, and [n] otherwise. *)
Definition derived (fuel : nat) (nodes : list Node) (children : gmap string (list string))
  (n n' : Node) : Prop :=
  if needs_path n
  then exists p, compute_default_file_path fuel nodes children (id n) = Ok p /\
                 n' = set_file_path n p
  else n' = n.

(** The text of an exception's message. For [ValueError_missing] the text
    stops where the displays of [missing] and of the row begin; for
    [ValueError_int] and [KeyError] it is the text for a value that needs no
    escape. *)
Definition exn_text (e : exn) : string :=
  match e with
  | ValueError_missing line_no _ _ =>
      "CSV validation error on line " +:+ Py.str_of_nat line_no +:+
      ": missing required column(s) "
  | ValueError_duplicate nid line_no =>
      "Duplicate id '" +:+ nid +:+ "' on line " +:+ Py.str_of_nat line_no
  | ValueError_int literal =>
      "invalid literal for int() with base 10: '" +:+ literal +:+ "'"
  | ValueError_parent pid nid =>
      "parent_id '" +:+ pid +:+ "' of node '" +:+ nid +:+ "' not found in CSV"
  | KeyError key => "'" +:+ key +:+ "'"
  | SystemExit msg => msg
  end.

(** [text] shows [part]. *)
Definition mentions (text part : string) : Prop :=
  exists before after, text = before +:+ part +:+ after.

(** The four conditions, on the records kept. *)
Definition has_missing_field (raws : list raw_row) : Prop :=
  exists row, row ∈ records raws /\
    (row_get row "id" = EmptyString \/ row_get row "label" = EmptyString \/
     row_get row "kind" = EmptyString).

Definition has_duplicate_id (raws : list raw_row) : Prop :=
  exists i j row row', i < j /\
    records raws !! i = Some row /\ records raws !! j = Some row' /\
    record_id row = record_id row'.

Definition has_unknown_parent (raws : list raw_row) : Prop :=
  exists row, row ∈ records raws /\
    row_get row "parent_id" <> EmptyString /\
    row_get row "parent_id" ∉ record_id <$> records raws.

Definition has_no_root (raws : list raw_row) : Prop :=
  forall row, row ∈ records raws ->
    ~ (row_get row "parent_id" = EmptyString /\ row_get row "kind" = "navbar").

(** The last sentence of C7 as stated: when one of the four conditions
    holds, the message of the error that ends the run shows the id of a
    record or a line number. *)
Definition every_fatal_message_locates : Prop :=
  forall fuel args raws content w e w',
    has_missing_field raws \/ has_duplicate_id raws \/ has_unknown_parent raws \/
    has_no_root raws ->
    main fuel args raws content w = (Raise e, w') ->
    (exists row, row ∈ records raws /\ mentions (exn_text e) (record_id row)) \/
    (exists line_no, mentions (exn_text e) (Py.str_of_nat line_no)).

(** The text and the name of the template the content records select for a
    node, if any. *)
Definition template_of (content_by_id : gmap string (gmap string string)) (n : Node)
  : option (string * string) :=
  let cfg := content_by_id !! id n in
  if selects cfg "single_iframe"
  then Some (render_single_iframe (default ∅ cfg) (label n), "single_iframe")
  else if selects cfg "doble_iframe"
  then Some (render_doble_iframe (default ∅ cfg) (label n), "doble_iframe")
  else None.

(** The gate of the templated writes, on what is stored at the path: no
    file, or a file that reads with the marker in its first 2000
    characters. *)
Definition may_write (held : option string) : bool :=
  match held with
  | None => true
  | Some text => file_has_autogen_flag (Some (Py.universal_newlines text))
  end.

(** Files for which the gate of the templated writes is closed in [w] are
    the same in [w']. *)
Definition unmarked_kept (w w' : world) : Prop :=
  forall path text,
    files w !! path = Some text -> may_write (Some text) = false ->
    files w' !! path = Some text.

(** [strip_prefix p s]: what follows [p] in [s], when [s] starts with [p]. *)
Fixpoint strip_prefix (p s : string) : option string :=
  match p with
  | EmptyString => Some s
  | String a p' =>
      match s with
      | String b s' => if Ascii.eqb a b then strip_prefix p' s' else None
      | EmptyString => None
      end
  end.

(** A closing line of a header starts here: a line feed, three hyphens and
    the end of the line. What follows the hyphens is returned. *)
Definition closes_here (s : string) : option string :=
  match strip_prefix (nl +:+ "---") s with
  | Some rest =>
      if negb (Py.nonempty rest) || String.prefix nl rest then Some rest else None
  | None => None
  end.

(** The text up to the first closing line, and what follows that line's
    hyphens. *)
Fixpoint cut_header (s : string) : option (string * string) :=
  match closes_here s with
  | Some rest => Some (EmptyString, rest)
  | None =>
      match s with
      | EmptyString => None
      | String c s' =>
          match cut_header s' with
          | Some (h, rest) => Some (String c h, rest)
          | None => None
          end
      end
  end.

(** The header of a page in the words of the specification (the front
    matter of the docstrings): the block that opens with a line of three
    hyphens at the very start of the text and closes with the next such
    line. [split_header text] is the text between the two lines and the
    text after the closing one; [None] when the text has no header. *)
Definition split_header (text : string) : option (string * string) :=
  match strip_prefix "---" text with
  | Some rest => if String.prefix nl rest then cut_header rest else None
  | None => None
  end.

(** The header of [text] carries the marker. *)
Definition header_marked (text : string) : bool :=
  match split_header text with
  | Some (h, _) => Py.contains autogen_marker h
  | None => false
  end.

(** [s] holds no carriage return. *)
Definition no_carriage_return (s : string) : bool :=
  Py.all_chars (fun c => negb (Py.code c =? 13)) s.

(** [s] does not show the marker. *)
Definition marker_free (s : string) : Prop := Py.contains autogen_marker s = false.

(** A page that holds the marker, if at all, in its header, that header
    ending within the 2000 characters that [file_has_autogen_flag] reads: on
    such a page the test of the code and the header agree. *)
Definition plain_page (text : string) : Prop :=
  match split_header text with
  | Some (h, body) =>
      marker_free body /\
      (Py.contains autogen_marker h = true -> String.length h + 3 <= 2000)
  | None => marker_free text
  end.

(** The gate in the words of the specification, on what is stored at the
    path: no file, or a file whose header carries the marker. *)
Definition page_open (held : option string) : bool :=
  match held with
  | None => true
  | Some text => header_marked (Py.universal_newlines text)
  end.

(** The plain pages of [w] whose header lacks the marker are the same in
    [w']. *)
Definition manual_kept (w w' : world) : Prop :=
  forall path text,
    files w !! path = Some text ->
    plain_page (Py.universal_newlines text) ->
    header_marked (Py.universal_newlines text) = false ->
    files w' !! path = Some text.

(** The sentence of C3 on reporting, as stated: whenever the page of a node
    exists without the marker in its header, the turn of the page loop for
    that node prints a line. *)
Definition manual_skip_is_reported : Prop :=
  forall nodes children content_by_id n w text,
    kind n <> "external" -> file_path n <> EmptyString ->
    files w !! file_path n = Some text ->
    header_marked (Py.universal_newlines text) = false ->
    exists line rest,
      trace (snd (create_page nodes children content_by_id n w)) =
        trace w ++ Print line :: rest.


(** The pages part of [main]. *)
Definition pages_of (args : Args) (nodes : list Node)
  (children : gmap string (list string)) (content : option (list raw_row)) : io unit :=
  if create_stubs args
  then io_for (create_page nodes children (read_page_content content)) nodes
  else mret tt.

(** A table in which [children] lists nodes under their parent and every
    parent chain reaches a root within [bound] nodes. *)
Definition rooted_table (nodes : list Node) (children : gmap string (list string))
  (bound : nat) : Prop :=
  (forall pid c, c ∈ children_get children pid ->
     pid <> EmptyString /\ exists n, nodes_get nodes c = Some n /\ parent_id n = pid) /\
  (forall i n, nodes_get nodes i = Some n ->
     exists chain, ancestry nodes i chain /\ List.length chain <= bound).

(** The lines of the sidebar block of [root] open its contents with the
    default entry of the root. *)
Definition opens_with_root_link (style background : option string) (root : Node)
  (lines : list string) : Prop :=
  exists rest, lines = sidebar_head style background root ++ root_link root ++ rest.

(** The sentence of C5 as stated, on a run: the sidebar block of a root
    opens its contents with the entry of the root exactly when the record of
    the root gives a [file_path] and no direct child of the root is of kind
    landing. *)
Definition explicit_path_decides_root_link : Prop :=
  forall fuel raws nodes children roots style background root row lines,
    plan fuel raws = Ok (nodes, children, roots) ->
    root ∈ roots -> row ∈ records raws -> record_id row = id root ->
    sidebar_block fuel nodes children style background root = Ok lines ->
    (opens_with_root_link style background root lines <->
     row_get row "file_path" <> EmptyString /\
     forall cid c, cid ∈ children_get children (id root) ->
       nodes_get nodes cid = Some c -> kind c <> "landing").

(** [s] holds no line break. *)
Definition single_line (s : string) : bool :=
  Py.all_chars (fun c => negb ((Py.code c =? 10) || (Py.code c =? 13))) s.

(** ** Vocabulary of the further properties *)

(** The characters of a slug: [a-z0-9_-]. *)
Definition slug_safe (c : ascii) : bool :=
  Py.between 97 122 c || Py.between 48 57 c || (Py.code c =? 45) || (Py.code c =? 95).

(** A slug as [slugify] leaves it: not empty, over [a-z0-9_-], with no
    hyphen at either end. *)
Definition clean_slug (s : string) : Prop :=
  s <> EmptyString /\ Py.all_chars slug_safe s = true /\ Py.strip_by is_hyphen s = s.

(** The name under which [normalize_row_keys] stores a column. *)
Definition normal_key (k : string) : string := Py.lower (Py.strip k).

(** [field] is the field of the last column of [raw] whose normalised name
    is [k]. *)
Definition last_column (raw : raw_row) (k : string) (field : option string) : Prop :=
  exists pre k0 post,
    raw = pre ++ (Some k0, field) :: post /\ normal_key k0 = k /\
    forall k1 v1, (Some k1, v1) ∈ post -> normal_key k1 <> k.

(** The id under which [read_page_content] stores a record. *)
Definition content_id (raw : raw_row) : string :=
  Py.strip (row_get (normalize_row_keys raw) "id").

(** [c] is no character of the marker. *)
Definition not_in_marker (c : ascii) : Prop :=
  Py.all_chars (fun x => negb (Ascii.eqb x c)) autogen_marker = true.

(** The seven lines of the grid block. *)
Definition grid_block (cfg : gmap string string) : list string :=
  [ "format:";
    "  html:";
    "    grid:";
    Py.rstrip ("      sidebar-width: " +:+ row_get cfg "grid_sidebar_width");
    Py.rstrip ("      body-width: " +:+ row_get cfg "grid_body_width");
    Py.rstrip ("      margin-width: " +:+ row_get cfg "grid_margin_width");
    Py.rstrip ("      gutter-width: " +:+ row_get cfg "grid_gutter_width") ].

(** What [ensure_paths] may change of a node: [b] is [a] but for its slug,
    which is kept when there is one, and its [file_path], which is kept
    when there is one or the node is external. *)
Definition paths_filled (a b : Node) : Prop :=
  b = set_file_path (set_slug a (slug b)) (file_path b) /\
  (slug a <> EmptyString -> slug b = slug a) /\
  (file_path a <> EmptyString \/ kind a = "external" -> file_path b = file_path a).

(** A node [ensure_paths] has nothing to do for. *)
Definition settled (n : Node) : Prop :=
  slug n <> EmptyString /\ (kind n <> "external" -> file_path n <> EmptyString).

(** [a] may stand before [b] among the roots: by order, then by lowercased
    label. *)
Definition root_le (a b : Node) : Prop :=
  (order a < order b)%Z \/
  (order a = order b /\ String.leb (Py.lower (label a)) (Py.lower (label b)) = true).

(** * Sample inputs *)

Definition sample_landing : Node :=
  mkNode "intro" "docs" "Intro" "intro" "landing" EmptyString 999
         EmptyString EmptyString EmptyString EmptyString EmptyString EmptyString.

Definition sample_row (sidebar order : string) : gmap string string :=
  <["id" := "intro"]> (<["label" := "Intro"]> (<["kind" := "landing"]>
  (<["sidebar_as" := sidebar]> (<["order" := order]> ∅)))).

(** A record with the given columns. *)
Definition raw_of (fields : list (string * string)) : raw_row :=
  map (fun kv => (Some (fst kv), Some (snd kv))) fields.

(** A root with two items, the second one first by order, and a blank
    record. *)
Definition sample_raws : list raw_row :=
  [ raw_of [("id", "docs"); ("parent_id", EmptyString); ("kind", "navbar");
            ("label", "Docs"); ("order", "1")];
    raw_of [("id", EmptyString); ("label", "  ")];
    raw_of [("id", "guide"); ("parent_id", "docs"); ("kind", "item");
            ("label", "Guide"); ("order", "2")];
    raw_of [("id", "intro"); ("parent_id", "docs"); ("kind", "item");
            ("label", "Intro"); ("order", "1")] ].

(** A record set [read_nodes] accepts although a node is its own parent. *)
Definition cyclic_raws : list raw_row :=
  [ raw_of [("id", "docs"); ("kind", "navbar"); ("label", "Docs")];
    raw_of [("id", "loop"); ("parent_id", "loop"); ("kind", "item"); ("label", "Loop")] ].

Definition cyclic_tree : list Node * gmap string (list string) :=
  Eval vm_compute in
    match read_nodes cyclic_raws with
    | Ok tree => tree
    | _ => ([], ∅)
    end.

Definition loop_node : Node :=
  mkNode "loop" "loop" "Loop" "loop" "item" EmptyString 999
         EmptyString EmptyString EmptyString EmptyString EmptyString EmptyString.

Definition docs_node : Node :=
  mkNode "docs" EmptyString "Docs" "docs" "navbar" EmptyString 1
         EmptyString EmptyString EmptyString EmptyString EmptyString EmptyString.

Definition guide_node : Node :=
  mkNode "guide" "docs" "Guide" "guide" "item" EmptyString 999
         EmptyString EmptyString EmptyString EmptyString EmptyString EmptyString.

Definition two_nodes : list Node := [docs_node; guide_node].

(** The table of the sample records. *)
Definition sample_tree : list Node * gmap string (list string) :=
  Eval vm_compute in
    match read_nodes sample_raws with
    | Ok tree => tree
    | _ => ([], ∅)
    end.

(** The arguments of the pre-render command. *)
Definition sample_args : Args :=
  mkArgs "NESBp" "_quarto.yml" true false false (Some "docked") (Some "light")
         "cosmo" "brand" "styles.css" false.

(** The arguments of a run whose site title holds a carriage return. *)
Definition cr_args : Args :=
  mkArgs ("A" +:+ String (ascii_of_nat 13) "B") "_quarto.yml" false false false
         (Some "docked") (Some "light") "cosmo" "brand" "styles.css" false.

(** One record, a root whose order is the superscript two. *)
Definition superscript_raws : list raw_row :=
  [ raw_of [("id", "docs"); ("kind", "navbar"); ("label", "Docs");
            ("order", String (ascii_of_nat 178) EmptyString)] ].

(** One record, an item without parent: no root. *)
Definition lone_raw : raw_row :=
  raw_of [("id", "x7"); ("kind", "item"); ("label", "Lone")].

Definition lone_raws : list raw_row := [lone_raw].

(** The same id twice. *)
Definition twice_raws : list raw_row :=
  [ raw_of [("id", "docs"); ("kind", "navbar"); ("label", "Docs")];
    raw_of [("id", "docs"); ("kind", "navbar"); ("label", "Again")] ].

(** The table of the sample records after path derivation. *)
Definition sample_nodes : list Node :=
  Eval vm_compute in
    match ensure_paths 1 (fst sample_tree) (snd sample_tree) with
    | Ok nodes => nodes
    | _ => []
    end.

Definition sample_root : Node := set_file_path docs_node "docs/index.qmd".

(** A hand-written page where the root of the sample would have its own. *)
Definition manual_files : gmap string string :=
  {[ "docs/index.qmd" := "Hand-written page." ]}.

(** A content record that selects the single-frame template for the guide. *)
Definition sample_content : gmap string (gmap string string) :=
  Eval vm_compute in
    read_page_content
      (Some [raw_of [("id", "guide"); ("template", "single_iframe");
                     ("iframe1_src", "https://x")]]).

Definition sample_guide : Node := set_file_path guide_node "docs/guide.qmd".

(** The world after one run, and after a second one, on the sample
    records. *)
Definition sample_world1 : world :=
  Eval vm_compute in snd (main 2 sample_args sample_raws None (start ∅)).

Definition sample_world2 : world :=
  Eval vm_compute in snd (main 2 sample_args sample_raws None sample_world1).

(** The world after one run with [cr_args] on the sample records. *)
Definition cr_world1 : world :=
  Eval vm_compute in snd (main 2 cr_args sample_raws None (start ∅)).

(** * Properties *)

(** ** Strings *)

Lemma nonempty_true (s : string) : Py.nonempty s = true <-> s <> EmptyString.
Proof. destruct s; simpl; split; congruence. Qed.

Lemma nonempty_false (s : string) : Py.nonempty s = false <-> s = EmptyString.
Proof. destruct s; simpl; split; congruence. Qed.

Lemma or_else_nonempty (a b : string) :
  b <> EmptyString -> Py.or_else a b <> EmptyString.
Proof.
  intros Hb. unfold Py.or_else. destruct (Py.nonempty a) eqn:E; [|done].
  by apply nonempty_true.
Qed.

Lemma slugify_nonempty (text : string) : slugify text <> EmptyString.
Proof. unfold slugify. by apply or_else_nonempty. Qed.

Example slugify_getting_started : slugify "Getting Started!" = "getting-started"%string.
Proof. reflexivity. Qed.

Example slugify_blank : slugify "   " = "page"%string.
Proof. reflexivity. Qed.

Lemma lower_char_idemp (c : ascii) : Py.lower_char (Py.lower_char c) = Py.lower_char c.
Proof. destruct c as [[] [] [] [] [] [] [] []]; reflexivity. Qed.

Lemma lower_idemp (s : string) : Py.lower (Py.lower s) = Py.lower s.
Proof. induction s as [|c s IH]; simpl; [done|]. by rewrite lower_char_idemp, IH. Qed.

Lemma append_nil_r (s : string) : s +:+ EmptyString = s.
Proof. induction s as [|c s IH]; [done|]. change (String c (s +:+ EmptyString) = String c s). by rewrite IH. Qed.

Lemma append_assoc (a b c : string) : (a +:+ b) +:+ c = a +:+ (b +:+ c).
Proof.
  induction a as [|x a IH]; [done|].
  change (String x ((a +:+ b) +:+ c) = String x (a +:+ (b +:+ c))). by rewrite IH.
Qed.

Lemma append_nonempty_r (a b : string) : b <> EmptyString -> a +:+ b <> EmptyString.
Proof. destruct a; [done|]. intros _. discriminate. Qed.

Lemma append_length (a b : string) :
  String.length (a +:+ b) = String.length a + String.length b.
Proof.
  induction a as [|x a IH]; [done|].
  change (S (String.length (a +:+ b)) = S (String.length a + String.length b)).
  by rewrite IH.
Qed.

(** Joining a list whose last part carries a suffix. *)
Lemma join_last_suffix (sep : string) (l : list string) (a b : string) :
  Py.join sep (l ++ [a +:+ b]) = Py.join sep (l ++ [a]) +:+ b.
Proof.
  unfold Py.join. induction l as [|x l IH]; [done|].
  destruct l as [|y l].
  - simpl. by rewrite !append_assoc.
  - change (x +:+ sep +:+ String.concat sep ((y :: l) ++ [a +:+ b]) =
            (x +:+ sep +:+ String.concat sep ((y :: l) ++ [a])) +:+ b).
    rewrite IH. by rewrite !append_assoc.
Qed.

(** ** The landing policy *)

Lemma landing_mode_explicit (n : Node) (has_children : bool) :
  Py.lower (sidebar_as n) = "text" \/ Py.lower (sidebar_as n) = "section" ->
  landing_render_mode n has_children = (Py.lower (sidebar_as n), "explicit").
Proof.
  intros H. unfold landing_render_mode.
  destruct H as [-> | ->]; reflexivity.
Qed.

Lemma landing_mode_auto (n : Node) (has_children : bool) :
  Py.lower (sidebar_as n) <> "text" -> Py.lower (sidebar_as n) <> "section" ->
  landing_render_mode n has_children =
    ((if has_children then "section" else "text"), "auto").
Proof.
  intros H1 H2. unfold landing_render_mode.
  apply String.eqb_neq in H1, H2. by rewrite H1, H2.
Qed.

Lemma make_node_fields (row : gmap string string) (n : Node) :
  make_node row = Ok n ->
  id n = row_get row "id" /\
  parent_id n = row_get row "parent_id" /\
  label n = row_get row "label" /\
  slug n = Py.or_else (row_get row "slug") (slugify (row_get row "label")) /\
  kind n = row_get row "kind" /\
  file_path n = row_get row "file_path" /\
  order_of row = Ok (order n) /\
  sidebar_as n = Py.lower (row_get row "sidebar_as").
Proof.
  unfold make_node. destruct (order_of row) as [z| |] eqn:E; simpl; [|done..].
  intros [= <-]. simpl. by repeat split.
Qed.

Lemma start_of_section_or_text (fuel : nat) (nodes : list Node)
  (children : gmap string (list string)) (i : string) (n : Node) (lines : list string) :
  nodes_get nodes i = Some n ->
  kind n = "landing" \/ kind n = "section" ->
  build_sidebar_contents fuel nodes children i = Ok lines ->
  head lines =
    Some ((if String.eqb (sidebar_mode n (children_get children i)) "section"
           then "- section: " else "- text: ") +:+ dq +:+ label n +:+ dq).
Proof.
  intros Hn Hk. destruct fuel as [|fuel]; [done|]. simpl.
  unfold nodes_item. rewrite Hn. simpl.
  assert (String.eqb (kind n) "landing" || String.eqb (kind n) "section" = true) as ->.
  { destruct Hk as [-> | ->]; reflexivity. }
  destruct (String.eqb (sidebar_mode n (children_get children i)) "section").
  - destruct (nonempty_list (children_get children i)).
    + destruct (for_lines _ _); simpl; [|done..]. by intros [= <-].
    + by intros [= <-].
  - by intros [= <-].
Qed.

Lemma make_node_lowercased (row : gmap string string) (n : Node) :
  make_node row = Ok n -> sidebar_as n = Py.lower (sidebar_as n).
Proof.
  intros H. apply make_node_fields in H as (_&_&_&_&_&_&_&->). by rewrite lower_idemp.
Qed.

(** C2. For a landing node (whose [sidebar_as] is stored lowercased, as
    [read_nodes] stores it) the mode bound by the renderer is the
    [sidebar_as] value when that is "text" or "section", with origin
    "explicit"; otherwise it is "section" when the node has a child and
    "text" when it has none. A section node is rendered in section mode
    whatever its [sidebar_as] and children. The mode decides the first line
    the renderer emits for the node. *)
Theorem landing_mode_resolved (n : Node) (kids : list string) :
  sidebar_as n = Py.lower (sidebar_as n) ->
  (kind n = "landing" ->
     (sidebar_as n = "text" \/ sidebar_as n = "section" ->
        landing_render_mode n (nonempty_list kids) = (sidebar_as n, "explicit") /\
        sidebar_mode n kids = sidebar_as n) /\
     (sidebar_as n <> "text" -> sidebar_as n <> "section" ->
        sidebar_mode n kids = if nonempty_list kids then "section" else "text")) /\
  (kind n = "section" -> sidebar_mode n kids = "section") /\
  (forall fuel nodes children i lines,
     nodes_get nodes i = Some n ->
     children_get children i = kids ->
     kind n = "landing" \/ kind n = "section" ->
     build_sidebar_contents fuel nodes children i = Ok lines ->
     head lines =
       Some ((if String.eqb (sidebar_mode n kids) "section"
              then "- section: " else "- text: ") +:+ dq +:+ label n +:+ dq)).
Proof.
  intros Hlow. split; [|split].
  - intros Hk. unfold sidebar_mode. rewrite Hk. simpl. split.
    + intros H. rewrite landing_mode_explicit by (by rewrite <- Hlow).
      by rewrite <- Hlow.
    + intros H1 H2. by rewrite landing_mode_auto by (by rewrite <- Hlow).
  - intros Hk. unfold sidebar_mode. by rewrite Hk.
  - intros fuel nodes children i lines Hn <- Hk Hb.
    by eapply start_of_section_or_text.
Qed.

Lemma landing_mode_resolved_witness :
  sidebar_mode sample_landing ["a"] = "section" /\
  sidebar_mode sample_landing [] = "text".
Proof.
  split.
  - exact (proj2 (proj1 (landing_mode_resolved sample_landing ["a"] eq_refl) eq_refl)
             ltac:(discriminate) ltac:(discriminate)).
  - exact (proj2 (proj1 (landing_mode_resolved sample_landing [] eq_refl) eq_refl)
             ltac:(discriminate) ltac:(discriminate)).
Defined.

Lemma row_get_delete_ne (row : gmap string string) (k k' : string) :
  k <> k' -> row_get (delete k row) k' = row_get row k'.
Proof. intros H. unfold row_get. by rewrite lookup_delete_ne. Qed.

Lemma row_get_delete_eq (row : gmap string string) (k : string) :
  row_get (delete k row) k = EmptyString.
Proof. unfold row_get. by rewrite lookup_delete_eq. Qed.

(** C10. A landing node built from a record whose [sidebar_as] field does
    not lowercase to "text" or "section" gets the mode of the node built
    from the same record without that field: the automatic one, from its
    children. A field that lowercases to "text" or to "section" selects that
    mode whatever its case. *)
Theorem sidebar_as_other_value_is_auto (row : gmap string string) (n : Node)
  (has_children : bool) :
  make_node row = Ok n ->
  (Py.lower (row_get row "sidebar_as") <> "text" ->
   Py.lower (row_get row "sidebar_as") <> "section" ->
   exists n0, make_node (delete "sidebar_as" row) = Ok n0 /\
     sidebar_as n0 = EmptyString /\
     landing_render_mode n has_children = landing_render_mode n0 has_children /\
     landing_render_mode n has_children =
       ((if has_children then "section" else "text"), "auto")) /\
  (Py.lower (row_get row "sidebar_as") = "text" ->
   landing_render_mode n has_children = ("text", "explicit")) /\
  (Py.lower (row_get row "sidebar_as") = "section" ->
   landing_render_mode n has_children = ("section", "explicit")).
Proof.
  intros Hn. pose proof (make_node_fields _ _ Hn) as (_&_&_&_&_&_&Ho&Hs).
  split; [|split].
  - intros H1 H2.
    assert (order_of (delete "sidebar_as" row) = order_of row) as Ho'.
    { unfold order_of. by rewrite row_get_delete_ne. }
    eexists. split.
    { unfold make_node. rewrite Ho', Ho. simpl. reflexivity. }
    simpl. rewrite row_get_delete_eq. split; [done|].
    rewrite (landing_mode_auto n) by (by rewrite Hs, lower_idemp).
    split; [|done]. reflexivity.
  - intros H. rewrite landing_mode_explicit by (rewrite Hs, lower_idemp; auto).
    by rewrite Hs, lower_idemp, H.
  - intros H. rewrite landing_mode_explicit by (rewrite Hs, lower_idemp; auto).
    by rewrite Hs, lower_idemp, H.
Qed.

Lemma sidebar_as_other_value_is_auto_witness :
  (exists n, make_node (sample_row "Auto" "1") = Ok n /\
     landing_render_mode n true = ("section", "auto")) /\
  (exists n, make_node (sample_row "TEXT" "1") = Ok n /\
     landing_render_mode n true = ("text", "explicit")).
Proof.
  split.
  - eexists. split; [vm_compute; reflexivity|].
    assert (Py.lower (row_get (sample_row "Auto" "1") "sidebar_as") <> "text") as H1
      by (vm_compute; discriminate).
    assert (Py.lower (row_get (sample_row "Auto" "1") "sidebar_as") <> "section") as H2
      by (vm_compute; discriminate).
    destruct (proj1 (sidebar_as_other_value_is_auto (sample_row "Auto" "1") _ true
                       ltac:(vm_compute; reflexivity)) H1 H2) as (n0 & _ & _ & _ & H).
    exact H.
  - eexists. split; [vm_compute; reflexivity|].
    exact (proj1 (proj2 (sidebar_as_other_value_is_auto (sample_row "TEXT" "1") _ true
                           ltac:(vm_compute; reflexivity))) ltac:(vm_compute; reflexivity)).
Defined.

(** ** The order field *)

Lemma digits_value_linear (s : string) (acc : Z) :
  Py.digits_value acc s =
    (acc * 10 ^ Z.of_nat (String.length s) + Py.digits_value 0 s)%Z.
Proof.
  revert acc. induction s as [|c s IH]; intros acc.
  - simpl. lia.
  - cbn [Py.digits_value String.length]. rewrite (IH (10 * acc + _)%Z), (IH (10 * 0 + _)%Z).
    rewrite Nat2Z.inj_succ, Z.pow_succ_r by lia. lia.
Qed.

Lemma pretty_N_char_decimal (x : N) :
  (x < 10)%N ->
  Py.isdecimal (pretty_N_char x) = true /\
  Z.of_nat (Py.code (pretty_N_char x) - 48) = Z.of_N x.
Proof.
  intros Hx.
  assert (x = 0 \/ x = 1 \/ x = 2 \/ x = 3 \/ x = 4 \/ x = 5 \/ x = 6 \/ x = 7 \/
          x = 8 \/ x = 9)%N as H by lia.
  repeat (destruct H as [-> | H]; [by vm_compute|]). subst x. by vm_compute.
Qed.

Lemma pretty_N_go_decimal (x : N) (s : string) :
  Py.all_chars Py.isdecimal s = true ->
  Py.all_chars Py.isdecimal (pretty_N_go x s) = true /\
  String.length s <= String.length (pretty_N_go x s) /\
  Py.digits_value 0 (pretty_N_go x s) =
    (Z.of_N x * 10 ^ Z.of_nat (String.length s) + Py.digits_value 0 s)%Z.
Proof.
  revert s. induction (N.lt_wf_0 x) as [x _ IH]. intros s Hs.
  assert (x = 0 \/ 0 < x)%N as [-> | Hx] by lia.
  { rewrite pretty_N_go_0. split; [done|]. split; [lia|]. simpl. lia. }
  rewrite pretty_N_go_step by done.
  destruct (pretty_N_char_decimal (x `mod` 10)%N) as [Hd Hv].
  { by apply N.mod_lt. }
  destruct (IH (x `div` 10)%N ltac:(by apply N.div_lt)
              (String (pretty_N_char (x `mod` 10)) s)) as (H1 & H2 & H3).
  { simpl. by rewrite Hd, Hs. }
  split; [done|]. split; [simpl in H2; lia|].
  rewrite H3. cbn [Py.digits_value String.length].
  rewrite digits_value_linear, Hv.
  rewrite Nat2Z.inj_succ, Z.pow_succ_r by lia.
  pose proof (N.div_mod x 10 ltac:(done)) as Hdm.
  assert (Z.of_N x = 10 * Z.of_N (x `div` 10) + Z.of_N (x `mod` 10))%Z as -> by lia.
  lia.
Qed.

(** The decimal numeral of a natural number is a string of decimal digits
    whose value is that number. *)
Lemma pretty_N_decimal (n : N) :
  pretty n <> EmptyString /\
  Py.all_chars Py.isdecimal (pretty n) = true /\
  Py.digits_value 0 (pretty n) = Z.of_N n.
Proof.
  unfold pretty, pretty_N. case_decide as Hn.
  - subst n. by vm_compute.
  - assert (0 < n)%N as Hpos by lia.
    destruct (pretty_N_go_decimal n EmptyString eq_refl) as (H1 & _ & H3).
    split; [|split; [done|]].
    + rewrite pretty_N_go_step by done. intros Hempty.
      destruct (pretty_N_go_decimal (n `div` 10)%N
                  (String (pretty_N_char (n `mod` 10)) EmptyString)) as (_ & H2 & _).
      { simpl. destruct (pretty_N_char_decimal (n `mod` 10)%N) as [-> _]; [|done].
        by apply N.mod_lt. }
      rewrite Hempty in H2. simpl in H2. lia.
    + rewrite H3. simpl. lia.
Qed.

Lemma isdecimal_isdigit (s : string) :
  Py.all_chars Py.isdecimal s = true -> Py.all_chars Py.isdigit_char s = true.
Proof.
  induction s as [|c s IH]; [done|]. simpl. intros [Hc Hs]%andb_true_iff.
  rewrite IH by done. unfold Py.isdigit_char. by rewrite Hc.
Qed.

Lemma order_of_digits (row : gmap string string) :
  row_get row "order" <> EmptyString ->
  Py.all_chars Py.isdecimal (row_get row "order") = true ->
  String.length (row_get row "order") <= 4300 ->
  order_of row = Ok (Py.digits_value 0 (row_get row "order")).
Proof.
  intros Hne Hdec Hlen. unfold order_of, Py.isdigit, Py.int.
  apply nonempty_true in Hne. rewrite Hne, Hdec, (isdecimal_isdigit _ Hdec). simpl.
  assert ((String.length (row_get row "order") <=? Py.int_max_str_digits) = true) as ->.
  { apply Nat.leb_le. exact Hlen. }
  done.
Qed.

Lemma make_node_of_order (row : gmap string string) (z : Z) :
  order_of row = Ok z -> exists node, make_node row = Ok node /\ order node = z.
Proof. intros H. unfold make_node. rewrite H. simpl. eexists. split; [done|]. done. Qed.

(** C8, refuted as stated: the field "-5" is the decimal representation
    of an integer and the node gets 999. *)
Lemma order_of_negative_is_default :
  row_get (sample_row EmptyString "-5") "order" = pretty (-5)%Z /\
  (exists node, make_node (sample_row EmptyString "-5") = Ok node /\ order node = 999%Z) /\
  ~ order_is_integer_value.
Proof.
  split; [by vm_compute|]. split.
  - eexists. split; [vm_compute; reflexivity|]. done.
  - intros H. destruct (H (sample_row EmptyString "-5") (-5)%Z) as (node & Hn & Ho).
    { by vm_compute. }
    vm_compute in Hn. injection Hn as <-. discriminate Ho.
Qed.

(** C8, amended. The node's order is the value of the order field when the
    field is a non-empty string of the decimal digits 0..9 (of at most 4300
    characters), in particular when it is the decimal numeral of a natural
    number; it is 999 when [isdigit] rejects the field: a missing or empty
    field, and any field with a character that is not a digit, such as a
    sign. *)
Theorem order_of_record (row : gmap string string) :
  (row_get row "order" <> EmptyString ->
   Py.all_chars Py.isdecimal (row_get row "order") = true ->
   String.length (row_get row "order") <= 4300 ->
   exists node, make_node row = Ok node /\
     order node = Py.digits_value 0 (row_get row "order")) /\
  (forall n : N,
     row_get row "order" = pretty n ->
     String.length (row_get row "order") <= 4300 ->
     exists node, make_node row = Ok node /\ order node = Z.of_N n) /\
  (Py.isdigit (row_get row "order") = false ->
   exists node, make_node row = Ok node /\ order node = 999%Z) /\
  (row !! "order" = None -> exists node, make_node row = Ok node /\ order node = 999%Z) /\
  (forall rest, row_get row "order" = "-" +:+ rest ->
     exists node, make_node row = Ok node /\ order node = 999%Z).
Proof.
  assert (Py.isdigit (row_get row "order") = false ->
          exists node, make_node row = Ok node /\ order node = 999%Z) as Hdefault.
  { intros H. apply make_node_of_order. unfold order_of. by rewrite H. }
  split; [|split; [|split; [|split]]].
  - intros Hne Hdec Hlen. apply make_node_of_order. by apply order_of_digits.
  - intros n Hn Hlen. destruct (pretty_N_decimal n) as (Hne & Hdec & Hval).
    rewrite <- Hval, <- Hn. apply make_node_of_order.
    apply order_of_digits; [by rewrite Hn|by rewrite Hn|done].
  - exact Hdefault.
  - intros Hnone. apply Hdefault. unfold row_get. by rewrite Hnone.
  - intros rest Hrest. apply Hdefault. by rewrite Hrest.
Qed.

Lemma order_of_record_witness :
  (exists node, make_node (sample_row EmptyString "007") = Ok node /\ order node = 7%Z) /\
  (exists node, make_node (sample_row EmptyString "x1") = Ok node /\ order node = 999%Z).
Proof.
  split.
  - exact (proj1 (order_of_record (sample_row EmptyString "007"))
             ltac:(vm_compute; discriminate) ltac:(vm_compute; reflexivity)
             ltac:(vm_compute; lia)).
  - exact (proj1 (proj2 (proj2 (order_of_record (sample_row EmptyString "x1"))))
             ltac:(vm_compute; reflexivity)).
Defined.

(** A field of digit characters that are not decimal digits passes
    [isdigit] and is rejected by [int]: the record raises. *)
Lemma order_of_superscript_raises :
  let two := String (ascii_of_nat 178) EmptyString in
  Py.isdigit two = true /\
  make_node (sample_row EmptyString two) = Raise (ValueError_int two).
Proof. by vm_compute. Qed.

(** ** The node table *)

Lemma nodes_get_Some (nodes : list Node) (k : string) (n : Node) :
  nodes_get nodes k = Some n -> n ∈ nodes /\ id n = k.
Proof.
  induction nodes as [|m nodes IH]; simpl; [done|].
  destruct (String.eqb (id m) k) eqn:E.
  - intros [= <-]. apply String.eqb_eq in E. split; [left|done].
  - intros H. destruct (IH H). split; [by right|done].
Qed.

Lemma nodes_get_None (nodes : list Node) (k : string) :
  nodes_get nodes k = None <-> k ∉ ids nodes.
Proof.
  unfold ids. induction nodes as [|m nodes IH]; simpl.
  - split; [intros _; apply not_elem_of_nil|done].
  - rewrite not_elem_of_cons. destruct (String.eqb (id m) k) eqn:E.
    + apply String.eqb_eq in E. split; [done|]. intros [H _]. by destruct H.
    + apply String.eqb_neq in E. rewrite IH. split; [intros H; split; congruence|by intros [_ H]].
Qed.

Lemma nodes_get_app (l1 l2 : list Node) (k : string) :
  nodes_get (l1 ++ l2) k =
    match nodes_get l1 k with Some n => Some n | None => nodes_get l2 k end.
Proof.
  induction l1 as [|m l1 IH]; simpl; [done|]. by destruct (String.eqb (id m) k).
Qed.

Lemma nodes_get_elem (nodes : list Node) (n : Node) :
  NoDup (ids nodes) -> n ∈ nodes -> nodes_get nodes (id n) = Some n.
Proof.
  unfold ids. induction nodes as [|m nodes IH]; simpl.
  - intros _ H. by apply elem_of_nil in H.
  - intros [Hm Hnd]%NoDup_cons [-> | Hin]%elem_of_cons.
    + by rewrite String.eqb_refl.
    + destruct (String.eqb (id m) (id n)) eqn:E; [|by apply IH].
      apply String.eqb_eq in E. destruct Hm. rewrite E. by apply list_elem_of_fmap_2.
Qed.

Lemma nodes_mem_true (nodes : list Node) (k : string) :
  nodes_mem nodes k = true <-> k ∈ ids nodes.
Proof.
  unfold nodes_mem. destruct (nodes_get nodes k) eqn:E.
  - split; [|done]. intros _. apply nodes_get_Some in E as [Hin <-].
    by apply list_elem_of_fmap_2.
  - split; [done|]. intros H. by apply nodes_get_None in E.
Qed.

Lemma nodes_mem_false (nodes : list Node) (k : string) :
  nodes_mem nodes k = false <-> k ∉ ids nodes.
Proof.
  rewrite <- nodes_mem_true. destruct (nodes_mem nodes k); split; try done.
  all: try (intros H; by destruct H).
Qed.

(** ** Reading the records: what a successful run has checked *)

Lemma records_cons (raw : raw_row) (raws : list raw_row) :
  records (raw :: raws) =
    if row_blank (normalize_row_keys raw) then records raws
    else normalize_row_keys raw :: records raws.
Proof.
  unfold records. simpl. rewrite filter_cons.
  destruct (row_blank (normalize_row_keys raw)); by case_decide.
Qed.

(** A successful first loop built one node per kept record, in order; every
    kept record has its required fields, and no id occurs twice or was
    already stored. *)
Lemma read_rows_Ok (raws : list raw_row) (line_no : nat) (acc nodes : list Node) :
  read_rows raws line_no acc = Ok nodes ->
  exists made,
    nodes = acc ++ made /\
    Forall2 (fun row n => make_node row = Ok n) (records raws) made /\
    Forall (fun row => missing_columns row = []) (records raws) /\
    (NoDup (ids acc) -> NoDup (ids nodes)).
Proof.
  revert line_no acc. induction raws as [|raw raws IH]; intros line_no acc.
  - simpl. intros [= <-]. exists []. rewrite app_nil_r. by repeat split.
  - cbn [read_rows]. rewrite records_cons.
    destruct (row_blank (normalize_row_keys raw)) eqn:Hb; [by apply IH|].
    destruct (missing_columns (normalize_row_keys raw)) eqn:Hm; [|done].
    destruct (nodes_mem acc (row_get (normalize_row_keys raw) "id")) eqn:Hmem; [done|].
    destruct (make_node (normalize_row_keys raw)) as [n| |] eqn:Hn; simpl; [|done..].
    intros H. destruct (IH _ _ H) as (made & -> & Hmade & Hreq & Hnd).
    exists (n :: made). rewrite <- app_assoc. split; [done|].
    split; [by constructor|]. split; [by constructor|].
    intros Hacc. rewrite <- app_assoc in Hnd. apply Hnd. unfold ids. rewrite map_app. simpl.
    apply NoDup_app. split; [done|]. split; [|apply NoDup_singleton].
    intros x Hx ->%list_elem_of_singleton.
    apply make_node_fields in Hn as (Hid & _). rewrite Hid in Hx.
    by apply nodes_mem_false in Hmem.
Qed.

Lemma read_rows_total (raws : list raw_row) (line_no : nat) (acc : list Node) :
  read_rows raws line_no acc <> OutOfFuel.
Proof.
  revert line_no acc. induction raws as [|raw raws IH]; intros line_no acc; [done|].
  cbn [read_rows].
  destruct (row_blank _); [apply IH|].
  destruct (missing_columns _); [|done].
  destruct (nodes_mem _ _); [done|].
  unfold make_node, order_of.
  destruct (Py.isdigit _); [destruct (Py.int _)|]; simpl; solve [done | apply IH].
Qed.

(** ** The sibling order *)

Lemma string_ltb_lt (a b : string) : String.ltb a b = true <-> String_as_OT.lt a b.
Proof.
  rewrite <- String_as_OT.cmp_lt. unfold String.ltb, String_as_OT.cmp.
  destruct (String.compare a b); split; congruence.
Qed.

Lemma string_ltb_irrefl (a : string) : String.ltb a a = false.
Proof.
  destruct (String.ltb a a) eqn:E; [|done].
  apply string_ltb_lt in E. by destruct (String_as_OT.lt_not_eq _ _ E).
Qed.

Lemma string_ltb_trans (a b c : string) :
  String.ltb a b = true -> String.ltb b c = true -> String.ltb a c = true.
Proof. rewrite !string_ltb_lt. apply String_as_OT.lt_trans. Qed.

Lemma string_ltb_connex (a b : string) :
  String.ltb a b = false -> String.ltb b a = false -> a = b.
Proof.
  unfold String.ltb. rewrite (String.compare_antisym b a).
  destruct (String.compare a b) eqn:E; simpl; try done.
  intros _ _. by apply String.compare_eq_iff.
Qed.

Lemma string_leb_not_ltb (a b : string) : String.leb a b = negb (String.ltb b a).
Proof.
  unfold String.leb, String.ltb. rewrite (String.compare_antisym a b).
  by destruct (String.compare b a).
Qed.

Lemma key_lt_spec (a b : sort_key) :
  key_lt a b = true <->
  (fst a < fst b)%Z \/ (fst a = fst b /\ String.ltb (snd a) (snd b) = true).
Proof.
  unfold key_lt. rewrite orb_true_iff, andb_true_iff, Z.ltb_lt, Z.eqb_eq. tauto.
Qed.

Lemma key_le_spec (a b : sort_key) :
  key_le a b <->
  (fst a < fst b)%Z \/ (fst a = fst b /\ String.leb (snd a) (snd b) = true).
Proof.
  unfold key_le. rewrite string_leb_not_ltb, negb_true_iff.
  destruct (key_lt b a) eqn:E.
  - apply key_lt_spec in E. split; [done|]. intros [H | [H1 H2]]; destruct E as [E | [E1 E2]];
      try lia. congruence.
  - split; [intros _|done].
    destruct (Z.lt_trichotomy (fst a) (fst b)) as [H | [H | H]]; [by left| |].
    + right. split; [done|]. destruct (String.ltb (snd b) (snd a)) eqn:E'; [|done].
      assert (key_lt b a = true) by (apply key_lt_spec; right; split; [lia|done]). congruence.
    + assert (key_lt b a = true) by (apply key_lt_spec; by left). congruence.
Qed.

Lemma key_lt_trans (a b c : sort_key) :
  key_lt a b = true -> key_lt b c = true -> key_lt a c = true.
Proof.
  rewrite !key_lt_spec. intros [H | [H1 H2]] [H' | [H1' H2']]; try (left; lia).
  right. split; [lia|]. by eapply string_ltb_trans.
Qed.

Lemma key_lt_connex (a b : sort_key) :
  key_lt a b = false -> key_lt b a = false -> a = b.
Proof.
  intros H1 H2. destruct a as [x s], b as [y t].
  assert (x = y) as ->.
  { destruct (Z.lt_trichotomy x y) as [H | [H | H]]; [|done|].
    - assert (key_lt (x, s) (y, t) = true) by (apply key_lt_spec; by left). congruence.
    - assert (key_lt (y, t) (x, s) = true) by (apply key_lt_spec; by left). congruence. }
  f_equal. apply string_ltb_connex.
  - destruct (String.ltb s t) eqn:E; [|done].
    assert (key_lt (y, s) (y, t) = true) by (apply key_lt_spec; by right). congruence.
  - destruct (String.ltb t s) eqn:E; [|done].
    assert (key_lt (y, t) (y, s) = true) by (apply key_lt_spec; by right). congruence.
Qed.

Lemma key_lt_le (a b : sort_key) : key_lt a b = true -> key_le a b.
Proof.
  intros H. unfold key_le. destruct (key_lt b a) eqn:E; [|done].
  pose proof (key_lt_trans _ _ _ H E) as Haa. apply key_lt_spec in Haa.
  destruct Haa as [Haa | [_ Haa]]; [lia|]. by rewrite string_ltb_irrefl in Haa.
Qed.

Lemma key_le_trans (a b c : sort_key) : key_le a b -> key_le b c -> key_le a c.
Proof.
  unfold key_le. intros Hab Hbc. destruct (key_lt c a) eqn:Hca; [|done].
  destruct (key_lt a b) eqn:E.
  - by rewrite (key_lt_trans _ _ _ Hca E) in Hbc.
  - rewrite (key_lt_connex _ _ E Hab) in Hca. congruence.
Qed.

Section sorting.
Context {A : Type} (key : A -> sort_key).

Lemma insert_by_perm (x : A) (l : list A) : insert_by key x l ≡ₚ x :: l.
Proof.
  induction l as [|y l IH]; simpl; [done|].
  destruct (key_lt (key y) (key x)); [|done].
  rewrite IH. apply Permutation_swap.
Qed.

Lemma sort_by_perm (l : list A) : sort_by key l ≡ₚ l.
Proof.
  induction l as [|x l IH]; simpl; [done|]. by rewrite insert_by_perm, IH.
Qed.

Lemma insert_by_sorted (x : A) (l : list A) :
  StronglySorted (le_by key) l -> StronglySorted (le_by key) (insert_by key x l).
Proof.
  induction 1 as [|y l Hs IH Hall]; simpl.
  - repeat constructor.
  - destruct (key_lt (key y) (key x)) eqn:E.
    + constructor; [done|]. rewrite insert_by_perm. constructor; [|done].
      by apply key_lt_le.
    + constructor; [by constructor|]. constructor; [done|].
      eapply Forall_impl; [exact Hall|]. intros z Hz. by eapply key_le_trans.
Qed.

Lemma sort_by_sorted (l : list A) : StronglySorted (le_by key) (sort_by key l).
Proof.
  induction l as [|x l IH]; simpl; [constructor|]. by apply insert_by_sorted.
Qed.

Lemma sort_by_nil (l : list A) : sort_by key l = [] <-> l = [].
Proof.
  split; [|by intros ->]. intros H. apply Permutation_nil_r.
  rewrite <- H. symmetry. apply sort_by_perm.
Qed.
End sorting.

(** ** The tree builder *)

Lemma kids_of_snoc (done : list Node) (n : Node) (pid : string) :
  kids_of (done ++ [n]) pid =
    kids_of done pid ++ (if decide (parent_id n = pid) then [id n] else []).
Proof.
  unfold kids_of. rewrite filter_app, fmap_app. f_equal.
  rewrite filter_cons, filter_nil. by case_decide.
Qed.

Lemma linked_empty : linked [] ∅.
Proof. intros pid. rewrite lookup_empty. case_decide as H; [done|]. destruct H. by right. Qed.

Lemma linked_skip (done : list Node) (n : Node) (children : gmap string (list string)) :
  parent_id n = EmptyString -> linked done children -> linked (done ++ [n]) children.
Proof.
  intros Hp Hl pid. rewrite Hl, kids_of_snoc.
  destruct (decide (pid = EmptyString)) as [-> | Hne].
  - by repeat case_decide; tauto.
  - rewrite (decide_False (P := parent_id n = pid)) by congruence. by rewrite app_nil_r.
Qed.

Lemma linked_append (done : list Node) (n : Node) (children : gmap string (list string)) :
  parent_id n <> EmptyString -> linked done children ->
  linked (done ++ [n]) (children_append children (parent_id n) (id n)).
Proof.
  intros Hp Hl pid. unfold children_append. rewrite kids_of_snoc.
  destruct (decide (parent_id n = pid)) as [<- | Hne].
  - rewrite lookup_insert_eq, Hl.
    rewrite (decide_False (P := _ \/ _ ++ _ = [])).
    2:{ intros [H | H]; [done|]. by apply app_eq_nil in H as [_ ?]. }
    f_equal. f_equal. case_decide as H; [|done]. by destruct H as [H | ->].
  - rewrite lookup_insert_ne by done. by rewrite Hl, app_nil_r.
Qed.

Lemma link_children_Ok (nodes todo done : list Node)
  (children children' : gmap string (list string)) :
  link_children nodes todo children = Ok children' ->
  linked done children ->
  linked (done ++ todo) children' /\
  Forall (fun n => parent_id n <> EmptyString -> parent_id n ∈ ids nodes) todo.
Proof.
  revert done children. induction todo as [|n todo IH]; intros done children; simpl.
  - intros [= <-] Hl. rewrite app_nil_r. by split.
  - destruct (Py.nonempty (parent_id n)) eqn:Hp.
    + destruct (nodes_mem nodes (parent_id n)) eqn:Hmem; [|done].
      intros H Hl. apply nonempty_true in Hp.
      destruct (IH (done ++ [n]) _ H (linked_append _ _ _ Hp Hl)) as [H1 H2].
      rewrite <- app_assoc in H1. split; [done|]. constructor; [|done].
      intros _. by apply nodes_mem_true.
    + intros H Hl. apply nonempty_false in Hp.
      destruct (IH (done ++ [n]) _ H (linked_skip _ _ _ Hp Hl)) as [H1 H2].
      rewrite <- app_assoc in H1. split; [done|]. by constructor.
Qed.

Lemma link_children_Raise (nodes todo : list Node)
  (children : gmap string (list string)) (e : exn) :
  link_children nodes todo children = Raise e ->
  exists n, n ∈ todo /\ e = ValueError_parent (parent_id n) (id n) /\
    parent_id n <> EmptyString /\ parent_id n ∉ ids nodes.
Proof.
  revert children. induction todo as [|n todo IH]; intros children; simpl; [done|].
  destruct (Py.nonempty (parent_id n)) eqn:Hp.
  - destruct (nodes_mem nodes (parent_id n)) eqn:Hmem.
    + intros H. destruct (IH _ H) as (m & Hm & He). exists m. split; [by right|done].
    + intros [= <-]. exists n. split; [by left|]. split; [done|].
      split; [by apply nonempty_true|by apply nodes_mem_false].
  - intros H. destruct (IH _ H) as (m & Hm & He). exists m. split; [by right|done].
Qed.


Lemma missing_columns_nil (row : gmap string string) :
  missing_columns row = [] <->
  row_get row "id" <> EmptyString /\ row_get row "label" <> EmptyString /\
  row_get row "kind" <> EmptyString.
Proof.
  unfold missing_columns, required. rewrite !filter_cons, filter_nil.
  repeat case_decide; split; try done; try tauto.
Qed.

(** What a successful [read_nodes] has established. *)
Lemma read_nodes_Ok (raws : list raw_row) (nodes : list Node)
  (children : gmap string (list string)) :
  read_nodes raws = Ok (nodes, children) ->
  Forall2 (fun row n => make_node row = Ok n) (records raws) nodes /\
  Forall (fun row => missing_columns row = []) (records raws) /\
  NoDup (ids nodes) /\
  Forall (fun n => parent_id n <> EmptyString -> parent_id n ∈ ids nodes) nodes /\
  forall pid,
    children !! pid =
      if decide (pid = EmptyString \/ kids_of nodes pid = []) then None
      else Some (sort_by (id_key nodes) (kids_of nodes pid)).
Proof.
  unfold read_nodes.
  destruct (read_rows raws 1 []) as [nodes'| |] eqn:Hrows; simpl; [|done..].
  destruct (link_children nodes' nodes' ∅) as [ch| |] eqn:Hlink; simpl; [|done..].
  intros [= <- <-].
  destruct (read_rows_Ok _ _ _ _ Hrows) as (made & -> & Hmade & Hreq & Hnd).
  destruct (link_children_Ok _ _ [] _ _ Hlink linked_empty) as [Hl Hpar].
  simpl in *. repeat split; try done.
  - apply Hnd. constructor.
  - intros pid. rewrite lookup_fmap, Hl. by case_decide.
Qed.

Lemma Forall2_make_node_ids (rows : list (gmap string string)) (nodes : list Node) :
  Forall2 (fun row n => make_node row = Ok n) rows nodes ->
  ids nodes = record_id <$> rows.
Proof.
  induction 1 as [|row n rows nodes Hn _ IH]; [done|].
  unfold ids in *. simpl. rewrite IH. f_equal.
  by apply make_node_fields in Hn as (-> & _).
Qed.

(** Facts about every node of a table [read_nodes] returns. *)
Lemma read_nodes_node (raws : list raw_row) (nodes : list Node)
  (children : gmap string (list string)) (n : Node) :
  read_nodes raws = Ok (nodes, children) -> n ∈ nodes ->
  nodes_get nodes (id n) = Some n /\
  id n <> EmptyString /\ label n <> EmptyString /\ kind n <> EmptyString /\
  slug n <> EmptyString /\
  sidebar_as n = Py.lower (sidebar_as n) /\
  (parent_id n <> EmptyString -> parent_id n ∈ ids nodes).
Proof.
  intros Hread Hin. destruct (read_nodes_Ok _ _ _ Hread) as (Hmade & Hreq & Hnd & Hpar & _).
  split; [by apply nodes_get_elem|].
  assert (exists row, row ∈ records raws /\ make_node row = Ok n) as (row & Hrow & Hn).
  { clear -Hmade Hin. induction Hmade as [|row m rows nodes Hm _ IH].
    - by apply elem_of_nil in Hin.
    - apply elem_of_cons in Hin as [-> | Hin].
      + exists row. split; [by left|done].
      + destruct (IH Hin) as (r & ? & ?). exists r. split; [by right|done]. }
  rewrite Forall_forall in Hreq. pose proof (Hreq row Hrow) as Hm.
  apply missing_columns_nil in Hm as (H1 & H2 & H3).
  pose proof (make_node_lowercased _ _ Hn) as Hlow.
  apply make_node_fields in Hn as (-> & _ & -> & -> & -> & _).
  repeat split; try done.
  - apply or_else_nonempty, slugify_nonempty.
  - rewrite Forall_forall in Hpar. by apply Hpar.
Qed.


Lemma StronglySorted_impl_elem {A : Type} (R R' : A -> A -> Prop) (l : list A) :
  (forall x y, x ∈ l -> y ∈ l -> R x y -> R' x y) ->
  StronglySorted R l -> StronglySorted R' l.
Proof.
  intros Himpl Hs. induction Hs as [|x l Hs IH Hall]; [constructor|].
  constructor.
  - apply IH. intros a b Ha Hb. apply Himpl; by right.
  - rewrite Forall_forall in *. intros y Hy. apply Himpl; [by left|by right|by apply Hall].
Qed.

Lemma kids_of_elem (nodes : list Node) (pid c : string) :
  c ∈ kids_of nodes pid <-> exists n, n ∈ nodes /\ id n = c /\ parent_id n = pid.
Proof.
  unfold kids_of. rewrite list_elem_of_fmap. split.
  - intros (n & -> & Hn). apply list_elem_of_filter in Hn as [Hp Hn]. by exists n.
  - intros (n & Hn & <- & Hp). exists n. split; [done|]. by apply list_elem_of_filter.
Qed.

(** The buckets of [children], for a table [read_nodes] returned. *)
Lemma read_nodes_children (raws : list raw_row) (nodes : list Node)
  (children : gmap string (list string)) (pid : string) (kids : list string) :
  read_nodes raws = Ok (nodes, children) ->
  children !! pid = Some kids ->
  pid <> EmptyString /\ kids <> [] /\
  kids = sort_by (id_key nodes) (kids_of nodes pid) /\
  pid ∈ ids nodes /\
  (forall c, c ∈ kids <-> exists n, n ∈ nodes /\ id n = c /\ parent_id n = pid) /\
  StronglySorted (sibling_le nodes) kids.
Proof.
  intros Hread Hkids.
  destruct (read_nodes_Ok _ _ _ Hread) as (_ & _ & Hnd & Hpar & Hch).
  rewrite Hch in Hkids. case_decide as Hd; [done|]. injection Hkids as <-.
  assert (pid <> EmptyString) as Hpid by tauto.
  assert (kids_of nodes pid <> []) as Hne by tauto.
  assert (forall c, c ∈ sort_by (id_key nodes) (kids_of nodes pid) <->
                    exists n, n ∈ nodes /\ id n = c /\ parent_id n = pid) as Hmem.
  { intros c. rewrite sort_by_perm. apply kids_of_elem. }
  split; [done|]. split; [by rewrite sort_by_nil|]. split; [done|]. split; [|split; [done|]].
  - destruct (kids_of nodes pid) as [|c l] eqn:E; [done|].
    assert (c ∈ kids_of nodes pid) as Hc by (rewrite E; by left).
    apply kids_of_elem in Hc as (n & Hn & _ & Hp).
    rewrite Forall_forall in Hpar. rewrite <- Hp. apply Hpar; [done|congruence].
  - eapply StronglySorted_impl_elem; [|apply sort_by_sorted].
    intros a b Ha Hb Hle. apply Hmem in Ha as (na & Hna & <- & _).
    apply Hmem in Hb as (nb & Hnb & <- & _).
    exists na, nb. rewrite !nodes_get_elem by done. split; [done|]. split; [done|].
    unfold le_by, id_key in Hle. rewrite !nodes_get_elem in Hle by done.
    by apply key_le_spec in Hle.
Qed.


Lemma Forall_records (P : gmap string string -> Prop) (raws : list raw_row) :
  Forall (fun raw => row_blank (normalize_row_keys raw) = false ->
                     P (normalize_row_keys raw)) raws ->
  Forall P (records raws).
Proof.
  induction 1 as [|raw raws Hraw _ IH]; [constructor|].
  rewrite records_cons. destruct (row_blank (normalize_row_keys raw)); [done|].
  constructor; [by apply Hraw|done].
Qed.

(** Proves a property of every kept record of a concrete list of records:
    a blank record is dismissed by evaluation, [tac] proves the others. *)
Ltac each_record tac :=
  apply Forall_records;
  repeat (apply Forall_cons; split;
          [let Hb := fresh in intros Hb; first [by vm_compute in Hb | clear Hb; tac]|]);
  apply Forall_nil_2.


(** C6, the divergence. The order field is given to [int] when
    [str.isdigit] accepts it, and [isdigit] accepts the superscript digits,
    which [int] rejects: on one record with its required fields, a unique
    id, no parent and the order "²" (U+00B2), [read_nodes] raises the
    [ValueError] of [int] and returns no mapping. *)
Theorem tree_builder_superscript_order :
  Forall (fun row => missing_columns row = []) (records superscript_raws) /\
  NoDup (record_id <$> records superscript_raws) /\
  Forall (fun row => row_get row "parent_id" <> EmptyString ->
                     row_get row "parent_id" ∈ record_id <$> records superscript_raws)
         (records superscript_raws) /\
  Py.isdigit (String (ascii_of_nat 178) EmptyString) = true /\
  read_nodes superscript_raws =
    Raise (ValueError_int (String (ascii_of_nat 178) EmptyString)).
Proof.
  split; [|split; [|split; [|split]]].
  - each_record ltac:(by vm_compute).
  - apply (bool_decide_unpack _). by vm_compute.
  - each_record ltac:(intros H; by vm_compute in H).
  - reflexivity.
  - by vm_compute.
Qed.

Example sample_children :
  exists nodes children,
    read_nodes sample_raws = Ok (nodes, children) /\
    children !! "docs" = Some ["intro"; "guide"].
Proof. eexists _, _. split; [vm_compute; reflexivity|]. by vm_compute. Qed.

(** ** The ancestry walk *)

Lemma ancestry_loop_empty (fuel : nat) (nodes : list Node) (acc : list string) :
  ancestry_loop fuel nodes acc EmptyString = Ok acc.
Proof. by destruct fuel. Qed.

Lemma ancestry_loop_step (fuel : nat) (nodes : list Node) (acc : list string)
  (pid : string) (p : Node) :
  pid <> EmptyString -> nodes_get nodes pid = Some p ->
  ancestry_loop (S fuel) nodes acc pid =
    ancestry_loop fuel nodes (acc ++ [slug p]) (parent_id p).
Proof.
  intros Hne Hp. apply nonempty_true in Hne. simpl. rewrite Hne.
  unfold nodes_item. by rewrite Hp.
Qed.

(** A walk that reaches a root returns the slugs it met, nearest first. *)
Lemma ancestry_loop_complete (nodes : list Node) (pid : string) (chain : list string) :
  ancestry nodes pid chain ->
  forall fuel acc, pid <> EmptyString -> List.length chain <= fuel ->
  ancestry_loop fuel nodes acc pid = Ok (acc ++ rev chain).
Proof.
  induction 1 as [i n Hn Hroot | i n chain Hn Hp _ IH]; intros fuel acc Hi Hlen.
  - destruct fuel as [|fuel]; [simpl in Hlen; lia|].
    rewrite (ancestry_loop_step _ _ _ _ _ Hi Hn), Hroot. apply ancestry_loop_empty.
  - rewrite length_app in Hlen. simpl in Hlen.
    destruct fuel as [|fuel]; [lia|].
    rewrite (ancestry_loop_step _ _ _ _ _ Hi Hn), IH by (done || lia).
    by rewrite rev_app_distr, <- app_assoc.
Qed.

(** A walk that returns has reached a root. *)
Lemma ancestry_loop_sound (fuel : nat) (nodes : list Node) (acc : list string)
  (pid : string) (r : list string) :
  pid <> EmptyString ->
  ancestry_loop fuel nodes acc pid = Ok r ->
  exists chain, ancestry nodes pid chain /\ r = acc ++ rev chain /\ List.length chain <= fuel.
Proof.
  revert acc pid. induction fuel as [|fuel IH]; intros acc pid Hne.
  - simpl. apply nonempty_true in Hne. by rewrite Hne.
  - destruct (nodes_get nodes pid) as [p|] eqn:Hp.
    + rewrite (ancestry_loop_step _ _ _ _ _ Hne Hp).
      destruct (decide (parent_id p = EmptyString)) as [Hroot | Hchild].
      * rewrite Hroot, ancestry_loop_empty. intros [= <-].
        exists [slug p]. split; [by apply ancestry_root|]. split; [done|simpl; lia].
      * intros H. destruct (IH _ _ Hchild H) as (chain & Hc & -> & Hlen).
        exists (chain ++ [slug p]). split; [by apply ancestry_child|].
        rewrite rev_app_distr, <- app_assoc, length_app. simpl. split; [done|lia].
    + simpl. apply nonempty_true in Hne. rewrite Hne. unfold nodes_item. by rewrite Hp.
Qed.

Lemma ancestry_last (nodes : list Node) (i : string) (chain : list string) (n : Node) :
  ancestry nodes i chain -> nodes_get nodes i = Some n ->
  (parent_id n = EmptyString /\ chain = [slug n]) \/
  (parent_id n <> EmptyString /\
   exists up, ancestry nodes (parent_id n) up /\ chain = up ++ [slug n]).
Proof.
  intros Ha Hn. inversion Ha as [i' m Hm Hroot | i' m up Hm Hp Hup]; subst.
  - rewrite Hn in Hm. injection Hm as <-. by left.
  - rewrite Hn in Hm. injection Hm as <-. right. split; [done|]. by exists up.
Qed.

Lemma derived_path_index (n : Node) (chain : list string) :
  index_kind (kind n) = true ->
  derived_path n chain = Py.join "/" (chain ++ ["index.qmd"]).
Proof.
  intros Hk. unfold derived_path. rewrite Hk.
  by rewrite <- (join_last_suffix "/" chain "index" ".qmd").
Qed.

Lemma derived_path_item (n : Node) (chain : list string) :
  index_kind (kind n) = false ->
  derived_path n chain = Py.join "/" (removelast chain ++ [slug n +:+ ".qmd"]).
Proof.
  intros Hk. unfold derived_path. rewrite Hk. by rewrite join_last_suffix.
Qed.

Lemma derived_path_nonempty (n : Node) (chain : list string) :
  derived_path n chain <> EmptyString.
Proof. unfold derived_path. destruct (index_kind (kind n)); by apply append_nonempty_r. Qed.

(** The file path computed for a node that is not external: the derived
    path of its ancestry. *)
Lemma compute_complete (fuel : nat) (nodes : list Node)
  (children : gmap string (list string)) (i : string) (n : Node) (chain : list string) :
  nodes_get nodes i = Some n -> kind n <> "external" ->
  ancestry nodes i chain -> List.length chain <= S fuel ->
  compute_default_file_path fuel nodes children i = Ok (derived_path n chain).
Proof.
  intros Hn Hk Ha Hlen. unfold compute_default_file_path, nodes_item. rewrite Hn. simpl.
  apply String.eqb_neq in Hk. rewrite Hk.
  destruct (ancestry_last _ _ _ _ Ha Hn) as [[Hroot ->] | (Hp & up & Hup & ->)].
  - rewrite Hroot, ancestry_loop_empty. simpl.
    destruct (index_kind (kind n)) eqn:Hi.
    + by rewrite derived_path_index.
    + by rewrite derived_path_item.
  - rewrite length_app in Hlen. simpl in Hlen.
    rewrite (ancestry_loop_complete _ _ _ Hup) by (done || lia). simpl.
    rewrite rev_involutive.
    destruct (index_kind (kind n)) eqn:Hi.
    + by rewrite derived_path_index.
    + by rewrite derived_path_item.
Qed.

Lemma compute_sound (fuel : nat) (nodes : list Node)
  (children : gmap string (list string)) (i : string) (n : Node) (p : string) :
  nodes_get nodes i = Some n -> kind n <> "external" ->
  compute_default_file_path fuel nodes children i = Ok p ->
  exists chain, ancestry nodes i chain /\ List.length chain <= S fuel /\
    p = derived_path n chain.
Proof.
  intros Hn Hk. unfold compute_default_file_path, nodes_item. rewrite Hn. simpl.
  apply String.eqb_neq in Hk. rewrite Hk.
  destruct (ancestry_loop fuel nodes [slug n] (parent_id n)) as [r| |] eqn:Hloop;
    simpl; [|done..].
  intros Hp.
  assert (exists chain, ancestry nodes i chain /\ List.length chain <= S fuel /\
                        rev r = chain) as (chain & Ha & Hlen & Hr).
  { destruct (decide (parent_id n = EmptyString)) as [Hroot | Hchild].
    - rewrite Hroot, ancestry_loop_empty in Hloop. injection Hloop as <-.
      exists [slug n]. split; [by apply ancestry_root|]. split; [simpl; lia|done].
    - destruct (ancestry_loop_sound _ _ _ _ _ Hchild Hloop) as (up & Hup & -> & Hlen).
      exists (up ++ [slug n]). split; [by apply ancestry_child|].
      rewrite length_app. simpl. split; [lia|].
      by rewrite rev_involutive. }
  exists chain. split; [done|]. split; [done|]. rewrite Hr in Hp.
  destruct (index_kind (kind n)) eqn:Hi; injection Hp as <-.
  - by rewrite derived_path_index.
  - by rewrite derived_path_item.
Qed.

Lemma compute_external (fuel : nat) (nodes : list Node)
  (children : gmap string (list string)) (i : string) (n : Node) :
  nodes_get nodes i = Some n -> kind n = "external" ->
  compute_default_file_path fuel nodes children i = Ok EmptyString.
Proof.
  intros Hn Hk. unfold compute_default_file_path, nodes_item. rewrite Hn. simpl.
  by rewrite Hk.
Qed.

Lemma cyclic_walk_diverges (nodes : list Node) (acc : list string) (fuel : nat) :
  nodes_get nodes "loop" = Some loop_node ->
  ancestry_loop fuel nodes acc "loop" = OutOfFuel.
Proof.
  intros Hn. revert acc. induction fuel as [|fuel IH]; intros acc; [reflexivity|].
  rewrite (ancestry_loop_step fuel nodes acc "loop" loop_node) by done. apply IH.
Qed.

(** C9. For a node that is not external, the walk of
    [compute_default_file_path] returns, for some bound on its loop, exactly
    when the [parent_id] chain of the node reaches an empty [parent_id];
    a chain of [k] nodes needs at most [k - 1] turns of the loop.
    [read_nodes] checks of a non-empty [parent_id] that it is the id of a
    node and nothing more: it accepts a record set in which a node is its
    own parent, and on that node the walk never returns. *)
Theorem ancestry_walk_returns_iff_rooted :
  (forall nodes children i n,
     nodes_get nodes i = Some n -> kind n <> "external" ->
     ((exists chain, ancestry nodes i chain) <->
      (exists fuel p, compute_default_file_path fuel nodes children i = Ok p)) /\
     (forall chain fuel, ancestry nodes i chain -> List.length chain <= S fuel ->
        compute_default_file_path fuel nodes children i = Ok (derived_path n chain))) /\
  (forall raws nodes children n,
     read_nodes raws = Ok (nodes, children) -> n ∈ nodes ->
     parent_id n <> EmptyString -> parent_id n ∈ ids nodes) /\
  (exists nodes children,
     read_nodes cyclic_raws = Ok (nodes, children) /\
     nodes_get nodes "loop" = Some loop_node /\
     forall fuel, compute_default_file_path fuel nodes children "loop" = OutOfFuel).
Proof.
  split; [|split].
  - intros nodes children i n Hn Hk. split.
    + split.
      * intros [chain Ha]. exists (List.length chain), (derived_path n chain).
        apply compute_complete; [done..|lia].
      * intros (fuel & p & Hp). destruct (compute_sound _ _ _ _ _ _ Hn Hk Hp) as (c & ? & _).
        by exists c.
    + intros chain fuel Ha Hlen. by apply compute_complete.
  - intros raws nodes children n Hread Hin.
    by destruct (read_nodes_node _ _ _ _ Hread Hin) as (_ & _ & _ & _ & _ & _ & H).
  - exists (fst cyclic_tree), (snd cyclic_tree). split; [by vm_compute|].
    assert (nodes_get (fst cyclic_tree) "loop" = Some loop_node) as Hn by reflexivity.
    split; [done|]. intros fuel.
    unfold compute_default_file_path, nodes_item. rewrite Hn. simpl.
    by rewrite cyclic_walk_diverges.
Qed.

Lemma two_nodes_ancestry : ancestry two_nodes "guide" ["docs"; "guide"].
Proof.
  apply (ancestry_child two_nodes "guide" guide_node ["docs"]); [reflexivity|discriminate|].
  by apply (ancestry_root two_nodes "docs" docs_node).
Qed.

Lemma ancestry_walk_returns_iff_rooted_witness :
  compute_default_file_path 1 two_nodes ∅ "guide" = Ok "docs/guide.qmd".
Proof.
  refine (proj2 (proj1 ancestry_walk_returns_iff_rooted two_nodes ∅ "guide" guide_node
                   eq_refl _)
            ["docs"; "guide"] 1 two_nodes_ancestry _).
  - discriminate.
  - simpl. lia.
Defined.

(** ** Path derivation over the table *)

Lemma nodes_get_skeleton (l1 l2 : list Node) (k : string) :
  Forall2 (fun a b => skeleton a = skeleton b) l1 l2 ->
  match nodes_get l1 k, nodes_get l2 k with
  | Some a, Some b => skeleton a = skeleton b
  | None, None => True
  | _, _ => False
  end.
Proof.
  induction 1 as [|a b l1 l2 Hab _ IH]; simpl; [done|].
  assert (id a = id b) as -> by (by injection Hab).
  by destruct (String.eqb (id b) k).
Qed.

Lemma ancestry_loop_skeleton (fuel : nat) (l1 l2 : list Node) (acc : list string)
  (pid : string) :
  Forall2 (fun a b => skeleton a = skeleton b) l1 l2 ->
  ancestry_loop fuel l1 acc pid = ancestry_loop fuel l2 acc pid.
Proof.
  intros Hs. revert acc pid. induction fuel as [|fuel IH]; intros acc pid; [done|].
  simpl. destruct (Py.nonempty pid); [|done]. unfold nodes_item.
  pose proof (nodes_get_skeleton _ _ pid Hs) as H.
  destruct (nodes_get l1 pid) as [a|], (nodes_get l2 pid) as [b|]; try done.
  simpl. injection H as _ -> -> _. apply IH.
Qed.

Lemma compute_skeleton (fuel : nat) (l1 l2 : list Node)
  (children : gmap string (list string)) (i : string) :
  Forall2 (fun a b => skeleton a = skeleton b) l1 l2 ->
  compute_default_file_path fuel l1 children i =
  compute_default_file_path fuel l2 children i.
Proof.
  intros Hs. unfold compute_default_file_path, nodes_item.
  pose proof (nodes_get_skeleton _ _ i Hs) as H.
  destruct (nodes_get l1 i) as [a|], (nodes_get l2 i) as [b|]; try done.
  simpl. injection H as _ -> -> ->. by rewrite (ancestry_loop_skeleton _ _ _ _ _ Hs).
Qed.

Lemma nodes_get_middle (l1 l2 : list Node) (m : Node) :
  id m ∉ ids l1 -> nodes_get (l1 ++ m :: l2) (id m) = Some m.
Proof.
  intros H. apply nodes_get_None in H. rewrite nodes_get_app, H. simpl.
  by rewrite String.eqb_refl.
Qed.

Lemma nodes_set_middle (l1 l2 : list Node) (m n : Node) :
  id m = id n -> id n ∉ ids l1 -> nodes_set (l1 ++ m :: l2) n = l1 ++ n :: l2.
Proof.
  intros Hid. unfold ids. induction l1 as [|x l1 IH]; simpl.
  - intros _. by rewrite Hid, String.eqb_refl.
  - intros [Hx Hl]%not_elem_of_cons.
    assert (String.eqb (id x) (id n) = false) as -> by (apply String.eqb_neq; congruence).
    by rewrite IH.
Qed.

Lemma derived_skeleton (fuel : nat) (nodes : list Node)
  (children : gmap string (list string)) (l l' : list Node) :
  Forall2 (derived fuel nodes children) l l' ->
  Forall2 (fun a b => skeleton a = skeleton b) l' l.
Proof.
  induction 1 as [|n n' l l' Hn _ IH]; constructor; [|done].
  unfold derived in Hn. destruct (needs_path n); [|by subst].
  by destruct Hn as (p & _ & ->).
Qed.

Lemma Forall2_skeleton_refl (l : list Node) :
  Forall2 (fun a b => skeleton a = skeleton b) l l.
Proof. induction l; by constructor. Qed.

Lemma Forall2_skeleton_ids (l l' : list Node) :
  Forall2 (fun a b => skeleton a = skeleton b) l l' -> ids l = ids l'.
Proof.
  unfold ids. induction 1 as [|a b l l' Hab _ IH]; simpl; [done|].
  rewrite IH. f_equal. by injection Hab.
Qed.

(** The loop of [ensure_paths] on a table whose slugs are set: when the walk
    of every node that needs a path returns, the loop returns the table with
    those paths filled in. [seen] is the part of the table already visited
    and [seen'] what it has become. *)
Lemma ensure_loop_Ok (fuel : nat) (children : gmap string (list string))
  (nodes : list Node) :
  NoDup (ids nodes) ->
  Forall (fun n => slug n <> EmptyString) nodes ->
  forall todo seen seen',
    nodes = seen ++ todo ->
    Forall2 (derived fuel nodes children) seen seen' ->
    Forall (fun n => needs_path n = true ->
              exists p, compute_default_file_path fuel nodes children (id n) = Ok p) todo ->
    exists todo',
      ensure_loop fuel children (seen' ++ todo) (map id todo) = Ok (seen' ++ todo') /\
      Forall2 (derived fuel nodes children) todo todo'.
Proof.
  intros Hnd Hslug. induction todo as [|n todo IH]; intros seen seen' Hnodes Hseen Hall.
  - exists []. split; [done|constructor].
  - apply Forall_cons in Hall as [Hn Hall].
    assert (Forall2 (fun a b => skeleton a = skeleton b) (seen' ++ n :: todo) nodes) as Hsk.
    { rewrite Hnodes. apply Forall2_app; [by eapply derived_skeleton|apply Forall2_skeleton_refl]. }
    assert (id n ∉ ids seen') as Hfresh.
    { rewrite (Forall2_skeleton_ids _ _ (derived_skeleton _ _ _ _ _ Hseen)).
      rewrite Hnodes in Hnd. unfold ids in Hnd. rewrite fmap_app in Hnd.
      apply NoDup_app in Hnd as (_ & Hnd & _). intros Hin. apply (Hnd _ Hin). by left. }
    assert (slug n <> EmptyString) as Hs.
    { rewrite Forall_forall in Hslug. apply Hslug. rewrite Hnodes.
      apply elem_of_app. right. by left. }
    assert (exists n', derived fuel nodes children n n' /\
              ensure_path fuel children (seen' ++ n :: todo) (id n) =
                Ok (seen' ++ n' :: todo)) as (n' & Hd & Hstep).
    { unfold ensure_path, nodes_item. rewrite nodes_get_middle by done. simpl.
      apply nonempty_true in Hs. rewrite Hs.
      rewrite (nodes_set_middle seen' todo n n) by done.
      unfold derived. fold (needs_path n). destruct (needs_path n) eqn:Hneed.
      - destruct (Hn eq_refl) as [p Hp]. exists (set_file_path n p).
        split; [by exists p|].
        rewrite (compute_skeleton _ _ _ _ _ Hsk), Hp. simpl.
        by rewrite (nodes_set_middle seen' todo n (set_file_path n p)).
      - by exists n. }
    destruct (IH (seen ++ [n]) (seen' ++ [n'])) as (todo' & Hloop & Htodo).
    { by rewrite <- app_assoc. }
    { apply Forall2_app; [done|by constructor]. }
    { done. }
    exists (n' :: todo'). split; [|by constructor].
    cbn [map ensure_loop]. rewrite Hstep. simpl.
    rewrite <- !app_assoc in Hloop. exact Hloop.
Qed.

Lemma needs_path_true (n : Node) :
  needs_path n = true <-> kind n <> "external" /\ file_path n = EmptyString.
Proof.
  unfold needs_path. rewrite andb_true_iff, !negb_true_iff, String.eqb_neq.
  by rewrite nonempty_false.
Qed.

Lemma index_kind_true (k : string) :
  index_kind k = true <-> k = "navbar" \/ k = "landing" \/ k = "section".
Proof.
  unfold index_kind. rewrite !orb_true_iff, !String.eqb_eq. tauto.
Qed.

Lemma Forall2_impl_elem {A B : Type} (R Q : A -> B -> Prop) (l : list A) (l' : list B) :
  (forall x y, x ∈ l -> R x y -> Q x y) -> Forall2 R l l' -> Forall2 Q l l'.
Proof.
  intros Himpl H. induction H as [|x y l l' Hxy _ IH]; constructor.
  - apply Himpl; [by left|done].
  - apply IH. intros a b Ha. apply Himpl. by right.
Qed.

(** [ensure_paths] returns on the table of [read_nodes] when the walks it
    needs return. *)
Lemma ensure_paths_returns (raws : list raw_row) (nodes : list Node)
  (children : gmap string (list string)) (fuel : nat) :
  read_nodes raws = Ok (nodes, children) ->
  (forall n, n ∈ nodes -> needs_path n = true ->
     exists chain, ancestry nodes (id n) chain /\ List.length chain <= S fuel) ->
  exists nodes',
    ensure_paths fuel nodes children = Ok nodes' /\
    Forall2 (derived fuel nodes children) nodes nodes'.
Proof.
  intros Hread Hchains.
  destruct (read_nodes_Ok _ _ _ Hread) as (_ & _ & Hnd & _ & _).
  assert (Forall (fun n => slug n <> EmptyString) nodes) as Hslug.
  { apply Forall_forall. intros n Hn.
    by destruct (read_nodes_node _ _ _ _ Hread Hn) as (_ & _ & _ & _ & ? & _). }
  destruct (ensure_loop_Ok fuel children nodes Hnd Hslug nodes [] []) as (nodes' & Hloop & Hd).
  { done. }
  { constructor. }
  { apply Forall_forall. intros n Hn Hneed. destruct (Hchains n Hn Hneed) as (c & Ha & Hlen).
    exists (derived_path n c). apply compute_complete; [|by apply needs_path_true|done..].
    by apply nodes_get_elem. }
  by exists nodes'.
Qed.

(** C1. On the table [read_nodes] returns, when the [parent_id] chain of
    every node that needs a path (not external, [file_path] empty) reaches a
    root within the bound given to the walk, [ensure_paths] returns the same
    nodes in the same order, where
    - a node that is not external and had no [file_path] has the path made of
      its ancestry of slugs, root first: joined with "index" and given the
      extension for the kinds navbar, landing and section, and for any other
      kind the ancestry of its parent followed by its own slug, joined and
      given the extension;
    - an external node keeps its [file_path], so it gets no derived one;
    - every node that is not external has a non-empty [file_path];
    - a node that had a [file_path] is unchanged. *)
Theorem path_derivation (raws : list raw_row) (nodes : list Node)
  (children : gmap string (list string)) (fuel : nat) :
  read_nodes raws = Ok (nodes, children) ->
  (forall n, n ∈ nodes -> needs_path n = true ->
     exists chain, ancestry nodes (id n) chain /\ List.length chain <= S fuel) ->
  exists nodes',
    ensure_paths fuel nodes children = Ok nodes' /\
    Forall2 (fun n n' =>
      skeleton n' = skeleton n /\
      (kind n <> "external" -> file_path n = EmptyString ->
       exists chain,
         ancestry nodes (id n) chain /\
         (kind n = "navbar" \/ kind n = "landing" \/ kind n = "section" ->
          file_path n' = Py.join "/" (chain ++ ["index"]) +:+ ".qmd") /\
         (kind n <> "navbar" -> kind n <> "landing" -> kind n <> "section" ->
          file_path n' = Py.join "/" (removelast chain ++ [slug n]) +:+ ".qmd")) /\
      (kind n = "external" -> n' = n) /\
      (kind n <> "external" -> file_path n' <> EmptyString) /\
      (file_path n <> EmptyString -> n' = n)) nodes nodes'.
Proof.
  intros Hread Hchains.
  destruct (read_nodes_Ok _ _ _ Hread) as (_ & _ & Hnd & _ & _).
  assert (forall n, n ∈ nodes -> needs_path n = true ->
            exists chain, ancestry nodes (id n) chain /\
              compute_default_file_path fuel nodes children (id n) =
                Ok (derived_path n chain)) as Hpaths.
  { intros n Hn Hneed. destruct (Hchains n Hn Hneed) as (chain & Ha & Hlen).
    exists chain. split; [done|]. apply compute_complete; [|by apply needs_path_true|done..].
    by apply nodes_get_elem. }
  destruct (ensure_paths_returns _ _ _ fuel Hread Hchains) as (nodes' & Hloop & Hd).
  exists nodes'. split; [exact Hloop|].
  clear Hloop. eapply Forall2_impl_elem; [|exact Hd]. intros n n' Hin Hn. simpl.
  unfold derived in Hn. destruct (needs_path n) eqn:Hneed.
  - destruct Hn as (p & Hp & ->). destruct (Hpaths n Hin Hneed) as (chain & Ha & Hc).
    rewrite Hc in Hp. injection Hp as <-.
    apply needs_path_true in Hneed as [Hk Hf].
    split; [done|]. split; [|split; [done|split]].
    + intros _ _. exists chain. split; [done|]. unfold derived_path. split.
      * intros Hi. apply index_kind_true in Hi. simpl. by rewrite Hi.
      * intros H1 H2 H3. simpl. destruct (index_kind (kind n)) eqn:Hi; [|done].
        apply index_kind_true in Hi. tauto.
    + intros _. simpl. apply derived_path_nonempty.
    + by rewrite Hf.
  - subst n'. split; [done|]. split; [|split; [done|split; [|done]]].
    + intros Hk Hf. assert (needs_path n = true) by (by apply needs_path_true). congruence.
    + intros Hk Hf. assert (needs_path n = true) by (by apply needs_path_true). congruence.
Qed.

(** Finds the ancestry of a node of a concrete table. *)
Ltac walk_up :=
  first [ eapply ancestry_root; [reflexivity | reflexivity]
        | eapply ancestry_child; [reflexivity | discriminate | walk_up] ].

Lemma path_derivation_witness :
  exists nodes',
    ensure_paths 1 (fst sample_tree) (snd sample_tree) = Ok nodes' /\
    file_path <$> nodes' = ["docs/index.qmd"; "docs/guide.qmd"; "docs/intro.qmd"].
Proof.
  destruct (path_derivation sample_raws (fst sample_tree) (snd sample_tree) 1)
    as (nodes' & Hrun & _).
  - by vm_compute.
  - intros n Hn _. vm_compute in Hn.
    repeat (apply elem_of_cons in Hn as [-> | Hn]);
      [..|apply elem_of_nil in Hn; destruct Hn].
    all: eexists; split; [walk_up|simpl; lia].
  - exists nodes'. split; [exact Hrun|].
    vm_compute in Hrun. by injection Hrun as <-.
Defined.

(** ** Fatal errors *)

Lemma mentions_here (before part after : string) :
  mentions (before +:+ part +:+ after) part.
Proof. by exists before, after. Qed.

Lemma mentions_end (before part : string) : mentions (before +:+ part) part.
Proof. exists before, EmptyString. by rewrite append_nil_r. Qed.

Lemma mentions_later (a b c d part : string) :
  mentions (a +:+ b +:+ c +:+ part +:+ d) part.
Proof. exists (a +:+ b +:+ c), d. by rewrite !append_assoc. Qed.

(** What the first loop of [read_nodes] raises, and on which record: the
    record number [k] counts from 0 and its line is [line_no + 1 + k]. *)
Lemma read_rows_Raise (raws : list raw_row) (line_no : nat) (acc : list Node) (e : exn) :
  read_rows raws line_no acc = Raise e ->
  match e with
  | ValueError_missing ln missing row =>
      exists k raw, ln = line_no + 1 + k /\ raws !! k = Some raw /\
        row = normalize_row_keys raw /\ row_blank row = false /\
        missing = missing_columns row /\ missing <> []
  | ValueError_duplicate nid ln =>
      exists k raw, ln = line_no + 1 + k /\ raws !! k = Some raw /\
        row_blank (normalize_row_keys raw) = false /\
        record_id (normalize_row_keys raw) = nid /\
        (nid ∈ ids acc \/
         exists j raw', j < k /\ raws !! j = Some raw' /\
           row_blank (normalize_row_keys raw') = false /\
           record_id (normalize_row_keys raw') = nid)
  | ValueError_int literal =>
      exists row, row ∈ records raws /\ literal = row_get row "order"
  | _ => False
  end.
Proof.
  revert line_no acc. induction raws as [|raw raws IH]; intros line_no acc; [done|].
  cbn [read_rows]. rewrite records_cons.
  destruct (row_blank (normalize_row_keys raw)) eqn:Hb.
  { intros H. specialize (IH _ _ H). destruct e; try done.
    - destruct IH as (k & r & -> & ?). exists (S k), r. split; [lia|done].
    - destruct IH as (k & r & -> & Hk & Hb' & Hid & Hdup). exists (S k), r.
      split; [lia|]. do 3 (split; [done|]). destruct Hdup as [? | (j & r' & ? & ?)]; [by left|].
      right. exists (S j), r'. split; [lia|done]. }
  destruct (missing_columns (normalize_row_keys raw)) as [|c cs] eqn:Hm.
  2:{ intros [= <-]. exists 0, raw. rewrite Hm. split; [lia|]. by do 4 (split; [done|]). }
  destruct (nodes_mem acc (row_get (normalize_row_keys raw) "id")) eqn:Hmem.
  { intros [= <-]. exists 0, raw. split; [lia|]. do 3 (split; [done|]). left.
    by apply nodes_mem_true. }
  destruct (make_node (normalize_row_keys raw)) as [n| |] eqn:Hn; simpl.
  - intros H. specialize (IH _ _ H). destruct e; try done.
    + destruct IH as (k & r & -> & ?). exists (S k), r. split; [lia|done].
    + destruct IH as (k & r & -> & Hk & Hb' & Hid & Hdup). exists (S k), r.
      split; [lia|]. do 3 (split; [done|]).
      destruct Hdup as [Hin | (j & r' & ? & ?)].
      * unfold ids in Hin. rewrite fmap_app in Hin.
        apply elem_of_app in Hin as [Hin | ->%list_elem_of_singleton]; [by left|].
        right. exists 0, raw. split; [lia|]. do 2 (split; [done|]).
        by apply make_node_fields in Hn as (-> & _).
      * right. exists (S j), r'. split; [lia|done].
    + destruct IH as (row & Hrow & ->). exists row. split; [by right|done].
  - intros [= <-]. unfold make_node, order_of in Hn.
    destruct (Py.isdigit _); [|done]. destruct (Py.int _); [done|].
    simpl in Hn. injection Hn as <-. eexists. split; [by left|done].
  - unfold make_node, order_of in Hn.
    destruct (Py.isdigit _); [destruct (Py.int _)|]; done.
Qed.

Lemma link_children_total (nodes todo : list Node) (children : gmap string (list string)) :
  link_children nodes todo children <> OutOfFuel.
Proof.
  revert children. induction todo as [|n todo IH]; intros children; simpl; [done|].
  destruct (Py.nonempty _); [destruct (nodes_mem _ _)|]; done.
Qed.

Lemma read_nodes_total (raws : list raw_row) : read_nodes raws <> OutOfFuel.
Proof.
  unfold read_nodes. pose proof (read_rows_total raws 1 []) as H1.
  destruct (read_rows raws 1 []) as [nodes| |]; simpl; [|done..].
  pose proof (link_children_total nodes nodes ∅) as H2.
  by destruct (link_children nodes nodes ∅).
Qed.

Lemma Forall2_make_node_elem (rows : list (gmap string string)) (nodes : list Node)
  (n : Node) :
  Forall2 (fun row n => make_node row = Ok n) rows nodes -> n ∈ nodes ->
  exists row, row ∈ rows /\ make_node row = Ok n.
Proof.
  induction 1 as [|row m rows nodes Hm _ IH]; intros Hin.
  - by apply elem_of_nil in Hin.
  - apply elem_of_cons in Hin as [-> | Hin].
    + exists row. split; [by left|done].
    + destruct (IH Hin) as (r & ? & ?). exists r. split; [by right|done].
Qed.

Lemma Forall2_make_node_row (rows : list (gmap string string)) (nodes : list Node)
  (row : gmap string string) :
  Forall2 (fun row n => make_node row = Ok n) rows nodes -> row ∈ rows ->
  exists n, n ∈ nodes /\ make_node row = Ok n.
Proof.
  induction 1 as [|r m rows nodes Hm _ IH]; intros Hin.
  - by apply elem_of_nil in Hin.
  - apply elem_of_cons in Hin as [-> | Hin].
    + exists m. split; [by left|done].
    + destruct (IH Hin) as (n & ? & ?). exists n. split; [by right|done].
Qed.

(** What the whole of [read_nodes] raises. *)
Lemma read_nodes_Raise (raws : list raw_row) (e : exn) :
  read_nodes raws = Raise e ->
  match e with
  | ValueError_missing ln missing row =>
      exists raw, 2 <= ln /\ raws !! (ln - 2) = Some raw /\
        row = normalize_row_keys raw /\ row_blank row = false /\
        missing = missing_columns row /\ missing <> []
  | ValueError_duplicate nid ln =>
      exists raw, 2 <= ln /\ raws !! (ln - 2) = Some raw /\
        row_blank (normalize_row_keys raw) = false /\
        record_id (normalize_row_keys raw) = nid /\
        exists j raw', j < ln - 2 /\ raws !! j = Some raw' /\
          row_blank (normalize_row_keys raw') = false /\
          record_id (normalize_row_keys raw') = nid
  | ValueError_int literal =>
      exists row, row ∈ records raws /\ literal = row_get row "order"
  | ValueError_parent pid nid =>
      exists row, row ∈ records raws /\ record_id row = nid /\
        row_get row "parent_id" = pid /\ pid <> EmptyString /\
        pid ∉ record_id <$> records raws
  | _ => False
  end.
Proof.
  unfold read_nodes. destruct (read_rows raws 1 []) as [nodes| |] eqn:Hrows; simpl.
  - destruct (link_children nodes nodes ∅) as [ch| |] eqn:Hlink; simpl; [done| |done].
    intros [= <-]. destruct (link_children_Raise _ _ _ _ Hlink) as (n & Hn & -> & Hp & Hno).
    destruct (read_rows_Ok _ _ _ _ Hrows) as (made & -> & Hmade & _). simpl in *.
    destruct (Forall2_make_node_elem _ _ _ Hmade Hn) as (row & Hrow & Hmk).
    rewrite (Forall2_make_node_ids _ _ Hmade) in Hno.
    apply make_node_fields in Hmk as (Hid & Hpid & _).
    exists row. rewrite <- Hpid. by repeat split.
  - intros [= ->]. pose proof (read_rows_Raise _ _ _ _ Hrows) as H. destruct e; try done.
    + destruct H as (k & raw & -> & Hk & H). exists raw.
      replace (1 + 1 + k - 2) with k by lia. split; [lia|done].
    + destruct H as (k & raw & -> & Hk & Hb & Hid & Hdup). exists raw.
      replace (1 + 1 + k - 2) with k by lia. split; [lia|]. do 3 (split; [done|]).
      destruct Hdup as [Hin | Hdup]; [by apply elem_of_nil in Hin|done].
  - done.
Qed.

Lemma filter_none {A : Type} (P : A -> Prop) `{forall x, Decision (P x)} (l : list A) :
  (forall x, x ∈ l -> ~ P x) -> filter P l = [].
Proof.
  induction l as [|x l IH]; intros Hno; [done|].
  rewrite filter_cons_False by (apply Hno; by left).
  apply IH. intros y Hy. apply Hno. by right.
Qed.

Lemma is_root_true (n : Node) :
  is_root n = true <-> parent_id n = EmptyString /\ kind n = "navbar".
Proof. unfold is_root. by rewrite andb_true_iff, !String.eqb_eq. Qed.

(** [main] stops on what [read_nodes] raises, with nothing written or
    printed. *)
Lemma main_read_Raise (fuel : nat) (args : Args) (raws : list raw_row)
  (content : option (list raw_row)) (w : world) (e : exn) :
  read_nodes raws = Raise e -> main fuel args raws content w = (Raise e, w).
Proof. intros H. unfold main, plan, mbind, io_bind, io_lift. by rewrite H. Qed.

Lemma main_no_roots (fuel : nat) (args : Args) (raws : list raw_row)
  (content : option (list raw_row)) (w : world) (nodes : list Node)
  (children : gmap string (list string)) :
  read_nodes raws = Ok (nodes, children) -> find_roots nodes = [] ->
  main fuel args raws content w = (Raise (SystemExit no_roots_message), w).
Proof.
  intros H Hroots. unfold main, plan, mbind, io_bind, io_lift. rewrite H. simpl.
  by rewrite Hroots.
Qed.

Lemma read_nodes_Ok_conditions (raws : list raw_row) (nodes : list Node)
  (children : gmap string (list string)) :
  read_nodes raws = Ok (nodes, children) ->
  ~ has_missing_field raws /\ ~ has_duplicate_id raws /\ ~ has_unknown_parent raws /\
  (has_no_root raws -> find_roots nodes = []).
Proof.
  intros Hread. destruct (read_nodes_Ok _ _ _ Hread) as (Hmade & Hreq & Hnd & Hpar & _).
  pose proof (Forall2_make_node_ids _ _ Hmade) as Hids. rewrite Hids in Hnd.
  pose proof (proj1 (Forall_forall _ _) Hreq) as Hreq'.
  pose proof (proj1 (Forall_forall _ _) Hpar) as Hpar'.
  clear Hreq Hpar. rename Hreq' into Hreq. rename Hpar' into Hpar.
  split; [|split; [|split]].
  - intros (row & Hrow & Hm). apply Hreq, missing_columns_nil in Hrow. tauto.
  - intros (i & j & row & row' & Hij & Hi & Hj & Heq).
    assert (i = j); [|lia].
    apply (NoDup_lookup _ i j (record_id row) Hnd).
    + by rewrite list_lookup_fmap, Hi.
    + by rewrite list_lookup_fmap, Hj, Heq.
  - intros (row & Hrow & Hne & Hno).
    destruct (Forall2_make_node_row _ _ _ Hmade Hrow) as (n & Hn & Hmk).
    apply make_node_fields in Hmk as (_ & Hp & _).
    apply Hno. rewrite <- Hp, <- Hids. apply Hpar; [done|by rewrite Hp].
  - intros Hnone. unfold find_roots. apply filter_none. intros n Hn Hroot.
    apply Is_true_true, is_root_true in Hroot as [Hp Hk].
    destruct (Forall2_make_node_elem _ _ _ Hmade Hn) as (row & Hrow & Hmk).
    apply make_node_fields in Hmk as (_ & Hp' & _ & _ & Hk' & _).
    apply (Hnone row Hrow). by rewrite <- Hp', <- Hk'.
Qed.

Lemma prefix_append (part rest : string) : String.prefix part (part +:+ rest) = true.
Proof.
  induction part as [|c part IH]; [by destruct rest|].
  change (String.prefix (String c part) (String c (part +:+ rest)) = true). simpl.
  destruct (ascii_dec c c); [exact IH|done].
Qed.

Lemma contains_unfold (part text : string) :
  Py.contains part text =
    String.prefix part text ||
    match text with
    | EmptyString => false
    | String _ rest => Py.contains part rest
    end.
Proof. by destruct text. Qed.

Lemma contains_prefix (part text : string) :
  String.prefix part text = true -> Py.contains part text = true.
Proof. intros H. by rewrite contains_unfold, H. Qed.

Lemma mentions_contains (text part : string) :
  mentions text part -> Py.contains part text = true.
Proof.
  intros (before & rest & ->). induction before as [|c before IH].
  - apply contains_prefix. change (String.prefix part (part +:+ rest) = true).
    apply prefix_append.
  - change (Py.contains part (String c (before +:+ part +:+ rest)) = true).
    rewrite contains_unfold, IH. apply orb_true_r.
Qed.

Lemma all_chars_append (p : ascii -> bool) (a b : string) :
  Py.all_chars p (a +:+ b) = Py.all_chars p a && Py.all_chars p b.
Proof.
  induction a as [|c a IH]; [done|].
  change (Py.all_chars p (String c (a +:+ b)) = Py.all_chars p (String c a) && Py.all_chars p b).
  simpl. by rewrite IH, andb_assoc.
Qed.

(** A text without digits shows no line number. *)
Lemma no_digit_no_line (text : string) (line_no : nat) :
  Py.all_chars (fun c => negb (Py.isdecimal c)) text = true ->
  ~ mentions text (Py.str_of_nat line_no).
Proof.
  intros Hno (before & rest & ->). rewrite !all_chars_append, !andb_true_iff in Hno.
  destruct Hno as (_ & Hno & _).
  destruct (pretty_N_decimal (N.of_nat line_no)) as (Hne & Hdec & _).
  unfold Py.str_of_nat, pretty, pretty_nat in Hno.
  destruct (pretty (N.of_nat line_no)) as [|c s]; [done|].
  simpl in Hno, Hdec. apply andb_true_iff in Hno as [Hc _], Hdec as [Hc' _].
  by rewrite Hc' in Hc.
Qed.

(** C7, refuted as stated: a run without root ends on a message that shows
    neither an id of the input nor a line number. *)
Lemma no_roots_message_locates_nothing :
  main 0 sample_args lone_raws None (start ∅) =
    (Raise (SystemExit no_roots_message), start ∅) /\
  ~ every_fatal_message_locates.
Proof.
  assert (main 0 sample_args lone_raws None (start ∅) =
            (Raise (SystemExit no_roots_message), start ∅)) as Hrun by (by vm_compute).
  split; [done|]. intros Hclaim.
  assert (records lone_raws = [normalize_row_keys lone_raw]) as Hrec.
  { unfold lone_raws. rewrite records_cons.
    by assert (row_blank (normalize_row_keys lone_raw) = false) as -> by (by vm_compute). }
  assert (has_no_root lone_raws) as Hnone.
  { intros row Hrow [_ Hk]. rewrite Hrec in Hrow.
    apply list_elem_of_singleton in Hrow. rewrite Hrow in Hk. clear -Hk.
    by vm_compute in Hk. }
  destruct (Hclaim _ _ _ _ _ _ _ (or_intror (or_intror (or_intror Hnone))) Hrun)
    as [(row & Hrow & Hm) | (line_no & Hm)].
  - rewrite Hrec in Hrow. apply list_elem_of_singleton in Hrow. rewrite Hrow in Hm.
    apply mentions_contains in Hm. clear -Hm. by vm_compute in Hm.
  - revert Hm. apply no_digit_no_line. by vm_compute.
Qed.

(** C7, amended. Each of the four conditions (a kept record without id,
    label or kind; two kept records with one id; a [parent_id] that is the
    id of no record; no record that is a root) ends the run on an exception
    before anything is written or printed. The three errors of [read_nodes]
    locate their cause: the missing-field error carries the line of a kept
    record that lacks a required field, the duplicate error the id and the
    line of its second occurrence, the parent error the unknown [parent_id]
    and the id of the node that names it, and each message shows them. The
    error for zero roots is [SystemExit] with a fixed text that holds no
    digit. *)
Theorem fatal_errors_abort :
  (forall fuel args raws content w,
     has_missing_field raws \/ has_duplicate_id raws \/ has_unknown_parent raws \/
     has_no_root raws ->
     exists e, main fuel args raws content w = (Raise e, w)) /\
  (forall raws e,
     read_nodes raws = Raise e ->
     match e with
     | ValueError_missing ln missing row =>
         (exists raw, 2 <= ln /\ raws !! (ln - 2) = Some raw /\
            row = normalize_row_keys raw /\ row_blank row = false /\
            missing = missing_columns row /\ missing <> []) /\
         mentions (exn_text e) (Py.str_of_nat ln)
     | ValueError_duplicate nid ln =>
         (exists raw, 2 <= ln /\ raws !! (ln - 2) = Some raw /\
            row_blank (normalize_row_keys raw) = false /\
            record_id (normalize_row_keys raw) = nid /\
            exists j raw', j < ln - 2 /\ raws !! j = Some raw' /\
              row_blank (normalize_row_keys raw') = false /\
              record_id (normalize_row_keys raw') = nid) /\
         mentions (exn_text e) nid /\ mentions (exn_text e) (Py.str_of_nat ln)
     | ValueError_parent pid nid =>
         (exists row, row ∈ records raws /\ record_id row = nid /\
            row_get row "parent_id" = pid /\ pid <> EmptyString /\
            pid ∉ record_id <$> records raws) /\
         mentions (exn_text e) pid /\ mentions (exn_text e) nid
     | ValueError_int literal =>
         exists row, row ∈ records raws /\ literal = row_get row "order"
     | _ => False
     end) /\
  (forall fuel args raws content w nodes children,
     read_nodes raws = Ok (nodes, children) -> has_no_root raws ->
     main fuel args raws content w = (Raise (SystemExit no_roots_message), w)) /\
  Py.all_chars (fun c => negb (Py.isdecimal c)) no_roots_message = true.
Proof.
  split; [|split; [|split]].
  - intros fuel args raws content w Hcond.
    destruct (read_nodes raws) as [[nodes children]|e|] eqn:Hread.
    + destruct (read_nodes_Ok_conditions _ _ _ Hread) as (H1 & H2 & H3 & H4).
      destruct Hcond as [? | [? | [? | Hnone]]]; [done..|].
      eexists. eapply main_no_roots; [exact Hread|by apply H4].
    + exists e. by apply main_read_Raise.
    + by destruct (read_nodes_total raws).
  - intros raws e Hread. pose proof (read_nodes_Raise _ _ Hread) as H.
    destruct e; try done.
    + split; [done|]. apply mentions_here.
    + split; [done|]. split; [apply mentions_here|].
      simpl. rewrite <- !append_assoc. apply mentions_end.
    + split; [done|]. split; [apply mentions_here|]. apply mentions_later.
  - intros fuel args raws content w nodes children Hread Hnone.
    eapply main_no_roots; [exact Hread|].
    destruct (read_nodes_Ok_conditions _ _ _ Hread) as (_ & _ & _ & H). by apply H.
  - by vm_compute.
Qed.

Lemma fatal_errors_abort_witness :
  exists e, main 0 sample_args twice_raws None (start ∅) = (Raise e, start ∅).
Proof.
  apply (proj1 fatal_errors_abort). right. left.
  exists 0, 1. eexists _, _. split; [lia|].
  split; [reflexivity|]. split; [reflexivity|]. reflexivity.
Defined.

Example twice_raws_error :
  read_nodes twice_raws = Raise (ValueError_duplicate "docs" 3) /\
  exn_text (ValueError_duplicate "docs" 3) = "Duplicate id 'docs' on line 3".
Proof. by vm_compute. Qed.

(** ** The default link of a root *)

Lemma for_lines_resolves {A : Type} (body : A -> res (list string)) (l : list A)
  (lines : list string) (x : A) :
  for_lines body l = Ok lines -> x ∈ l -> exists here, body x = Ok here.
Proof.
  revert lines. induction l as [|y l IH]; intros lines; simpl.
  - intros _ H. by apply elem_of_nil in H.
  - destruct (body y) as [here| |] eqn:Hy; simpl; [|done..].
    destruct (for_lines body l) as [more| |]; simpl; [|done..].
    intros _ [-> | Hx]%elem_of_cons; [by exists here|]. by eapply IH.
Qed.

Lemma any_landing_spec (nodes : list Node) (kids : list string) :
  (forall cid, cid ∈ kids -> exists c, nodes_get nodes cid = Some c) ->
  exists b, any_landing nodes kids = Ok b /\
    (b = true <->
     exists cid c, cid ∈ kids /\ nodes_get nodes cid = Some c /\ kind c = "landing").
Proof.
  induction kids as [|cid kids IH]; intros Hres; simpl.
  - exists false. split; [done|]. split; [done|].
    intros (cid & c & H & _). by apply elem_of_nil in H.
  - destruct (Hres cid ltac:(by left)) as [c Hc]. unfold nodes_item. rewrite Hc. simpl.
    destruct (String.eqb (kind c) "landing") eqn:Hk.
    + exists true. split; [done|]. split; [|done]. intros _.
      exists cid, c. split; [by left|]. split; [done|]. by apply String.eqb_eq.
    + destruct IH as (b & Hb & Hiff). { intros x Hx. apply Hres. by right. }
      exists b. split; [done|]. rewrite Hiff. split.
      * intros (x & cx & Hx & ?). exists x, cx. split; [by right|done].
      * intros (x & cx & [-> | Hx]%elem_of_cons & Hcx & Hkx).
        -- rewrite Hc in Hcx. injection Hcx as <-. apply String.eqb_neq in Hk. done.
        -- by exists x, cx.
Qed.

(** The sidebar block of a root whose children render to [kid_lines]. *)
Lemma sidebar_block_link (fuel : nat) (nodes : list Node)
  (children : gmap string (list string)) (style background : option string)
  (root : Node) (kid_lines : list string) :
  for_lines (root_child_lines fuel nodes children) (children_get children (id root))
    = Ok kid_lines ->
  (file_path root <> EmptyString /\
   (forall cid c, cid ∈ children_get children (id root) ->
      nodes_get nodes cid = Some c -> kind c <> "landing") ->
   sidebar_block fuel nodes children style background root =
     Ok (sidebar_head style background root ++
         [ "        - text: " +:+ dq +:+ label root +:+ dq;
           "          href: " +:+ file_path root ] ++
         kid_lines ++ [EmptyString])) /\
  (file_path root = EmptyString \/
   (exists cid c, cid ∈ children_get children (id root) /\
      nodes_get nodes cid = Some c /\ kind c = "landing") ->
   sidebar_block fuel nodes children style background root =
     Ok (sidebar_head style background root ++ kid_lines ++ [EmptyString])).
Proof.
  intros Hkids.
  destruct (any_landing_spec nodes (children_get children (id root))) as (b & Hb & Hiff).
  { intros cid Hcid. destruct (for_lines_resolves _ _ _ _ Hkids Hcid) as [here Hhere].
    unfold root_child_lines, nodes_item in Hhere.
    destruct (nodes_get nodes cid) as [c|]; [by exists c|done]. }
  unfold sidebar_block. rewrite Hb, Hkids. simpl. split.
  - intros [Hfp Hnone]. apply nonempty_true in Hfp. rewrite Hfp.
    destruct b; [|done]. destruct (proj1 Hiff eq_refl) as (cid & c & Hcid & Hc & Hk).
    by destruct (Hnone cid c Hcid Hc).
  - intros [Hfp | Hland].
    + apply nonempty_false in Hfp. by rewrite Hfp.
    + apply Hiff in Hland. rewrite Hland. by rewrite andb_false_r.
Qed.


(** ** Substrings *)

Lemma prefix_split (part text : string) :
  String.prefix part text = true -> exists rest, text = part +:+ rest.
Proof.
  revert text. induction part as [|c part IH]; intros text; [by exists text|].
  destruct text as [|d text]; [done|]. simpl.
  destruct (ascii_dec c d) as [-> | _]; [|done].
  intros H. destruct (IH _ H) as [rest ->]. by exists rest.
Qed.

Lemma contains_mentions (text part : string) :
  Py.contains part text = true -> mentions text part.
Proof.
  induction text as [|c text IH]; rewrite contains_unfold.
  - rewrite orb_false_r. intros H. destruct (prefix_split _ _ H) as [rest ->].
    by exists EmptyString, rest.
  - intros [H | H]%orb_true_iff.
    + destruct (prefix_split _ _ H) as [rest ->]. by exists EmptyString, rest.
    + destruct (IH H) as (before & rest & ->). by exists (String c before), rest.
Qed.

Lemma take_length (n : nat) (s : string) : String.length (Py.take n s) <= n.
Proof.
  revert s. induction n as [|n IH]; intros s; [done|].
  destruct s as [|c s]; [simpl; lia|].
  change (S (String.length (Py.take n s)) <= S n). specialize (IH s). lia.
Qed.

Lemma take_rest (n : nat) (s : string) : exists rest, s = Py.take n s +:+ rest.
Proof.
  revert s. induction n as [|n IH]; intros s; [by exists s|].
  destruct s as [|c s]; [by exists EmptyString|].
  destruct (IH s) as [rest Hrest]. exists rest.
  change (String c s = String c (Py.take n s +:+ rest)). by rewrite <- Hrest.
Qed.

Lemma take_app (n : nat) (a b : string) :
  String.length a <= n -> Py.take n (a +:+ b) = a +:+ Py.take (n - String.length a) b.
Proof.
  revert n. induction a as [|c a IH]; intros n Hlen.
  - simpl. by rewrite Nat.sub_0_r.
  - destruct n as [|n]; [simpl in Hlen; lia|].
    change (String c (Py.take n (a +:+ b)) =
            String c (a +:+ Py.take (n - String.length a) b)).
    rewrite IH; [done|]. simpl in Hlen. lia.
Qed.

Lemma head_shows (n : nat) (text part : string) :
  Py.contains part (Py.take n text) = true <->
  exists before rest,
    text = before +:+ part +:+ rest /\ String.length before + String.length part <= n.
Proof.
  split.
  - intros (before & rest & Heq)%contains_mentions.
    destruct (take_rest n text) as [more Hmore]. exists before, (rest +:+ more). split.
    + rewrite Hmore at 1. by rewrite Heq, !append_assoc.
    + pose proof (take_length n text) as Hlen.
      rewrite Heq, !append_length in Hlen. lia.
  - intros (before & rest & -> & Hlen). apply mentions_contains.
    rewrite take_app by lia. rewrite take_app by lia. apply mentions_here.
Qed.

Lemma join_cons (sep x y : string) (l : list string) :
  Py.join sep (x :: y :: l) = x +:+ sep +:+ Py.join sep (y :: l).
Proof. reflexivity. Qed.

Lemma prefix_sep (m a b : string) (c : ascii) :
  Py.all_chars (fun x => negb (Ascii.eqb x c)) m = true ->
  String.prefix m (a +:+ String c b) = String.prefix m a.
Proof.
  revert m. induction a as [|y a IH]; intros m Hm.
  - destruct m as [|x m]; [done|]. simpl in *.
    apply andb_true_iff in Hm as [Hx _]. apply negb_true_iff, Ascii.eqb_neq in Hx.
    by destruct (ascii_dec x c).
  - destruct m as [|x m]; [done|].
    change (String.prefix (String x m) (String y (a +:+ String c b)) =
            String.prefix (String x m) (String y a)).
    simpl. destruct (ascii_dec x y); [|done]. apply IH.
    simpl in Hm. by apply andb_true_iff in Hm as [_ ?].
Qed.

(** A text cut at a character the part does not hold shows the part on one
    side of the cut or not at all. *)
Lemma contains_sep (m a b : string) (c : ascii) :
  Py.all_chars (fun x => negb (Ascii.eqb x c)) m = true ->
  Py.contains m (a +:+ String c b) = Py.contains m a || Py.contains m b.
Proof.
  intros Hm. induction a as [|y a IH].
  - change (Py.contains m (String c b) = Py.contains m EmptyString || Py.contains m b).
    rewrite (contains_unfold m (String c b)), (contains_unfold m EmptyString).
    rewrite orb_false_r. f_equal. exact (prefix_sep m EmptyString b c Hm).
  - change (Py.contains m (String y (a +:+ String c b)) =
            Py.contains m (String y a) || Py.contains m b).
    rewrite (contains_unfold m (String y _)), (contains_unfold m (String y a)), IH.
    rewrite <- orb_assoc. f_equal.
    exact (prefix_sep m (String y a) b c Hm).
Qed.

Lemma free_sep (a b : string) (c : ascii) :
  not_in_marker c -> marker_free a -> marker_free b -> marker_free (a +:+ String c b).
Proof.
  unfold marker_free. intros Hc Ha Hb. by rewrite contains_sep, Ha, Hb.
Qed.

Lemma free_join (l : list string) :
  Forall marker_free l -> marker_free (Py.join nl l).
Proof.
  induction 1 as [|x l Hx Hl IH]; [reflexivity|].
  destruct l as [|y l]; [done|]. rewrite join_cons.
  change (marker_free (x +:+ String (ascii_of_nat 10) (Py.join nl (y :: l)))).
  by apply free_sep.
Qed.

(** ** Reading back *)

(** A carriage return and the line feed after it are read as one line
    feed. *)
Lemma newlines_pair (c d : ascii) (s : string) :
  (Py.code c =? 13) = true -> (Py.code d =? 10) = true ->
  Py.universal_newlines (String c (String d s)) =
    String (ascii_of_nat 10) (Py.universal_newlines s).
Proof. intros Hc Hd. cbn [Py.universal_newlines]. by rewrite Hc, Hd. Qed.

(** Any other character is read by itself, a lone carriage return as a
    line feed. *)
Lemma newlines_step (c : ascii) (s : string) :
  (Py.code c =? 13) &&
    match s with String d _ => Py.code d =? 10 | EmptyString => false end = false ->
  Py.universal_newlines (String c s) =
    String (if Py.code c =? 13 then ascii_of_nat 10 else c) (Py.universal_newlines s).
Proof.
  intros H. cbn [Py.universal_newlines]. destruct (Py.code c =? 13); [|done].
  destruct s as [|d s]; [done|]. cbn [andb] in H. by rewrite H.
Qed.

Lemma newlines_ind (P : string -> Prop) :
  P EmptyString ->
  (forall c d s, (Py.code c =? 13) = true -> (Py.code d =? 10) = true ->
     P s -> P (String c (String d s))) ->
  (forall c s,
     (Py.code c =? 13) &&
       match s with String d _ => Py.code d =? 10 | EmptyString => false end = false ->
     P s -> P (String c s)) ->
  forall s, P s.
Proof.
  intros H0 H2 H1 s.
  assert (P s /\ forall c, P (String c s)) as [? _]; [|done].
  induction s as [|d s [IHs IHc]].
  - split; [done|]. intros c. apply H1; [by rewrite andb_false_r|done].
  - split; [apply IHc|]. intros c.
    destruct ((Py.code c =? 13) && (Py.code d =? 10)) eqn:E.
    + apply andb_true_iff in E as [? ?]. by apply H2.
    + apply H1; [done|apply IHc].
Qed.

Lemma newlines_length (s : string) :
  String.length (Py.universal_newlines s) <= String.length s.
Proof.
  induction s as [|c d s Hc Hd IH|c s H IH] using newlines_ind; [done| |].
  - rewrite newlines_pair by done. simpl. lia.
  - rewrite newlines_step by done. simpl. lia.
Qed.

(** What is read holds no carriage return. *)
Lemma newlines_no_cr (s : string) : no_carriage_return (Py.universal_newlines s) = true.
Proof.
  unfold no_carriage_return.
  induction s as [|c d s Hc Hd IH|c s H IH] using newlines_ind; [done| |].
  - rewrite newlines_pair by done. simpl. exact IH.
  - rewrite newlines_step by done. cbn [Py.all_chars]. rewrite IH, andb_true_r.
    by destruct (Py.code c =? 13) eqn:E; [|rewrite E].
Qed.

(** A text without carriage return reads back as it is. *)
Lemma newlines_fixed (s : string) :
  no_carriage_return s = true -> Py.universal_newlines s = s.
Proof.
  unfold no_carriage_return. induction s as [|c s IH]; [done|]. cbn [Py.all_chars].
  intros [Hc Hs]%andb_true_iff. apply negb_true_iff in Hc.
  rewrite newlines_step by (by rewrite Hc). by rewrite Hc, IH.
Qed.

Lemma newlines_fixed_iff (s : string) :
  Py.universal_newlines s = s <-> no_carriage_return s = true.
Proof.
  split; [|apply newlines_fixed]. intros <-. apply newlines_no_cr.
Qed.

Lemma newlines_plain_app (a b : string) :
  no_carriage_return a = true ->
  Py.universal_newlines (a +:+ b) = a +:+ Py.universal_newlines b.
Proof.
  unfold no_carriage_return. induction a as [|c a IH]; [done|]. cbn [Py.all_chars].
  intros [Hc Ha]%andb_true_iff. apply negb_true_iff in Hc.
  change (Py.universal_newlines (String c (a +:+ b)) =
          String c (a +:+ Py.universal_newlines b)).
  rewrite newlines_step by (by rewrite Hc). by rewrite Hc, IH.
Qed.

(** Reading a text in two parts, when the second does not start with a
    line feed. *)
Lemma newlines_app (a b : string) :
  match b with String d _ => Py.code d =? 10 | EmptyString => false end = false ->
  Py.universal_newlines (a +:+ b) = Py.universal_newlines a +:+ Py.universal_newlines b.
Proof.
  intros Hb. induction a as [|c d a Hc Hd IH|c a H IH] using newlines_ind; [done| |].
  - change (Py.universal_newlines (String c (String d (a +:+ b))) =
            Py.universal_newlines (String c (String d a)) +:+ Py.universal_newlines b).
    rewrite !newlines_pair by done. by rewrite IH.
  - change (Py.universal_newlines (String c (a +:+ b)) =
            Py.universal_newlines (String c a) +:+ Py.universal_newlines b).
    rewrite (newlines_step c a) by done. rewrite (newlines_step c (a +:+ b)).
    + by rewrite IH.
    + destruct a as [|x a]; [|exact H].
      change (EmptyString +:+ b) with b. by rewrite Hb, andb_false_r.
Qed.

Lemma newlines_prefix (part s : string) :
  Py.all_chars (fun c => negb (Py.code c =? 10)) part = true ->
  String.prefix part (Py.universal_newlines s) = true -> String.prefix part s = true.
Proof.
  revert s. induction part as [|d part IH]; intros s Hpart; [by destruct s|].
  cbn [Py.all_chars] in Hpart. apply andb_true_iff in Hpart as [Hd Hpart].
  apply negb_true_iff in Hd.
  destruct s as [|c s]; [done|].
  destruct (Py.code c =? 13) eqn:Hc.
  - assert (exists rest, Py.universal_newlines (String c s) = String (ascii_of_nat 10) rest)
      as [rest ->].
    { cbn [Py.universal_newlines]. rewrite Hc. by eexists. }
    simpl. destruct (ascii_dec d (ascii_of_nat 10)) as [-> | _]; [|done].
    discriminate Hd.
  - rewrite newlines_step by (by rewrite Hc). rewrite Hc. simpl.
    destruct (ascii_dec d c); [|done]. by apply IH.
Qed.

(** Reading shows no part that the text does not hold, for a part without
    line feed. *)
Lemma newlines_contains (part s : string) :
  part <> EmptyString ->
  Py.all_chars (fun c => negb (Py.code c =? 10)) part = true ->
  Py.contains part (Py.universal_newlines s) = true -> Py.contains part s = true.
Proof.
  intros Hne Hpart.
  assert (forall rest, String.prefix part (String (ascii_of_nat 10) rest) = false) as Hlf.
  { intros rest. destruct part as [|d part]; [done|]. simpl.
    destruct (ascii_dec d (ascii_of_nat 10)) as [-> | _]; [|done].
    cbn [Py.all_chars] in Hpart. by apply andb_true_iff in Hpart as [? _]. }
  induction s as [|c d s Hc Hd IH|c s H IH] using newlines_ind; [done| |].
  - rewrite newlines_pair by done. rewrite contains_unfold, Hlf. simpl. intros Hs.
    rewrite contains_unfold, (contains_unfold part (String d s)), (IH Hs).
    by rewrite !orb_true_r.
  - rewrite newlines_step by done.
    rewrite (contains_unfold part (String _ (Py.universal_newlines s))).
    intros [Hp | Hs]%orb_true_iff.
    + apply contains_prefix, newlines_prefix; [done|]. by rewrite newlines_step.
    + by rewrite contains_unfold, (IH Hs), orb_true_r.
Qed.

Lemma newlines_free (s : string) : marker_free s -> marker_free (Py.universal_newlines s).
Proof.
  unfold marker_free. intros Hs.
  destruct (Py.contains autogen_marker (Py.universal_newlines s)) eqn:E; [|done].
  apply newlines_contains in E; [congruence|done|reflexivity].
Qed.

(** ** The marker test and the gate *)

Lemma flag_free (text : string) :
  marker_free text -> file_has_autogen_flag (Some text) = false.
Proof.
  unfold marker_free, file_has_autogen_flag. intros Hfree.
  destruct (Py.contains autogen_marker (Py.take 2000 text)) eqn:E; [|done].
  apply head_shows in E as (before & rest & -> & _).
  by rewrite mentions_contains in Hfree by apply mentions_here.
Qed.

(** A text that shows the marker in its first 2000 characters shows it
    there when it is read back. *)
Lemma flag_read (text : string) :
  file_has_autogen_flag (Some text) = true ->
  file_has_autogen_flag (Some (Py.universal_newlines text)) = true.
Proof.
  unfold file_has_autogen_flag. intros (before & rest & -> & Hlen)%head_shows.
  apply head_shows. exists (Py.universal_newlines before), (Py.universal_newlines rest).
  split.
  - rewrite newlines_app by reflexivity. by rewrite newlines_plain_app by reflexivity.
  - pose proof (newlines_length before). lia.
Qed.

Lemma may_write_marked (text : string) :
  file_has_autogen_flag (Some text) = true -> may_write (Some text) = true.
Proof. apply flag_read. Qed.

Lemma may_write_free (text : string) : marker_free text -> may_write (Some text) = false.
Proof. intros H. apply flag_free, newlines_free, H. Qed.

(** ** The header of a page *)

Lemma strip_prefix_Some (p s rest : string) :
  strip_prefix p s = Some rest -> s = p +:+ rest.
Proof.
  revert s. induction p as [|a p IH]; intros s; simpl; [by intros [= ->]|].
  destruct s as [|b s]; [done|].
  destruct (Ascii.eqb a b) eqn:E; [|done]. apply Ascii.eqb_eq in E as ->.
  intros H. by rewrite (IH _ H).
Qed.

Lemma cut_header_unfold (s : string) :
  cut_header s =
    match closes_here s with
    | Some rest => Some (EmptyString, rest)
    | None =>
        match s with
        | EmptyString => None
        | String c s' =>
            match cut_header s' with
            | Some (h, rest) => Some (String c h, rest)
            | None => None
            end
        end
    end.
Proof. by destruct s. Qed.

Lemma cut_header_Some (s h rest : string) :
  cut_header s = Some (h, rest) -> s = h +:+ (nl +:+ "---") +:+ rest.
Proof.
  revert h. induction s as [|c s IH]; intros h; rewrite cut_header_unfold.
  - unfold closes_here.
    destruct (strip_prefix (nl +:+ "---") EmptyString) as [r|] eqn:E; [|done].
    apply strip_prefix_Some in E. discriminate E.
  - unfold closes_here.
    destruct (strip_prefix (nl +:+ "---") (String c s)) as [r|] eqn:E.
    + destruct (negb (Py.nonempty r) || String.prefix nl r).
      * intros [= <- <-]. by apply strip_prefix_Some in E.
      * destruct (cut_header s) as [[h' r']|]; [|done].
        intros [= <- <-]. by rewrite (IH h' eq_refl).
    + destruct (cut_header s) as [[h' r']|]; [|done].
      intros [= <- <-]. by rewrite (IH h' eq_refl).
Qed.

Lemma split_header_Some (text h body : string) :
  split_header text = Some (h, body) ->
  text = "---" +:+ h +:+ (nl +:+ "---") +:+ body.
Proof.
  unfold split_header. destruct (strip_prefix "---" text) as [rest|] eqn:E; [|done].
  apply strip_prefix_Some in E as ->.
  destruct (String.prefix nl rest); [|done]. intros H. by rewrite (cut_header_Some _ _ _ H).
Qed.

Lemma free_after_hyphens (s : string) : marker_free s -> marker_free ("---" +:+ s).
Proof.
  intros Hs. change (marker_free ("--" +:+ String "-" s)).
  apply free_sep; [reflexivity|reflexivity|done].
Qed.

(** On a plain page the test of the code and the header agree. *)
Lemma plain_page_flag (text : string) :
  plain_page text -> file_has_autogen_flag (Some text) = header_marked text.
Proof.
  unfold plain_page, header_marked.
  destruct (split_header text) as [[h body]|] eqn:E; [|apply flag_free].
  apply split_header_Some in E as ->. intros [Hbody Hlen].
  destruct (Py.contains autogen_marker h) eqn:Hh.
  - specialize (Hlen eq_refl). apply contains_mentions in Hh as (a & b & ->).
    unfold file_has_autogen_flag. apply head_shows.
    exists ("---" +:+ a), (b +:+ (nl +:+ "---") +:+ body). split.
    + by rewrite !append_assoc.
    + rewrite !append_length in *. simpl in *. lia.
  - apply flag_free.
    change (marker_free (("---" +:+ h) +:+ String (ascii_of_nat 10) ("---" +:+ body))).
    apply free_sep; [reflexivity| |]; by apply free_after_hyphens.
Qed.

(** The gate of the code and the gate of the specification agree on plain
    pages. *)
Lemma may_write_plain (held : option string) :
  (forall text, held = Some text -> plain_page (Py.universal_newlines text)) ->
  may_write held = page_open held.
Proof.
  destruct held as [text|]; [|done]. intros H. apply plain_page_flag. by apply H.
Qed.

Lemma unmarked_manual_kept (w w' : world) : unmarked_kept w w' -> manual_kept w w'.
Proof.
  intros H path text Hheld Hplain Hmark. apply H; [done|].
  unfold may_write. by rewrite plain_page_flag.
Qed.

(** ** Page creation *)

Lemma unmarked_kept_refl (w : world) : unmarked_kept w w.
Proof. by intros path text. Qed.

Lemma unmarked_kept_trans (w1 w2 w3 : world) :
  unmarked_kept w1 w2 -> unmarked_kept w2 w3 -> unmarked_kept w1 w3.
Proof. intros H12 H23 path text H1 Hf. apply H23; [|done]. by apply H12. Qed.

Lemma write_content_run (fp text template : string) (w : world) :
  write_content fp text template w =
    (Ok tt,
     if may_write (files w !! fp)
     then mkWorld (<[fp := text]> (files w))
                  (trace w ++ [Write fp text;
                               Print ("Wrote content for " +:+ fp +:+ " (" +:+ template +:+ ")")])
     else mkWorld (files w)
                  (trace w ++ [Print ("Skip content write (manual page): " +:+ fp)])).
Proof.
  unfold write_content, mbind, io_bind, io_exists, io_read, io_write, io_print, may_write.
  simpl. destruct (files w !! fp) as [held|] eqn:E; simpl.
  - destruct (Py.contains autogen_marker (Py.take 2000 (Py.universal_newlines held)));
      simpl; [|done].
    by rewrite <- app_assoc.
  - by rewrite <- app_assoc.
Qed.

Lemma write_stub_run (fp title : string) (is_landing : bool)
  (links : option (list (string * string))) (description : string) (w : world) :
  write_stub fp title is_landing links description w =
    (Ok tt,
     match files w !! fp with
     | Some _ => w
     | None => mkWorld (<[fp := stub_text title is_landing links description]> (files w))
                       (trace w ++ [Write fp (stub_text title is_landing links description)])
     end).
Proof.
  unfold write_stub, mbind, io_bind, io_exists, io_write, mret, io_ret.
  by destruct (files w !! fp) as [held|] eqn:E.
Qed.

(** What one turn of the page loop does for a node that is not external and
    has a [file_path]. *)
Lemma create_page_run (nodes : list Node) (children : gmap string (list string))
  (content_by_id : gmap string (gmap string string)) (n : Node) (w : world) :
  kind n <> "external" -> file_path n <> EmptyString ->
  match template_of content_by_id n with
  | Some (text, template) =>
      create_page nodes children content_by_id n w =
        write_content (file_path n) text template w
  | None =>
      (exists links,
         create_page nodes children content_by_id n w =
           write_stub (file_path n) (label n)
             (String.eqb (kind n) "landing" || String.eqb (kind n) "section")
             links (description n) w) \/
      (exists key, create_page nodes children content_by_id n w = (Raise (KeyError key), w))
  end.
Proof.
  intros Hk Hfp. unfold create_page, template_of.
  apply String.eqb_neq in Hk. apply nonempty_true in Hfp. rewrite Hk, Hfp. simpl.
  destruct (selects (content_by_id !! id n) "single_iframe"); [done|].
  destruct (selects (content_by_id !! id n) "doble_iframe"); [done|].
  destruct (String.eqb (kind n) "landing" || String.eqb (kind n) "section"); simpl.
  - destruct (children !! id n) as [kids|]; [|left; by exists None].
    unfold mbind at 1. unfold io_bind, io_lift.
    destruct (child_links nodes kids) as [links|e|] eqn:Hl.
    + left. by exists (Some links).
    + right. clear -Hl. revert e Hl.
      assert (forall l e, child_links nodes l = Raise e -> exists key, e = KeyError key) as H.
      { induction l as [|cid l IH]; intros e; simpl; [done|]. unfold nodes_item.
        destruct (nodes_get nodes cid); simpl.
        - destruct (child_links nodes l); simpl; [done| |done]. intros [= <-]. by eapply IH.
        - intros [= <-]. by eexists. }
      intros e Hl. destruct (H _ _ Hl) as [key ->]. by exists key.
    + exfalso. clear -Hl. revert Hl. induction kids as [|cid l IH]; simpl; [done|].
      unfold nodes_item. destruct (nodes_get nodes cid); simpl; [|done].
      by destruct (child_links nodes l).
  - left. by exists None.
Qed.

Lemma create_page_keeps (nodes : list Node) (children : gmap string (list string))
  (content_by_id : gmap string (gmap string string)) (n : Node) (w : world) :
  unmarked_kept w (snd (create_page nodes children content_by_id n w)).
Proof.
  destruct (decide (kind n = "external")) as [Hk | Hk].
  { unfold create_page. rewrite Hk. simpl. apply unmarked_kept_refl. }
  destruct (decide (file_path n = EmptyString)) as [Hfp | Hfp].
  { unfold create_page. apply String.eqb_neq in Hk. rewrite Hk, Hfp. simpl.
    apply unmarked_kept_refl. }
  pose proof (create_page_run nodes children content_by_id n w Hk Hfp) as H.
  destruct (template_of content_by_id n) as [[text template]|].
  - rewrite H, write_content_run. simpl. intros path held Hheld Hflag.
    destruct (may_write (files w !! file_path n)) eqn:Hmay; simpl; [|done].
    destruct (decide (path = file_path n)) as [-> | Hne].
    + rewrite Hheld in Hmay. congruence.
    + by rewrite lookup_insert_ne.
  - destruct H as [[links ->] | [key ->]]; [|apply unmarked_kept_refl].
    rewrite write_stub_run. simpl. intros path held Hheld Hflag.
    destruct (files w !! file_path n) eqn:E; [done|]. simpl.
    destruct (decide (path = file_path n)) as [-> | Hne]; [congruence|].
    by rewrite lookup_insert_ne.
Qed.

Lemma io_for_keeps {A : Type} (body : A -> io unit) (l : list A) (w : world) :
  (forall x w0, unmarked_kept w0 (snd (body x w0))) ->
  unmarked_kept w (snd (io_for body l w)).
Proof.
  intros Hbody. revert w. induction l as [|x l IH]; intros w.
  - apply unmarked_kept_refl.
  - simpl. unfold mbind, io_bind. pose proof (Hbody x w) as Hx.
    destruct (body x w) as [[[]| |] w1]; simpl in *; [|done..].
    eapply unmarked_kept_trans; [exact Hx|apply IH].
Qed.

(** C3, refuted as stated: for a node without content record the existing
    page, which has no header at all, is left alone and nothing is
    printed. *)
Lemma stub_skip_is_silent :
  create_page sample_nodes (snd sample_tree) ∅ sample_root (start manual_files) =
    (Ok tt, start manual_files) /\
  ~ manual_skip_is_reported.
Proof.
  assert (create_page sample_nodes (snd sample_tree) ∅ sample_root (start manual_files) =
            (Ok tt, start manual_files)) as Hrun by (by vm_compute).
  split; [exact Hrun|]. intros Hclaim.
  destruct (Hclaim sample_nodes (snd sample_tree) ∅ sample_root (start manual_files)
              "Hand-written page.") as (line & rest & Htrace).
  - discriminate.
  - discriminate.
  - by vm_compute.
  - by vm_compute.
  - rewrite Hrun in Htrace. simpl in Htrace. discriminate Htrace.
Qed.

(** C3, amended. For a node that is not external and has a [file_path],
    and a page there that is plain (it holds the marker, if at all, in its
    header, and the header ends within the first 2000 characters):
    - with a content record that selects a template, the page is written
      when no file is there or the header of the file carries the marker,
      and a line reports it; when the file is there without the marker in
      its header nothing is written and a line reports the skip;
    - without such a record, the stub is written when no file is there, and
      when a file is there (with the marker or not) nothing is written and
      nothing is printed.
    Whatever the nodes, the page loop leaves every plain page whose header
    lacks the marker as it was. *)
Theorem page_write_gating (nodes : list Node) (children : gmap string (list string))
  (content_by_id : gmap string (gmap string string)) (n : Node) (w : world) :
  kind n <> "external" -> file_path n <> EmptyString ->
  (forall held, files w !! file_path n = Some held ->
     plain_page (Py.universal_newlines held)) ->
  match template_of content_by_id n with
  | Some (text, template) =>
      create_page nodes children content_by_id n w =
        (Ok tt,
         if page_open (files w !! file_path n)
         then mkWorld (<[file_path n := text]> (files w))
                (trace w ++
                 [Write (file_path n) text;
                  Print ("Wrote content for " +:+ file_path n +:+
                         " (" +:+ template +:+ ")")])
         else mkWorld (files w)
                (trace w ++
                 [Print ("Skip content write (manual page): " +:+ file_path n)]))
  | None =>
      match files w !! file_path n with
      | Some _ => snd (create_page nodes children content_by_id n w) = w
      | None =>
          (exists text,
             create_page nodes children content_by_id n w =
               (Ok tt, mkWorld (<[file_path n := text]> (files w))
                         (trace w ++ [Write (file_path n) text]))) \/
          (exists key,
             create_page nodes children content_by_id n w = (Raise (KeyError key), w))
      end
  end /\
  forall l, manual_kept w (snd (io_for (create_page nodes children content_by_id) l w)).
Proof.
  intros Hk Hfp Hplain. split.
  - pose proof (create_page_run nodes children content_by_id n w Hk Hfp) as H.
    destruct (template_of content_by_id n) as [[text template]|].
    + by rewrite H, write_content_run, (may_write_plain _ Hplain).
    + destruct H as [[links H] | [key H]]; rewrite H.
      * rewrite write_stub_run. destruct (files w !! file_path n); [done|].
        left. by eexists.
      * destruct (files w !! file_path n); [done|]. right. by eexists.
  - intros l. apply unmarked_manual_kept, io_for_keeps. intros x w0.
    apply create_page_keeps.
Qed.

Lemma page_write_gating_witness :
  create_page sample_nodes (snd sample_tree) sample_content sample_guide
    (start {[ "docs/guide.qmd" := "Hand-written page." ]}) =
    (Ok tt,
     mkWorld {[ "docs/guide.qmd" := "Hand-written page." ]}
             [Print "Skip content write (manual page): docs/guide.qmd"]).
Proof.
  assert (forall held,
            files (start {[ "docs/guide.qmd" := "Hand-written page." ]})
              !! file_path sample_guide = Some held ->
            plain_page (Py.universal_newlines held)) as Hplain.
  { intros held Hheld. vm_compute in Hheld. injection Hheld as <-. vm_compute. reflexivity. }
  pose proof (proj1 (page_write_gating sample_nodes (snd sample_tree) sample_content
                       sample_guide (start {[ "docs/guide.qmd" := "Hand-written page." ]})
                       ltac:(discriminate) ltac:(discriminate) Hplain)) as H.
  vm_compute in H. vm_compute. exact H.
Defined.

(** Outside the plain pages the test of the code is not the header: a
    hand-written page whose text mentions the marker after its header is
    taken for a generated one and written over. *)
Example body_mention_is_overwritten :
  header_marked
    (Py.join nl ["---"; "title: Guide"; "---"; "Pages that say autogen: true are rewritten."])
    = false /\
  exists text,
    create_page sample_nodes (snd sample_tree) sample_content sample_guide
      (start {[ "docs/guide.qmd" :=
                  Py.join nl ["---"; "title: Guide"; "---";
                              "Pages that say autogen: true are rewritten."] ]}) =
      (Ok tt,
       mkWorld {[ "docs/guide.qmd" := text ]}
               [Write "docs/guide.qmd" text;
                Print "Wrote content for docs/guide.qmd (single_iframe)"]).
Proof. split; [by vm_compute|]. eexists. vm_compute. reflexivity. Qed.

Example generated_page :
  render_single_iframe (default ∅ (sample_content !! "guide")) "Guide" =
    Py.join nl
      [ "---"; "title: " +:+ dq +:+ "Guide" +:+ dq; "autogen: true"; "---"; EmptyString;
        "::: {layout=" +:+ dq +:+ "[ [1] ]" +:+ dq +:+ "}"; EmptyString;
        "```{=html}";
        "<iframe style=" +:+ dq +:+ "border:none;" +:+ dq +:+ " height=" +:+ dq +:+ "800" +:+
        dq +:+ " width=" +:+ dq +:+ "100%" +:+ dq +:+ " src=" +:+ dq +:+ "https://x" +:+ dq +:+
        "></iframe>";
        "```"; EmptyString; ":::"; EmptyString ].
Proof. by vm_compute. Qed.

(** ** Re-running on unchanged records *)





Lemma write_yaml_run (out text : string) (w : world) :
  write_yaml out text w =
    (Ok tt,
     if decide (Py.universal_newlines <$> files w !! out = Some text)
     then mkWorld (files w) (trace w ++ [Print (out +:+ " unchanged")])
     else mkWorld (<[out := text]> (files w))
                  (trace w ++ [Write out text; Print ("Wrote " +:+ out)])).
Proof.
  unfold write_yaml, mbind, io_bind, io_read, io_write, io_print. simpl.
  destruct (decide (Py.universal_newlines <$> files w !! out = Some text)) as [H | H].
  - by rewrite bool_decide_eq_true_2.
  - rewrite bool_decide_eq_false_2 by done. simpl. by rewrite <- app_assoc.
Qed.





(** C4, the divergence. [main] compares the rendered text with what reading
    the file in text mode returns, where a carriage return comes back as a
    line feed: a text that holds a carriage return never compares equal, and
    the file is written on every run. With the site title "A", carriage
    return, "B", the second run on unchanged records writes the
    configuration again. *)
Theorem config_rewritten_on_carriage_return :
  (forall out text w,
     no_carriage_return text = false ->
     write_yaml out text w =
       (Ok tt, mkWorld (<[out := text]> (files w))
                 (trace w ++ [Write out text; Print ("Wrote " +:+ out)]))) /\
  exists text,
    main 2 cr_args sample_raws None (start ∅) = (Ok tt, cr_world1) /\
    files cr_world1 !! "_quarto.yml" = Some text /\
    main 2 cr_args sample_raws None cr_world1 =
      (Ok tt, mkWorld (files cr_world1)
                (trace cr_world1 ++ [Write "_quarto.yml" text; Print "Wrote _quarto.yml"])).
Proof.
  split.
  - intros out text w Hcr. rewrite write_yaml_run. rewrite decide_False; [done|].
    destruct (files w !! out) as [held|]; [|done]. simpl. intros [= <-].
    by rewrite newlines_no_cr in Hcr.
  - eexists. split; [|split]; vm_compute; reflexivity.
Qed.

Lemma sample_first_run :
  main 2 sample_args sample_raws None (start ∅) = (Ok tt, sample_world1).
Proof. by vm_compute. Qed.

Lemma sample_second_run :
  main 2 sample_args sample_raws None sample_world1 = (Ok tt, sample_world2) /\
  files sample_world2 = files sample_world1 /\
  trace sample_world2 = trace sample_world1 ++ [Print "_quarto.yml unchanged"].
Proof. split; [|split]; vm_compute; reflexivity. Qed.


(** ** Rendering returns on rooted tables *)

Lemma ancestry_functional (nodes : list Node) (i : string) (c1 c2 : list string) :
  ancestry nodes i c1 -> ancestry nodes i c2 -> c1 = c2.
Proof.
  intros H1. revert c2. induction H1 as [i n Hn Hroot | i n up Hn Hp _ IH]; intros c2 H2.
  - destruct (ancestry_last _ _ _ _ H2 Hn) as [[_ ->] | [Hp _]]; [done|by destruct Hp].
  - destruct (ancestry_last _ _ _ _ H2 Hn) as [[Hroot _] | (_ & up' & Hup' & ->)].
    + by destruct Hp.
    + by rewrite (IH _ Hup').
Qed.

Lemma ancestry_skeleton (l1 l2 : list Node) (i : string) (chain : list string) :
  Forall2 (fun a b => skeleton a = skeleton b) l1 l2 ->
  ancestry l1 i chain -> ancestry l2 i chain.
Proof.
  intros Hs. induction 1 as [i n Hn Hroot | i n up Hn Hp _ IH].
  - pose proof (nodes_get_skeleton _ _ i Hs) as H. rewrite Hn in H.
    destruct (nodes_get l2 i) as [m|] eqn:Hm; [|done].
    injection H as _ Hpar Hslug _. rewrite Hslug. apply ancestry_root with (n := m); congruence.
  - pose proof (nodes_get_skeleton _ _ i Hs) as H. rewrite Hn in H.
    destruct (nodes_get l2 i) as [m|] eqn:Hm; [|done].
    injection H as _ Hpar Hslug _. rewrite Hslug.
    apply ancestry_child with (n := m); [done|congruence|]. by rewrite <- Hpar.
Qed.

Lemma for_lines_returns {A : Type} (body : A -> res (list string)) (l : list A) :
  (forall x, x ∈ l -> exists here, body x = Ok here) ->
  exists lines, for_lines body l = Ok lines.
Proof.
  induction l as [|x l IH]; intros Hall; simpl; [by eexists|].
  destruct (Hall x ltac:(by left)) as [here ->].
  destruct IH as [more ->]. { intros y Hy. apply Hall. by right. }
  simpl. by eexists.
Qed.

(** On a rooted table [build_sidebar_contents] returns for a node at depth
    [d] as soon as it may nest [bound - d] times more. *)
Lemma build_sidebar_contents_returns (nodes : list Node)
  (children : gmap string (list string)) (bound : nat) :
  rooted_table nodes children bound ->
  forall fuel i n chain,
    nodes_get nodes i = Some n -> ancestry nodes i chain ->
    bound < List.length chain + fuel ->
    exists lines, build_sidebar_contents fuel nodes children i = Ok lines.
Proof.
  intros [Hkids Hrooted]. induction fuel as [|fuel IH]; intros i n chain Hn Ha Hfuel.
  { destruct (Hrooted i n Hn) as (c & Hc & Hlen).
    rewrite (ancestry_functional _ _ _ _ Ha Hc) in Hfuel. lia. }
  simpl. unfold nodes_item at 1. rewrite Hn. simpl.
  destruct (String.eqb (kind n) "landing" || String.eqb (kind n) "section"); [|by eexists].
  destruct (String.eqb (sidebar_mode n (children_get children i)) "section"); [|by eexists].
  destruct (nonempty_list (children_get children i)); [|by eexists].
  destruct (for_lines_returns
              (nested_child_lines (build_sidebar_contents fuel nodes children) nodes)
              (children_get children i)) as [sub Hsub].
  - intros cid Hcid. destruct (Hkids i cid Hcid) as (Hi & c & Hc & Hp).
    unfold nested_child_lines, nodes_item. rewrite Hc. simpl.
    destruct (String.eqb (kind c) "landing" || String.eqb (kind c) "section"); [|by eexists].
    assert (ancestry nodes cid (chain ++ [slug c])) as Hchain.
    { apply ancestry_child; [done|congruence|by rewrite Hp]. }
    destruct (Hrooted cid c Hc) as (cc & Hcc & Hlen).
    rewrite (ancestry_functional _ _ _ _ Hcc Hchain), length_app in Hlen. simpl in Hlen.
    destruct (IH cid c _ Hc Hchain) as [lines ->].
    { rewrite length_app. simpl. lia. }
    simpl. by eexists.
  - rewrite Hsub. simpl. by eexists.
Qed.

Lemma root_child_lines_returns (nodes : list Node)
  (children : gmap string (list string)) (bound fuel : nat) (i cid : string) :
  rooted_table nodes children bound -> bound <= fuel ->
  cid ∈ children_get children i ->
  exists lines, root_child_lines fuel nodes children cid = Ok lines.
Proof.
  intros Hrt Hfuel Hcid. pose proof Hrt as [Hkids Hrooted].
  destruct (Hkids i cid Hcid) as (Hi & c & Hc & Hp).
  unfold root_child_lines, nodes_item. rewrite Hc. simpl.
  destruct (String.eqb (kind c) "landing" || String.eqb (kind c) "section").
  - destruct (Hrooted cid c Hc) as (chain & Ha & Hlen).
    destruct (build_sidebar_contents_returns _ _ _ Hrt fuel cid c chain Hc Ha) as [lines ->].
    + assert (1 <= List.length chain); [|lia].
      destruct (ancestry_last _ _ _ _ Ha Hc) as [[_ ->] | (_ & up & _ & ->)];
        [simpl; lia|rewrite length_app; simpl; lia].
    + simpl. by eexists.
  - destruct (String.eqb (kind c) "item" || String.eqb (kind c) "external"); by eexists.
Qed.

(** The table [ensure_paths] makes of the table of [read_nodes] is rooted
    when every parent chain of the records reaches a root. *)
Lemma pipeline_rooted (raws : list raw_row) (nodes0 nodes : list Node)
  (children : gmap string (list string)) (bound : nat) :
  read_nodes raws = Ok (nodes0, children) ->
  Forall2 (fun a b => skeleton a = skeleton b) nodes0 nodes ->
  (forall n, n ∈ nodes0 ->
     exists chain, ancestry nodes0 (id n) chain /\ List.length chain <= bound) ->
  rooted_table nodes children bound.
Proof.
  intros Hread Hsk Hchains.
  destruct (read_nodes_Ok _ _ _ Hread) as (_ & _ & Hnd & _ & _).
  assert (forall i n, nodes_get nodes i = Some n ->
            exists n0, nodes_get nodes0 i = Some n0 /\ skeleton n0 = skeleton n) as Hback.
  { intros i n Hn. pose proof (nodes_get_skeleton _ _ i Hsk) as H. rewrite Hn in H.
    destruct (nodes_get nodes0 i) as [n0|]; [by exists n0|done]. }
  assert (forall i n0, nodes_get nodes0 i = Some n0 ->
            exists n, nodes_get nodes i = Some n /\ skeleton n0 = skeleton n) as Hforth.
  { intros i n0 Hn0. pose proof (nodes_get_skeleton _ _ i Hsk) as H. rewrite Hn0 in H.
    destruct (nodes_get nodes i) as [n|]; [by exists n|done]. }
  split.
  - intros pid c Hc. unfold children_get in Hc.
    destruct (children !! pid) as [kids|] eqn:Hkids; [|by apply elem_of_nil in Hc].
    destruct (read_nodes_children _ _ _ _ _ Hread Hkids) as (Hpid & _ & _ & _ & Hmem & _).
    split; [done|]. simpl in Hc. apply Hmem in Hc as (n0 & Hn0 & <- & Hp).
    destruct (Hforth (id n0) n0 (nodes_get_elem _ _ Hnd Hn0)) as (n & Hn & Heq).
    exists n. split; [done|]. injection Heq as _ Hpar _ _. congruence.
  - intros i n Hn. destruct (Hback i n Hn) as (n0 & Hn0 & _).
    apply nodes_get_Some in Hn0 as [Hin <-].
    destruct (Hchains n0 Hin) as (chain & Ha & Hlen).
    exists chain. split; [by eapply ancestry_skeleton|done].
Qed.

(** On a rooted table (the children of a node are nodes that name it as
    parent, and parent chains reach a root within the bound given to the
    renderer) the children of a root render to some lines, and in the
    sidebar block [build_yaml] emits for the root the contents open with the
    default entry of the root (its label, and its [file_path] as href) when
    the root has a [file_path] and no direct child is of kind landing; when
    the root has no [file_path], or has a direct child of kind landing, the
    contents are the lines of the children alone. *)
Lemma root_default_link (fuel bound : nat) (nodes : list Node)
  (children : gmap string (list string)) (style background : option string)
  (root : Node) :
  rooted_table nodes children bound -> bound <= fuel ->
  exists kid_lines,
    for_lines (root_child_lines fuel nodes children) (children_get children (id root))
      = Ok kid_lines /\
    (file_path root <> EmptyString /\
     (forall cid c, cid ∈ children_get children (id root) ->
        nodes_get nodes cid = Some c -> kind c <> "landing") ->
     sidebar_block fuel nodes children style background root =
       Ok (sidebar_head style background root ++
           [ "        - text: " +:+ dq +:+ label root +:+ dq;
             "          href: " +:+ file_path root ] ++
           kid_lines ++ [EmptyString])) /\
    (file_path root = EmptyString \/
     (exists cid c, cid ∈ children_get children (id root) /\
        nodes_get nodes cid = Some c /\ kind c = "landing") ->
     sidebar_block fuel nodes children style background root =
       Ok (sidebar_head style background root ++ kid_lines ++ [EmptyString])).
Proof.
  intros Hrt Hfuel.
  destruct (for_lines_returns (root_child_lines fuel nodes children)
              (children_get children (id root))) as [kid_lines Hkids].
  { intros cid Hcid. by eapply root_child_lines_returns. }
  exists kid_lines. split; [done|]. by apply sidebar_block_link.
Qed.

Lemma sample_rooted : rooted_table sample_nodes (snd sample_tree) 2.
Proof.
  apply (pipeline_rooted sample_raws (fst sample_tree)).
  - by vm_compute.
  - repeat constructor.
  - intros n Hn. vm_compute in Hn.
    repeat (apply elem_of_cons in Hn as [-> | Hn]);
      [..|apply elem_of_nil in Hn; destruct Hn].
    all: eexists; split; [walk_up|simpl; lia].
Qed.

Example sample_root_block :
  sidebar_block 2 sample_nodes (snd sample_tree) None None sample_root =
    Ok [ "    - title: " +:+ dq +:+ "Docs" +:+ dq;
         "      contents:";
         "        - text: " +:+ dq +:+ "Docs" +:+ dq;
         "          href: docs/index.qmd";
         "        - text: " +:+ dq +:+ "Intro" +:+ dq;
         "          href: docs/intro.qmd";
         "        - text: " +:+ dq +:+ "Guide" +:+ dq;
         "          href: docs/guide.qmd";
         EmptyString ].
Proof.
  destruct (root_default_link 2 2 sample_nodes (snd sample_tree) None None sample_root
              sample_rooted (le_n 2)) as (kid_lines & Hkids & Hlink & _).
  rewrite Hlink.
  - vm_compute in Hkids. injection Hkids as <-. reflexivity.
  - split; [discriminate|]. intros cid c Hcid Hc. vm_compute in Hcid.
    repeat (apply elem_of_cons in Hcid as [-> | Hcid]);
      [..|apply elem_of_nil in Hcid; destruct Hcid].
    all: vm_compute in Hc; injection Hc as <-; discriminate.
Qed.

(** * Further properties *)

(** ** Stripping *)

Lemma lstrip_by_cons (p : ascii -> bool) (c : ascii) (s : string) :
  Py.lstrip_by p (String c s) = if p c then Py.lstrip_by p s else String c s.
Proof. reflexivity. Qed.

Lemma rstrip_by_cons (p : ascii -> bool) (c : ascii) (s : string) :
  Py.rstrip_by p (String c s) =
    match Py.rstrip_by p s with
    | EmptyString => if p c then EmptyString else String c EmptyString
    | r => String c r
    end.
Proof. reflexivity. Qed.

Lemma lstrip_by_head (p : ascii -> bool) (c : ascii) (s : string) :
  p c = false -> Py.lstrip_by p (String c s) = String c s.
Proof. intros H. by rewrite lstrip_by_cons, H. Qed.

Lemma lstrip_by_idemp (p : ascii -> bool) (s : string) :
  Py.lstrip_by p (Py.lstrip_by p s) = Py.lstrip_by p s.
Proof.
  induction s as [|c s IH]; [done|]. rewrite lstrip_by_cons.
  destruct (p c) eqn:E; [done|]. by rewrite lstrip_by_cons, E.
Qed.

Lemma rstrip_by_idemp (p : ascii -> bool) (s : string) :
  Py.rstrip_by p (Py.rstrip_by p s) = Py.rstrip_by p s.
Proof.
  induction s as [|c s IH]; [done|]. rewrite rstrip_by_cons.
  destruct (Py.rstrip_by p s) as [|d r] eqn:E.
  - destruct (p c) eqn:Hc; [done|]. by rewrite rstrip_by_cons, Hc.
  - rewrite rstrip_by_cons, IH. done.
Qed.

Lemma lstrip_by_length (p : ascii -> bool) (s : string) :
  String.length (Py.lstrip_by p s) <= String.length s.
Proof.
  induction s as [|c s IH]; [done|]. rewrite lstrip_by_cons. destruct (p c); simpl; lia.
Qed.

(** A string is its own left strip when it does not start with a stripped
    character. *)
Lemma lstrip_by_fixed (p : ascii -> bool) (s : string) :
  Py.lstrip_by p s = s <->
  match s with EmptyString => True | String c _ => p c = false end.
Proof.
  destruct s as [|c s]; [done|]. rewrite lstrip_by_cons. destruct (p c) eqn:Hc; [|done].
  split; [|done]. intros H. pose proof (lstrip_by_length p s) as Hlen.
  rewrite H in Hlen. simpl in Hlen. lia.
Qed.

(** Stripping on the right keeps a first character that is not stripped. *)
Lemma lstrip_rstrip_fixed (p : ascii -> bool) (s : string) :
  Py.lstrip_by p s = s -> Py.lstrip_by p (Py.rstrip_by p s) = Py.rstrip_by p s.
Proof.
  intros H. apply lstrip_by_fixed in H. apply lstrip_by_fixed.
  destruct s as [|c s]; [done|]. rewrite rstrip_by_cons.
  destruct (Py.rstrip_by p s); [by rewrite H|done].
Qed.

Lemma strip_by_idemp (p : ascii -> bool) (s : string) :
  Py.strip_by p (Py.strip_by p s) = Py.strip_by p s.
Proof.
  unfold Py.strip_by.
  rewrite (lstrip_rstrip_fixed p (Py.lstrip_by p s)) by apply lstrip_by_idemp.
  apply rstrip_by_idemp.
Qed.

Lemma all_chars_lstrip (q p : ascii -> bool) (s : string) :
  Py.all_chars q s = true -> Py.all_chars q (Py.lstrip_by p s) = true.
Proof.
  induction s as [|c s IH]; [done|]. rewrite lstrip_by_cons.
  destruct (p c); [|done]. simpl. intros [_ H]%andb_true_iff. by apply IH.
Qed.

Lemma all_chars_rstrip (q p : ascii -> bool) (s : string) :
  Py.all_chars q s = true -> Py.all_chars q (Py.rstrip_by p s) = true.
Proof.
  induction s as [|c s IH]; [done|]. rewrite rstrip_by_cons.
  simpl. intros [Hc H]%andb_true_iff. specialize (IH H).
  destruct (Py.rstrip_by p s) as [|d r].
  - destruct (p c); [done|]. simpl. by rewrite Hc.
  - simpl in *. by rewrite Hc, IH.
Qed.

(** ** [slugify] *)

Lemma all_chars_keep (p : ascii -> bool) (s : string) :
  Py.all_chars p (keep_chars p s) = true.
Proof.
  induction s as [|c s IH]; [done|]. simpl. destruct (p c) eqn:E; [|done].
  simpl. by rewrite E.
Qed.

Lemma slug_char_safe (c : ascii) : slug_char c = slug_safe c || Py.isspace c.
Proof. reflexivity. Qed.


Lemma squeeze_spaces_safe (in_run : bool) (s : string) :
  Py.all_chars slug_char s = true ->
  Py.all_chars slug_safe (squeeze_spaces in_run s) = true.
Proof.
  revert in_run. induction s as [|c s IH]; intros in_run; [done|].
  simpl. intros [Hc H]%andb_true_iff. destruct (Py.isspace c) eqn:Hs.
  - destruct in_run; [by apply IH|]. simpl. by apply IH.
  - simpl. rewrite IH by done. rewrite slug_char_safe, Hs, orb_false_r in Hc. by rewrite Hc.
Qed.

Lemma slug_safe_lower (c : ascii) : slug_safe c = true -> Py.lower_char c = c.
Proof. destruct c as [[] [] [] [] [] [] [] []]; vm_compute; congruence. Qed.

Lemma slug_safe_not_space (c : ascii) : slug_safe c = true -> Py.isspace c = false.
Proof. destruct c as [[] [] [] [] [] [] [] []]; vm_compute; congruence. Qed.

Lemma clean_lower (s : string) : Py.all_chars slug_safe s = true -> Py.lower s = s.
Proof.
  induction s as [|c s IH]; [done|]. simpl. intros [Hc H]%andb_true_iff.
  by rewrite slug_safe_lower, IH.
Qed.

Lemma clean_keep (s : string) :
  Py.all_chars slug_safe s = true -> keep_chars slug_char s = s.
Proof.
  induction s as [|c s IH]; [done|]. simpl. intros [Hc H]%andb_true_iff.
  by rewrite slug_char_safe, Hc, IH.
Qed.

Lemma clean_squeeze (s : string) :
  Py.all_chars slug_safe s = true -> squeeze_spaces false s = s.
Proof.
  induction s as [|c s IH]; [done|]. simpl. intros [Hc H]%andb_true_iff.
  by rewrite slug_safe_not_space, IH.
Qed.

Lemma slugify_clean (text : string) : clean_slug (slugify text).
Proof.
  unfold slugify, Py.or_else.
  set (t := Py.strip_by is_hyphen (squeeze_spaces false (keep_chars slug_char (Py.lower text)))).
  assert (Py.all_chars slug_safe t = true) as Hsafe.
  { apply all_chars_rstrip, all_chars_lstrip, squeeze_spaces_safe, all_chars_keep. }
  destruct (Py.nonempty t) eqn:Hne.
  - split; [by apply nonempty_true|]. split; [done|]. apply strip_by_idemp.
  - split; [done|]. by vm_compute.
Qed.

Lemma clean_slug_fixed (s : string) : clean_slug s -> slugify s = s.
Proof.
  intros (Hne & Hsafe & Hstrip). unfold slugify, Py.or_else.
  rewrite clean_lower, clean_keep, clean_squeeze, Hstrip by done.
  apply nonempty_true in Hne. by rewrite Hne.
Qed.

(** X1. A slug is never empty, holds only the characters a-z, 0-9, hyphen
    and underscore (no blank, no capital, no slash), and neither starts nor
    ends with a hyphen. *)
Theorem slugify_url_safe (text : string) :
  slugify text <> EmptyString /\
  Py.all_chars slug_safe (slugify text) = true /\
  Py.lstrip_by is_hyphen (slugify text) = slugify text /\
  Py.rstrip_by is_hyphen (slugify text) = slugify text.
Proof.
  destruct (slugify_clean text) as (Hne & Hsafe & Hstrip).
  split; [done|]. split; [done|].
  assert (Py.lstrip_by is_hyphen (slugify text) = slugify text) as Hl.
  { rewrite <- Hstrip at 1. unfold Py.strip_by.
    rewrite lstrip_rstrip_fixed by apply lstrip_by_idemp. exact Hstrip. }
  split; [done|]. unfold Py.strip_by in Hstrip. by rewrite Hl in Hstrip.
Qed.

(** X2. [slugify] is idempotent, and the strings it leaves as they are are
    the clean slugs: not empty, over a-z, 0-9, hyphen and underscore, with no
    hyphen at either end. *)
Theorem slugify_idempotent (text : string) :
  slugify (slugify text) = slugify text /\
  (slugify text = text <-> clean_slug text).
Proof.
  split; [apply clean_slug_fixed, slugify_clean|]. split.
  - intros <-. apply slugify_clean.
  - apply clean_slug_fixed.
Qed.

(** ** Normalised records *)

Lemma isspace_lower_char (c : ascii) : Py.isspace (Py.lower_char c) = Py.isspace c.
Proof. destruct c as [[] [] [] [] [] [] [] []]; reflexivity. Qed.

Lemma lstrip_lower (s : string) :
  Py.lstrip_by Py.isspace (Py.lower s) = Py.lower (Py.lstrip_by Py.isspace s).
Proof.
  induction s as [|c s IH]; [done|]. cbn [Py.lower]. rewrite !lstrip_by_cons.
  rewrite isspace_lower_char. by destruct (Py.isspace c).
Qed.

Lemma rstrip_lower (s : string) :
  Py.rstrip_by Py.isspace (Py.lower s) = Py.lower (Py.rstrip_by Py.isspace s).
Proof.
  induction s as [|c s IH]; [done|]. cbn [Py.lower]. rewrite !rstrip_by_cons.
  rewrite IH, isspace_lower_char.
  destruct (Py.rstrip_by Py.isspace s); [by destruct (Py.isspace c)|done].
Qed.

Lemma strip_lower (s : string) : Py.strip (Py.lower s) = Py.lower (Py.strip s).
Proof. unfold Py.strip, Py.strip_by. by rewrite lstrip_lower, rstrip_lower. Qed.

Lemma strip_idemp (s : string) : Py.strip (Py.strip s) = Py.strip s.
Proof. apply strip_by_idemp. Qed.

Lemma normal_key_idemp (k : string) : normal_key (normal_key k) = normal_key k.
Proof. unfold normal_key. by rewrite strip_lower, strip_idemp, lower_idemp. Qed.

Lemma last_column_cons_None (raw : raw_row) (x field : option string) (k : string) :
  last_column ((None, x) :: raw) k field <-> last_column raw k field.
Proof.
  split.
  - intros (pre & k0 & post & Heq & Hk & Hpost). destruct pre as [|h pre]; [done|].
    injection Heq as _ ->. by exists pre, k0, post.
  - intros (pre & k0 & post & -> & Hk & Hpost). by exists ((None, x) :: pre), k0, post.
Qed.

Lemma last_column_cons_Some (raw : raw_row) (k0 : string) (x field : option string)
  (k : string) :
  last_column ((Some k0, x) :: raw) k field <->
  (normal_key k0 = k /\ x = field /\
   forall k1 v1, (Some k1, v1) ∈ raw -> normal_key k1 <> k) \/
  last_column raw k field.
Proof.
  split.
  - intros (pre & k' & post & Heq & Hk & Hpost). destruct pre as [|h pre].
    + injection Heq as -> -> ->. by left.
    + injection Heq as _ ->. right. by exists pre, k', post.
  - intros [(Hk & -> & Hpost) | (pre & k' & post & -> & Hk & Hpost)].
    + by exists [], k0, raw.
    + by exists ((Some k0, x) :: pre), k', post.
Qed.

Lemma normalize_into_lookup (raw : raw_row) (out : gmap string string) (k v : string) :
  normalize_into out raw !! k = Some v <->
  (exists field, last_column raw k field /\ v = Py.strip (opt_str field)) \/
  ((forall k1 v1, (Some k1, v1) ∈ raw -> normal_key k1 <> k) /\ out !! k = Some v).
Proof.
  revert out. induction raw as [|[[k0|] x] raw IH]; intros out.
  - simpl. split.
    + intros H. right. split; [|done]. intros k1 v1 Hin. by apply elem_of_nil in Hin.
    + intros [(field & (pre & k0 & post & Heq & _) & _) | [_ H]]; [|done].
      by destruct pre.
  - cbn [normalize_into]. rewrite IH. fold (normal_key k0).
    setoid_rewrite last_column_cons_Some.
    destruct (decide (normal_key k0 = k)) as [Hk | Hk].
    + rewrite Hk, lookup_insert_eq. split.
      * intros [(field & Hl & ->) | [Hnone [= <-]]].
        -- left. exists field. split; [by right|done].
        -- left. exists x. split; [|done]. left. by split.
      * intros [(field & [(_ & -> & Hnone) | Hl] & ->) | [Hnone _]].
        -- right. by split.
        -- left. by exists field.
        -- destruct (Hnone k0 x); [by left|done].
    + rewrite lookup_insert_ne by done. split.
      * intros [(field & Hl & ->) | [Hnone Hout]].
        -- left. exists field. split; [by right|done].
        -- right. split; [|done]. intros k1 v1 [[= -> ->] | Hin]%elem_of_cons; [done|].
           by eapply Hnone.
      * intros [(field & [(Hk' & _) | Hl] & ->) | [Hnone Hout]]; [done| |].
        -- left. by exists field.
        -- right. split; [|done]. intros k1 v1 Hin. apply (Hnone k1 v1). by right.
  - cbn [normalize_into]. rewrite IH. setoid_rewrite last_column_cons_None.
    split.
    + intros [H | [Hnone Hout]]; [by left|]. right. split; [|done].
      intros k1 v1 [[=] | Hin]%elem_of_cons. by eapply Hnone.
    + intros [H | [Hnone Hout]]; [by left|]. right. split; [|done].
      intros k1 v1 Hin. apply (Hnone k1 v1). by right.
Qed.

Lemma normalize_row_keys_Some (raw : raw_row) (k v : string) :
  normalize_row_keys raw !! k = Some v <->
  exists field, last_column raw k field /\ v = Py.strip (opt_str field).
Proof.
  unfold normalize_row_keys. rewrite normalize_into_lookup. split; [|by left].
  intros [H | [_ H]]; [done|]. by rewrite lookup_empty in H.
Qed.

(** X3. [normalize_row_keys] stores every named column under its name
    stripped and lowercased, with the field stripped; of two columns with
    the same normalised name the later one counts; a column without name is
    left out. So every stored name is its own normal form and every stored
    field its own strip. *)
Theorem normalize_row_keys_lookup (raw : raw_row) (k v : string) :
  (normalize_row_keys raw !! k = Some v <->
   exists field, last_column raw k field /\ v = Py.strip (opt_str field)) /\
  (normalize_row_keys raw !! k = Some v -> normal_key k = k /\ Py.strip v = v).
Proof.
  split; [apply normalize_row_keys_Some|].
  intros (field & (pre & k0 & post & _ & <- & _) & ->)%normalize_row_keys_Some.
  split; [apply normal_key_idemp|apply strip_idemp].
Qed.

(** ** Blank records *)

Lemma row_blank_true (row : gmap string string) :
  row_blank row = true <->
  forall k v, row !! k = Some v -> Py.strip v = EmptyString.
Proof.
  unfold row_blank. rewrite forallb_forall. split.
  - intros H k v Hkv. apply nonempty_false, negb_true_iff.
    apply (H (k, v)). apply list_elem_of_In. by apply elem_of_map_to_list.
  - intros H [k v] Hin. apply list_elem_of_In, elem_of_map_to_list in Hin.
    simpl. by rewrite (H k v Hin).
Qed.

Lemma blank_fields_blank_row (raw : raw_row) :
  (forall k v, (Some k, v) ∈ raw -> Py.strip (opt_str v) = EmptyString) ->
  row_blank (normalize_row_keys raw) = true.
Proof.
  intros Hraw. apply row_blank_true. intros k v Hkv.
  apply normalize_row_keys_Some in Hkv as (field & (pre & k0 & post & -> & _) & ->).
  rewrite strip_idemp. apply (Hraw k0). apply elem_of_app. right. by left.
Qed.

(** The line counter shows in errors only. *)
Lemma read_rows_line (raws : list raw_row) (ln ln' : nat) (acc nodes : list Node) :
  read_rows raws ln acc = Ok nodes -> read_rows raws ln' acc = Ok nodes.
Proof.
  revert ln ln' acc. induction raws as [|raw raws IH]; intros ln ln' acc; [done|].
  cbn [read_rows]. destruct (row_blank _); [apply IH|].
  destruct (missing_columns _); [|done].
  destruct (nodes_mem _ _); [done|].
  destruct (make_node _); simpl; [apply IH|done..].
Qed.

Lemma read_rows_skip (pre post : list raw_row) (raw : raw_row) (ln : nat)
  (acc nodes : list Node) :
  row_blank (normalize_row_keys raw) = true ->
  read_rows (pre ++ raw :: post) ln acc = Ok nodes <->
  read_rows (pre ++ post) ln acc = Ok nodes.
Proof.
  intros Hb. revert ln acc. induction pre as [|r pre IH]; intros ln acc.
  - cbn [app read_rows]. rewrite Hb. split; apply read_rows_line.
  - cbn [app read_rows]. destruct (row_blank (normalize_row_keys r)); [apply IH|].
    destruct (missing_columns _); [|done].
    destruct (nodes_mem _ _); [done|].
    destruct (make_node _); simpl; [apply IH|done..].
Qed.

Lemma read_nodes_skip (pre post : list raw_row) (raw : raw_row)
  (t : list Node * gmap string (list string)) :
  row_blank (normalize_row_keys raw) = true ->
  read_nodes (pre ++ raw :: post) = Ok t <-> read_nodes (pre ++ post) = Ok t.
Proof.
  intros Hb. unfold read_nodes.
  destruct (read_rows (pre ++ raw :: post) 1 []) as [nodes| |] eqn:H1.
  - apply (proj1 (read_rows_skip pre post raw 1 [] nodes Hb)) in H1. by rewrite H1.
  - destruct (read_rows (pre ++ post) 1 []) as [nodes| |] eqn:H2; simpl; [|done..].
    apply (proj2 (read_rows_skip pre post raw 1 [] nodes Hb)) in H2. congruence.
  - destruct (read_rows (pre ++ post) 1 []) as [nodes| |] eqn:H2; simpl; [|done..].
    apply (proj2 (read_rows_skip pre post raw 1 [] nodes Hb)) in H2. congruence.
Qed.

(** X4. A record all of whose named fields are missing, empty or blank is
    skipped: with or without it, at any place among the records,
    [read_nodes] returns the same table (it counts as a line in the line
    numbers of errors only). Such a record needs no id. *)
Theorem blank_record_skipped (pre post : list raw_row) (raw : raw_row)
  (t : list Node * gmap string (list string)) :
  (forall k v, (Some k, v) ∈ raw -> Py.strip (opt_str v) = EmptyString) ->
  read_nodes (pre ++ raw :: post) = Ok t <-> read_nodes (pre ++ post) = Ok t.
Proof. intros Hraw. by apply read_nodes_skip, blank_fields_blank_row. Qed.

Lemma blank_record_skipped_witness :
  read_nodes
    [ raw_of [("id", "docs"); ("parent_id", EmptyString); ("kind", "navbar");
              ("label", "Docs"); ("order", "1")];
      raw_of [("id", "guide"); ("parent_id", "docs"); ("kind", "item");
              ("label", "Guide"); ("order", "2")];
      raw_of [("id", "intro"); ("parent_id", "docs"); ("kind", "item");
              ("label", "Intro"); ("order", "1")] ] = Ok sample_tree.
Proof.
  apply (proj1 (blank_record_skipped
                  [raw_of [("id", "docs"); ("parent_id", EmptyString); ("kind", "navbar");
                           ("label", "Docs"); ("order", "1")]]
                  _ (raw_of [("id", EmptyString); ("label", "  ")]) sample_tree
                  ltac:(intros k v Hin; unfold raw_of in Hin; simpl in Hin;
                        repeat (apply elem_of_cons in Hin as [[= -> ->] | Hin];
                                [vm_compute; reflexivity|]);
                        apply elem_of_nil in Hin; destruct Hin))).
  vm_compute. reflexivity.
Defined.

(** ** Content records *)

Lemma content_items_lookup (raws : list raw_row) (items : gmap string (gmap string string))
  (nid : string) (row : gmap string string) :
  content_items items raws !! nid = Some row <->
  (nid <> EmptyString /\
   exists pre raw post,
     raws = pre ++ raw :: post /\ content_id raw = nid /\ row = normalize_row_keys raw /\
     forall raw', raw' ∈ post -> content_id raw' <> nid) \/
  ((forall raw', raw' ∈ raws -> content_id raw' = EmptyString \/ content_id raw' <> nid) /\
   items !! nid = Some row).
Proof.
  revert items. induction raws as [|raw raws IH]; intros items.
  - simpl. split.
    + intros H. right. split; [|done]. intros raw' Hin. by apply elem_of_nil in Hin.
    + intros [(_ & pre & raw & post & Heq & _) | [_ H]]; [by destruct pre|done].
  - cbn [content_items]. fold (content_id raw).
    destruct (Py.nonempty (content_id raw)) eqn:Hne.
    + apply nonempty_true in Hne. rewrite IH.
      destruct (decide (content_id raw = nid)) as [Hid | Hid].
      * rewrite Hid, lookup_insert_eq. split.
        -- intros [(Hn & pre & r & post & -> & Hr & -> & Hpost) | [Hnone [= <-]]].
           ++ left. split; [done|]. by exists (raw :: pre), r, post.
           ++ left. split; [congruence|]. exists [], raw, raws. repeat split; try done.
              intros raw' Hin. destruct (Hnone raw' Hin) as [H | H]; congruence.
        -- intros [(Hn & pre & r & post & Heq & Hr & -> & Hpost) | [Hnone _]].
           ++ destruct pre as [|h pre].
              ** injection Heq as <- <-. right. split; [|done].
                 intros raw' Hin. right. by apply Hpost.
              ** injection Heq as <- ->. left. split; [done|]. by exists pre, r, post.
           ++ destruct (Hnone raw); [by left|congruence|done].
      * rewrite lookup_insert_ne by done. split.
        -- intros [(Hn & pre & r & post & -> & Hr & -> & Hpost) | [Hnone Hit]].
           ++ left. split; [done|]. by exists (raw :: pre), r, post.
           ++ right. split; [|done]. intros raw' [-> | Hin]%elem_of_cons; [by right|].
              by apply Hnone.
        -- intros [(Hn & pre & r & post & Heq & Hr & -> & Hpost) | [Hnone Hit]].
           ++ destruct pre as [|h pre]; [injection Heq as <- <-; congruence|].
              injection Heq as <- ->. left. split; [done|]. by exists pre, r, post.
           ++ right. split; [|done]. intros raw' Hin. apply Hnone. by right.
    + apply nonempty_false in Hne. rewrite IH. split.
      * intros [(Hn & pre & r & post & -> & Hr & -> & Hpost) | [Hnone Hit]].
        -- left. split; [done|]. by exists (raw :: pre), r, post.
        -- right. split; [|done]. intros raw' [-> | Hin]%elem_of_cons; [by left|].
           by apply Hnone.
      * intros [(Hn & pre & r & post & Heq & Hr & -> & Hpost) | [Hnone Hit]].
        -- destruct pre as [|h pre]; [injection Heq as <- <-; congruence|].
           injection Heq as <- ->. left. split; [done|]. by exists pre, r, post.
        -- right. split; [|done]. intros raw' Hin. apply Hnone. by right.
Qed.

(** X5. [read_page_content] keeps, for an id, the last record of the
    content file with that id (a later record replaces an earlier one,
    without error); a record whose id is empty or blank is left out, and a
    missing file gives no record at all. *)
Theorem read_page_content_lookup (raws : list raw_row) (nid : string)
  (row : gmap string string) :
  (read_page_content (Some raws) !! nid = Some row <->
   nid <> EmptyString /\
   exists pre raw post,
     raws = pre ++ raw :: post /\ content_id raw = nid /\ row = normalize_row_keys raw /\
     forall raw', raw' ∈ post -> content_id raw' <> nid) /\
  read_page_content None !! nid = None.
Proof.
  split; [|apply lookup_empty]. unfold read_page_content.
  rewrite content_items_lookup. split; [|by left].
  intros [H | [_ H]]; [done|]. by rewrite lookup_empty in H.
Qed.

(** ** The sort is stable *)

Lemma key_lt_irrefl (a : Z * string) : key_lt a a = false.
Proof. unfold key_lt. by rewrite Z.ltb_irrefl, string_ltb_irrefl, andb_false_r. Qed.

Lemma insert_by_filter {A : Type} (key : A -> Z * string) (k : Z * string) (x : A)
  (l : list A) :
  filter (fun y => key y = k) (insert_by key x l) = filter (fun y => key y = k) (x :: l).
Proof.
  induction l as [|y l IH]; [done|]. simpl.
  destruct (key_lt (key y) (key x)) eqn:E; [|done].
  rewrite (filter_cons _ y), IH, !filter_cons.
  destruct (decide (key y = k)) as [Hy | Hy]; [|done].
  destruct (decide (key x = k)) as [Hx | Hx]; [|done].
  rewrite Hy, Hx, key_lt_irrefl in E. done.
Qed.

Lemma sort_by_filter {A : Type} (key : A -> Z * string) (k : Z * string) (l : list A) :
  filter (fun y => key y = k) (sort_by key l) = filter (fun y => key y = k) l.
Proof.
  induction l as [|x l IH]; [done|]. simpl.
  by rewrite insert_by_filter, !filter_cons, IH.
Qed.

Lemma kids_of_NoDup (nodes : list Node) (pid : string) :
  NoDup (ids nodes) -> NoDup (kids_of nodes pid).
Proof.
  intros Hnd. unfold kids_of. eapply sublist_NoDup; [exact Hnd|].
  unfold ids. apply fmap_sublist, sublist_filter.
Qed.

(** X6. Each list of children is the list of the nodes with that parent,
    in the order of their records, sorted without dropping or repeating a
    child, and the sort is stable: the children with one and the same key
    (order, lowercased label) stand in the order of their records. *)
Theorem siblings_stable (raws : list raw_row) (nodes : list Node)
  (children : gmap string (list string)) (pid : string) (kids : list string) :
  read_nodes raws = Ok (nodes, children) ->
  children !! pid = Some kids ->
  NoDup kids /\
  kids ≡ₚ kids_of nodes pid /\
  forall k : Z * string,
    filter (fun c => id_key nodes c = k) kids =
    filter (fun c => id_key nodes c = k) (kids_of nodes pid).
Proof.
  intros Hread Hkids.
  destruct (read_nodes_Ok _ _ _ Hread) as (_ & _ & Hnd & _ & _).
  destruct (read_nodes_children _ _ _ _ _ Hread Hkids) as (_ & _ & -> & _).
  split; [|split].
  - rewrite sort_by_perm. by apply kids_of_NoDup.
  - apply sort_by_perm.
  - intros k. apply sort_by_filter.
Qed.

Lemma siblings_stable_witness :
  NoDup ["intro"; "guide"] /\
  ["intro"; "guide"] ≡ₚ kids_of (fst sample_tree) "docs" /\
  forall k : Z * string,
    filter (fun c => id_key (fst sample_tree) c = k) ["intro"; "guide"] =
    filter (fun c => id_key (fst sample_tree) c = k) (kids_of (fst sample_tree) "docs").
Proof.
  apply (siblings_stable sample_raws (fst sample_tree) (snd sample_tree) "docs").
  - vm_compute. reflexivity.
  - vm_compute. reflexivity.
Defined.

(** ** The window of the marker test *)

(** X7. A file counts as generated exactly when the marker "autogen: true"
    lies within its first 2000 characters, wherever that is (in the front
    matter or in the text); a marker that starts or ends later is not seen,
    and a file that cannot be read does not count. *)
Theorem autogen_flag_window (text : string) :
  (file_has_autogen_flag (Some text) = true <->
   exists before rest,
     text = before +:+ autogen_marker +:+ rest /\ String.length before + 13 <= 2000) /\
  file_has_autogen_flag None = false.
Proof. split; [|done]. unfold file_has_autogen_flag. apply head_shows. Qed.

(** ** Generated pages carry the marker *)

Lemma front_matter_marked (cfg : gmap string string) (title : string) :
  exists rest,
    front_matter_text cfg title =
      ("---" +:+ nl +:+ "title: " +:+ dq +:+ title +:+ dq +:+ nl) +:+
      autogen_marker +:+ rest.
Proof.
  unfold front_matter_text. cbn [app]. rewrite !join_cons.
  destruct (grid_lines cfg ++ ["---"]) as [|g gs] eqn:E.
  { by destruct (grid_lines cfg). }
  rewrite join_cons. eexists. rewrite !append_assoc. reflexivity.
Qed.

Lemma front_matter_flag (cfg : gmap string string) (title rest : string) :
  String.length title <= 1973 ->
  file_has_autogen_flag (Some (front_matter_text cfg title +:+ rest)) = true.
Proof.
  intros Hlen. unfold file_has_autogen_flag. apply head_shows.
  destruct (front_matter_marked cfg title) as [more ->].
  exists ("---" +:+ nl +:+ "title: " +:+ dq +:+ title +:+ dq +:+ nl), (more +:+ rest).
  split; [by rewrite !append_assoc|].
  rewrite !append_length. simpl. lia.
Qed.

(** X8. A page rendered from a template carries the marker within its
    first 2000 characters, so it counts as generated, as rendered and as
    read back from the file it was written to, provided the title has at
    most 1973 characters (the marker follows the title line). *)
Theorem template_page_is_marked (cfg : gmap string string) (title : string) :
  String.length title <= 1973 ->
  file_has_autogen_flag (Some (render_single_iframe cfg title)) = true /\
  file_has_autogen_flag (Some (render_doble_iframe cfg title)) = true /\
  may_write (Some (render_single_iframe cfg title)) = true /\
  may_write (Some (render_doble_iframe cfg title)) = true.
Proof.
  intros Hlen. unfold render_single_iframe, render_doble_iframe.
  split; [|split; [|split]]; try apply may_write_marked; by apply front_matter_flag.
Qed.

Lemma template_page_is_marked_witness :
  file_has_autogen_flag (Some (render_single_iframe ∅ "Guide")) = true /\
  file_has_autogen_flag (Some (render_doble_iframe ∅ "Guide")) = true /\
  may_write (Some (render_single_iframe ∅ "Guide")) = true /\
  may_write (Some (render_doble_iframe ∅ "Guide")) = true.
Proof. apply (template_page_is_marked ∅ "Guide"). simpl. lia. Defined.

(** ** A generated page follows its content record *)

Lemma template_of_marked (content_by_id : gmap string (gmap string string)) (n : Node)
  (text template : string) :
  String.length (label n) <= 1973 ->
  template_of content_by_id n = Some (text, template) ->
  file_has_autogen_flag (Some text) = true.
Proof.
  intros Hlen. unfold template_of.
  destruct (selects _ "single_iframe").
  { intros [= <- _]. by apply front_matter_flag. }
  destruct (selects _ "doble_iframe"); [|done].
  intros [= <- _]. by apply front_matter_flag.
Qed.

Lemma create_page_template (nodes : list Node) (children : gmap string (list string))
  (content_by_id : gmap string (gmap string string)) (n : Node) (w : world)
  (text template : string) :
  kind n <> "external" -> file_path n <> EmptyString ->
  template_of content_by_id n = Some (text, template) ->
  create_page nodes children content_by_id n w =
    write_content (file_path n) text template w.
Proof.
  intros Hk Hfp Ht. pose proof (create_page_run nodes children content_by_id n w Hk Hfp) as H.
  by rewrite Ht in H.
Qed.

(** X9. Once the page of a node has been written from a template, it
    follows the content records: a later run that finds a template for the
    node (the same or another, with the same or other settings) writes the
    page again. The title must leave the marker within the first 2000
    characters. *)
Theorem generated_page_follows_content (nodes : list Node)
  (children : gmap string (list string))
  (content content' : gmap string (gmap string string)) (n : Node) (w : world)
  (text template text' template' : string) :
  kind n <> "external" -> file_path n <> EmptyString ->
  String.length (label n) <= 1973 ->
  template_of content n = Some (text, template) ->
  template_of content' n = Some (text', template') ->
  may_write (files w !! file_path n) = true ->
  files (snd (create_page nodes children content n w)) !! file_path n = Some text /\
  files (snd (create_page nodes children content' n
                (snd (create_page nodes children content n w)))) !! file_path n =
    Some text'.
Proof.
  intros Hk Hfp Hlen Ht Ht' Hmay.
  rewrite (create_page_template _ _ _ _ w _ _ Hk Hfp Ht), write_content_run, Hmay.
  cbn [snd files]. split; [apply lookup_insert_eq|].
  rewrite (create_page_template _ _ _ _ _ _ _ Hk Hfp Ht'), write_content_run.
  cbn [files]. rewrite lookup_insert_eq.
  rewrite (may_write_marked _ (template_of_marked _ _ _ _ Hlen Ht)).
  cbn [snd files]. apply lookup_insert_eq.
Qed.

Lemma generated_page_follows_content_witness :
  files (snd (create_page sample_nodes (snd sample_tree) sample_content sample_guide
                (start ∅))) !! "docs/guide.qmd" =
    Some (render_single_iframe (default ∅ (sample_content !! "guide")) "Guide") /\
  files (snd (create_page sample_nodes (snd sample_tree) sample_content sample_guide
                (snd (create_page sample_nodes (snd sample_tree) sample_content sample_guide
                        (start ∅))))) !! "docs/guide.qmd" =
    Some (render_single_iframe (default ∅ (sample_content !! "guide")) "Guide").
Proof.
  apply (generated_page_follows_content sample_nodes (snd sample_tree) sample_content
           sample_content sample_guide (start ∅) _ "single_iframe" _ "single_iframe").
  - discriminate.
  - discriminate.
  - simpl. lia.
  - reflexivity.
  - reflexivity.
  - reflexivity.
Defined.

(** ** A stub does not carry the marker *)

Lemma free_links (links : list (string * string)) (acc : string) :
  marker_free acc ->
  (forall t h, (t, h) ∈ links -> marker_free t /\ marker_free h) ->
  marker_free
    (fold_left (fun body l => body +:+ "- [" +:+ fst l +:+ "](" +:+ snd l +:+ ")" +:+ nl)
               links acc).
Proof.
  revert acc. induction links as [|[t h] links IH]; intros acc Hacc Hall; [done|].
  cbn [fold_left fst snd]. apply IH.
  - destruct (Hall t h ltac:(by left)) as [Ht Hh].
    change (marker_free
              (acc +:+ String "-"
                 (" " +:+ String "["
                    (t +:+ String "]"
                       (EmptyString +:+ String "(" (h +:+ String ")" nl)))))).
    repeat (apply free_sep; [reflexivity| |]); done.
  - intros t' h' Hin. apply Hall. by right.
Qed.

Lemma stub_text_free (title : string) (is_landing : bool)
  (links : option (list (string * string))) (description : string) :
  marker_free title -> marker_free description ->
  (forall t h, (t, h) ∈ default [] links -> marker_free t /\ marker_free h) ->
  marker_free (stub_text title is_landing links description).
Proof.
  intros Ht Hd Hl. unfold stub_text.
  set (lines := ["---"; "title: " +:+ dq +:+ title +:+ dq] ++ _ ++ ["---"]).
  set (body := if is_landing && nonempty_list (default [] links) then _ else _).
  change (marker_free
            ((Py.join nl lines +:+ String (ascii_of_nat 10)
                (EmptyString +:+ String (ascii_of_nat 10) EmptyString)) +:+ body)).
  rewrite append_assoc.
  change (marker_free
            (Py.join nl lines +:+ String (ascii_of_nat 10)
               (EmptyString +:+ String (ascii_of_nat 10) body))).
  assert (forall field x,
            marker_free field -> marker_free x ->
            marker_free (field +:+ dq +:+ x +:+ dq)) as Hquoted.
  { intros field x Hf Hx.
    change (marker_free (field +:+ String (ascii_of_nat 34)
                           (x +:+ String (ascii_of_nat 34) EmptyString))).
    repeat (apply free_sep; [reflexivity| |]); done. }
  apply free_sep; [reflexivity| |apply free_sep; [reflexivity|reflexivity|]].
  - apply free_join. subst lines. repeat constructor.
    + by apply Hquoted.
    + destruct (Py.nonempty description); repeat constructor. by apply Hquoted.
  - subst body. destruct (is_landing && nonempty_list (default [] links)).
    + change (marker_free
                ("## Contents" +:+ String (ascii_of_nat 10)
                   (EmptyString +:+ String (ascii_of_nat 10)
                      (fold_left
                         (fun body l =>
                            body +:+ "- [" +:+ fst l +:+ "](" +:+ snd l +:+ ")" +:+ nl)
                         (default [] links) EmptyString +:+
                       String (ascii_of_nat 10) EmptyString)))).
      repeat (apply free_sep; [reflexivity| |]); try reflexivity.
      by apply free_links.
    + change (marker_free
                ("Content for *" +:+ String "*"
                   (title +:+ String "*" ("*." +:+ String (ascii_of_nat 10) EmptyString)))).
      repeat (apply free_sep; [reflexivity| |]); done.
Qed.

Lemma child_links_elem (nodes : list Node) (kids : list string)
  (links : list (string * string)) (t h : string) :
  child_links nodes kids = Ok links -> (t, h) ∈ links ->
  exists c, c ∈ nodes /\ t = label c /\ h = href_of c.
Proof.
  revert links. induction kids as [|cid kids IH]; intros links; simpl.
  - intros [= <-] Hin. by apply elem_of_nil in Hin.
  - unfold nodes_item. destruct (nodes_get nodes cid) as [c|] eqn:Hc; simpl; [|done].
    destruct (child_links nodes kids) as [more| |]; simpl; [|done..].
    intros [= <-] [[= -> ->] | Hin]%elem_of_cons.
    + exists c. split; [|done]. by apply nodes_get_Some in Hc as [? _].
    + by eapply IH.
Qed.

(** The turn of the page loop for a node without template and without
    file: the stub it writes, with the links of children that are nodes. *)
Lemma create_page_stub (nodes : list Node) (children : gmap string (list string))
  (content_by_id : gmap string (gmap string string)) (n : Node) (w w1 : world) :
  kind n <> "external" -> file_path n <> EmptyString ->
  template_of content_by_id n = None ->
  files w !! file_path n = None ->
  create_page nodes children content_by_id n w = (Ok tt, w1) ->
  exists links,
    (forall t h, (t, h) ∈ default [] links ->
       exists c, c ∈ nodes /\ t = label c /\ h = href_of c) /\
    w1 = mkWorld
           (<[file_path n :=
                stub_text (label n)
                  (String.eqb (kind n) "landing" || String.eqb (kind n) "section")
                  links (description n)]> (files w))
           (trace w ++
            [Write (file_path n)
               (stub_text (label n)
                  (String.eqb (kind n) "landing" || String.eqb (kind n) "section")
                  links (description n))]).
Proof.
  intros Hk Hfp Ht Hnone. unfold create_page, template_of in *.
  apply String.eqb_neq in Hk. apply nonempty_true in Hfp. rewrite Hk, Hfp. simpl.
  destruct (selects (content_by_id !! id n) "single_iframe"); [done|].
  destruct (selects (content_by_id !! id n) "doble_iframe"); [done|].
  destruct (String.eqb (kind n) "landing" || String.eqb (kind n) "section"); simpl.
  - destruct (children !! id n) as [kids|].
    + unfold mbind, io_bind, io_lift, mret, io_ret.
      destruct (child_links nodes kids) as [links| |] eqn:Hl; [|done..].
      cbv beta iota. rewrite write_stub_run, Hnone. intros [= <-].
      exists (Some links). split; [|done]. intros t h Hin. by eapply child_links_elem.
    + unfold mbind, io_bind, mret, io_ret. cbv beta iota.
      rewrite write_stub_run, Hnone. intros [= <-].
      exists None. split; [|done]. intros t h Hin. by apply elem_of_nil in Hin.
  - unfold mbind, io_bind, mret, io_ret. cbv beta iota.
    rewrite write_stub_run, Hnone. intros [= <-].
    exists None. split; [|done]. intros t h Hin. by apply elem_of_nil in Hin.
Qed.

(** X10. A stub never carries the marker (unless a label, description or
    link of the table holds it), so the page loop takes a page it wrote as a
    stub for a hand-written one: when a content record later selects a
    template for the node, the page is not written and the run reports the
    skip. *)
Theorem stub_blocks_template (nodes : list Node) (children : gmap string (list string))
  (content : gmap string (gmap string string)) (n : Node) (w w1 : world)
  (text template : string) :
  kind n <> "external" -> file_path n <> EmptyString ->
  (forall c, c ∈ n :: nodes ->
     marker_free (label c) /\ marker_free (description c) /\ marker_free (href_of c)) ->
  files w !! file_path n = None ->
  create_page nodes children ∅ n w = (Ok tt, w1) ->
  template_of content n = Some (text, template) ->
  (exists stub, files w1 !! file_path n = Some stub /\
     file_has_autogen_flag (Some stub) = false) /\
  create_page nodes children content n w1 =
    (Ok tt,
     mkWorld (files w1)
       (trace w1 ++ [Print ("Skip content write (manual page): " +:+ file_path n)])).
Proof.
  intros Hk Hfp Hfree Hnone Hrun Ht.
  assert (template_of ∅ n = None) as Ht0.
  { unfold template_of. by rewrite lookup_empty. }
  destruct (create_page_stub _ _ _ _ _ _ Hk Hfp Ht0 Hnone Hrun) as (links & Hlinks & ->).
  set (stub := stub_text _ _ _ _).
  assert (marker_free stub) as Hstub.
  { apply stub_text_free.
    - by destruct (Hfree n ltac:(by left)).
    - by destruct (Hfree n ltac:(by left)) as (_ & ? & _).
    - intros t h Hin. destruct (Hlinks t h Hin) as (c & Hc & -> & ->).
      destruct (Hfree c ltac:(by right)) as (? & _ & ?). by split. }
  cbn [files trace]. split.
  - exists stub. split; [apply lookup_insert_eq|by apply flag_free].
  - rewrite (create_page_template _ _ _ _ _ _ _ Hk Hfp Ht), write_content_run.
    cbn [files trace]. rewrite lookup_insert_eq. by rewrite (may_write_free _ Hstub).
Qed.

Lemma stub_blocks_template_witness :
  create_page sample_nodes (snd sample_tree) sample_content sample_guide
    (snd (create_page sample_nodes (snd sample_tree) ∅ sample_guide (start ∅))) =
    (Ok tt,
     mkWorld (files (snd (create_page sample_nodes (snd sample_tree) ∅ sample_guide
                            (start ∅))))
       (trace (snd (create_page sample_nodes (snd sample_tree) ∅ sample_guide (start ∅))) ++
        [Print ("Skip content write (manual page): " +:+ file_path sample_guide)])).
Proof.
  refine (proj2 (stub_blocks_template sample_nodes (snd sample_tree) sample_content
                   sample_guide (start ∅) _ _ "single_iframe" _ _ _ _ _ _)).
  - discriminate.
  - discriminate.
  - intros c Hc. apply elem_of_cons in Hc as [-> | Hc]; [by vm_compute|].
    vm_compute in Hc.
    repeat (apply elem_of_cons in Hc as [-> | Hc]; [by vm_compute|]).
    apply elem_of_nil in Hc. destruct Hc.
  - reflexivity.
  - reflexivity.
  - reflexivity.
Defined.

(** ** The grid block *)

Lemma rev_app_snoc (s t : string) (c : ascii) :
  String.rev_app (s +:+ String c EmptyString) t = String c (String.rev_app s t).
Proof.
  revert t. induction s as [|d s IH]; intros t; [done|].
  change (String.rev_app (s +:+ String c EmptyString) (String d t) =
          String c (String.rev_app s (String d t))).
  apply IH.
Qed.

Lemma rev_snoc (s : string) (c : ascii) :
  String.rev (s +:+ String c EmptyString) = String c (String.rev s).
Proof. apply rev_app_snoc. Qed.

Lemma rstrip_by_last (p : ascii -> bool) (s : string) :
  Py.rstrip_by p s = EmptyString \/
  exists r d, Py.rstrip_by p s = r +:+ String d EmptyString /\ p d = false.
Proof.
  induction s as [|c s IH]; [by left|]. rewrite rstrip_by_cons.
  destruct IH as [-> | (r & d & -> & Hd)].
  - destruct (p c) eqn:Hc; [by left|]. right. by exists EmptyString, c.
  - right. exists (String c r), d. split; [|done]. by destruct r.
Qed.

(** What [rstrip] returns does not end with ": ". *)
Lemma rstrip_not_open (s : string) : Py.endswith (Py.rstrip s) ": " = false.
Proof.
  unfold Py.endswith, Py.rstrip.
  destruct (rstrip_by_last Py.isspace s) as [-> | (r & d & -> & Hd)]; [done|].
  rewrite rev_snoc.
  change (String.prefix (String.rev ": ") (String d (String.rev r)))
    with (if ascii_dec " " d then String.prefix ":" (String.rev r) else false).
  destruct (ascii_dec " " d) as [Heq | _]; [|done].
  rewrite <- Heq in Hd. discriminate Hd.
Qed.

(** X11. The grid block of a generated page is all or nothing: when one of
    the four grid fields of the content record is set, the front matter gets
    the seven lines of the block, the lines of the unset fields too, as keys
    without value (a line is stripped on the right before it is tested for
    an open ": ", so that test removes none); when no grid field is set the
    block is left out. *)
Theorem grid_lines_all_or_none (cfg : gmap string string) :
  grid_lines cfg =
    (if existsb (fun k => Py.nonempty (row_get cfg k)) grid_keys
     then grid_block cfg else []) /\
  (row_get cfg "grid_sidebar_width" = EmptyString ->
   grid_block cfg !! 3 = Some "      sidebar-width:"%string) /\
  (row_get cfg "grid_body_width" = EmptyString ->
   grid_block cfg !! 4 = Some "      body-width:"%string) /\
  (row_get cfg "grid_margin_width" = EmptyString ->
   grid_block cfg !! 5 = Some "      margin-width:"%string) /\
  (row_get cfg "grid_gutter_width" = EmptyString ->
   grid_block cfg !! 6 = Some "      gutter-width:"%string).
Proof.
  split.
  - unfold grid_lines, grid_block.
    destruct (existsb _ grid_keys); [|done].
    rewrite !filter_cons, filter_nil, !rstrip_not_open.
    repeat (rewrite decide_True by reflexivity). reflexivity.
  - unfold grid_block. repeat split; intros ->; reflexivity.
Qed.

(** ** Path derivation, whatever the table *)

Lemma paths_filled_refl (a : Node) : paths_filled a a.
Proof. split; [by destruct a|]. by split. Qed.

Lemma paths_filled_fields (a b : Node) :
  paths_filled a b ->
  id b = id a /\ parent_id b = parent_id a /\ label b = label a /\ kind b = kind a /\
  order b = order a /\ description b = description a /\ external_url b = external_url a /\
  sidebar_as b = sidebar_as a.
Proof. intros [-> _]. by repeat split. Qed.

Lemma paths_filled_trans (a b c : Node) :
  paths_filled a b -> paths_filled b c -> paths_filled a c.
Proof.
  intros Hab Hbc. pose proof (paths_filled_fields _ _ Hab) as (_ & _ & _ & Hk & _).
  destruct Hab as (Hb & Hs & Hf), Hbc as (Hc & Hs' & Hf'). split; [|split].
  - rewrite Hc. rewrite Hb at 1. by destruct a.
  - intros H. rewrite Hs' by (by rewrite Hs). by apply Hs.
  - intros H. rewrite Hf' by (rewrite Hk, Hf by done; done). by apply Hf.
Qed.

Lemma paths_filled_settled (a b : Node) :
  paths_filled a b -> settled a -> settled b.
Proof.
  intros Hab [Hs Hf]. pose proof (paths_filled_fields _ _ Hab) as (_ & _ & _ & Hk & _).
  destruct Hab as (_ & Hs' & Hf'). split.
  - by rewrite Hs'.
  - rewrite Hk. intros H. rewrite Hf' by (left; by apply Hf). by apply Hf.
Qed.

Lemma Forall2_paths_filled_refl (l : list Node) : Forall2 paths_filled l l.
Proof. induction l; constructor; [apply paths_filled_refl|done]. Qed.

Lemma Forall2_paths_filled_trans (l1 l2 l3 : list Node) :
  Forall2 paths_filled l1 l2 -> Forall2 paths_filled l2 l3 -> Forall2 paths_filled l1 l3.
Proof.
  intros H. revert l3. induction H as [|a b l1 l2 Hab _ IH]; intros l3 H23.
  - by inversion H23.
  - inversion H23 as [|? c ? l3' Hbc H23']; subst. constructor; [|by apply IH].
    by eapply paths_filled_trans.
Qed.

Lemma nodes_get_filled (l l' : list Node) (k : string) :
  Forall2 paths_filled l l' ->
  match nodes_get l k, nodes_get l' k with
  | Some a, Some b => paths_filled a b
  | None, None => True
  | _, _ => False
  end.
Proof.
  induction 1 as [|a b l l' Hab _ IH]; simpl; [done|].
  destruct (paths_filled_fields _ _ Hab) as (-> & _).
  by destruct (String.eqb (id a) k).
Qed.

Lemma paths_filled_ids (l l' : list Node) : Forall2 paths_filled l l' -> ids l' = ids l.
Proof.
  unfold ids. induction 1 as [|a b l l' Hab _ IH]; simpl; [done|].
  rewrite IH. f_equal. by destruct (paths_filled_fields _ _ Hab).
Qed.

Lemma paths_filled_skeleton (l l' : list Node) :
  Forall2 paths_filled l l' -> Forall (fun n => slug n <> EmptyString) l ->
  Forall2 (fun a b => skeleton a = skeleton b) l l'.
Proof.
  induction 1 as [|a b l l' Hab _ IH]; intros Hs; [constructor|].
  apply Forall_cons in Hs as [Ha Hs]. constructor; [|by apply IH].
  destruct (paths_filled_fields _ _ Hab) as (Hi & Hp & _ & Hk & _).
  destruct Hab as (_ & Hslug & _). unfold skeleton. by rewrite Hi, Hp, Hk, Hslug.
Qed.

Lemma nodes_set_filled (nodes : list Node) (m n : Node) :
  nodes_get nodes (id n) = Some m -> paths_filled m n ->
  Forall2 paths_filled nodes (nodes_set nodes n) /\
  nodes_get (nodes_set nodes n) (id n) = Some n.
Proof.
  intros Hm Hmn. induction nodes as [|x nodes IH]; [done|]. simpl in *.
  destruct (String.eqb (id x) (id n)) eqn:E.
  - injection Hm as ->. split.
    + constructor; [done|apply Forall2_paths_filled_refl].
    + simpl. by rewrite String.eqb_refl.
  - destruct (IH Hm) as [H1 H2]. split.
    + constructor; [apply paths_filled_refl|done].
    + simpl. by rewrite E.
Qed.

Lemma nodes_set_same (nodes : list Node) (n : Node) :
  nodes_get nodes (id n) = Some n -> nodes_set nodes n = nodes.
Proof.
  induction nodes as [|x nodes IH]; [done|]. simpl.
  destruct (String.eqb (id x) (id n)); [by intros [= ->]|].
  intros H. by rewrite IH.
Qed.

(** One turn of the loop of [ensure_paths]. *)
Lemma ensure_path_Ok (fuel : nat) (children : gmap string (list string))
  (nodes nodes' : list Node) (nid : string) :
  ensure_path fuel children nodes nid = Ok nodes' ->
  Forall2 paths_filled nodes nodes' /\
  exists b, nodes_get nodes' nid = Some b /\ settled b.
Proof.
  unfold ensure_path, nodes_item.
  destruct (nodes_get nodes nid) as [n|] eqn:Hn; simpl; [|done].
  pose proof (nodes_get_Some _ _ _ Hn) as [_ Hid]. subst nid.
  set (n1 := if Py.nonempty (slug n) then n else set_slug n (slugify (label n))).
  assert (paths_filled n n1 /\ slug n1 <> EmptyString /\ id n1 = id n) as (H1 & Hs1 & Hid1).
  { subst n1. destruct (Py.nonempty (slug n)) eqn:E.
    - split; [apply paths_filled_refl|]. split; [by apply nonempty_true|done].
    - apply nonempty_false in E. split; [|split; [apply slugify_nonempty|done]].
      split; [by destruct n|]. split; [by rewrite E|done]. }
  rewrite <- Hid1 in Hn.
  destruct (nodes_set_filled nodes n n1 Hn H1) as [Hf1 Hg1].
  fold (needs_path n1). destruct (needs_path n1) eqn:Hneed.
  - destruct (compute_default_file_path fuel (nodes_set nodes n1) children (id n))
      as [p| |] eqn:Hp; simpl; [|done..].
    intros [= <-]. apply needs_path_true in Hneed as [Hk Hfp].
    rewrite <- Hid1 in Hp.
    destruct (compute_sound _ _ _ _ _ _ Hg1 Hk Hp) as (chain & _ & _ & ->).
    set (n2 := set_file_path n1 (derived_path n1 chain)).
    assert (paths_filled n1 n2) as H2.
    { split; [by destruct n1|]. split; [done|]. intros [H | H]; by destruct H. }
    destruct (nodes_set_filled (nodes_set nodes n1) n1 n2 Hg1 H2) as [Hf2 Hg2].
    split; [by eapply Forall2_paths_filled_trans|].
    exists n2. rewrite <- Hid1. split; [exact Hg2|]. split; [done|].
    intros _. apply derived_path_nonempty.
  - intros [= <-]. split; [done|]. exists n1. rewrite <- Hid1. split; [done|].
    split; [done|]. intros Hk. destruct (file_path n1) eqn:E; [|done].
    assert (needs_path n1 = true) by (apply needs_path_true; by rewrite E). congruence.
Qed.

Lemma ensure_loop_sound (fuel : nat) (children : gmap string (list string))
  (todo : list string) (nodes nodes' : list Node) :
  ensure_loop fuel children nodes todo = Ok nodes' ->
  Forall2 paths_filled nodes nodes' /\
  forall k, k ∈ todo -> exists b, nodes_get nodes' k = Some b /\ settled b.
Proof.
  revert nodes. induction todo as [|nid todo IH]; intros nodes; simpl.
  - intros [= <-]. split; [apply Forall2_paths_filled_refl|].
    intros k Hk. by apply elem_of_nil in Hk.
  - destruct (ensure_path fuel children nodes nid) as [nodes1| |] eqn:Hstep; simpl; [|done..].
    intros Hloop. destruct (ensure_path_Ok _ _ _ _ _ Hstep) as (Hf1 & b & Hb & Hsb).
    destruct (IH _ Hloop) as [Hf2 Hall]. split; [by eapply Forall2_paths_filled_trans|].
    intros k [-> | Hk]%elem_of_cons; [|by apply Hall].
    pose proof (nodes_get_filled _ _ nid Hf2) as H. rewrite Hb in H.
    destruct (nodes_get nodes' nid) as [c|]; [|done].
    exists c. split; [done|]. by eapply paths_filled_settled.
Qed.

(** What [ensure_paths] has done when it returns, on any table. *)
Lemma ensure_paths_sound (fuel : nat) (children : gmap string (list string))
  (nodes nodes' : list Node) :
  ensure_paths fuel nodes children = Ok nodes' ->
  Forall2 paths_filled nodes nodes' /\
  forall k b, nodes_get nodes' k = Some b -> settled b.
Proof.
  intros H. destruct (ensure_loop_sound _ _ _ _ _ H) as [Hf Hall]. split; [done|].
  intros k b Hb. destruct (Hall k) as (c & Hc & Hs).
  - apply nodes_get_Some in Hb as [Hin <-].
    change (id b ∈ ids nodes). rewrite <- (paths_filled_ids _ _ Hf).
    by apply list_elem_of_fmap_2.
  - congruence.
Qed.

Lemma ensure_loop_settled (fuel : nat) (children : gmap string (list string))
  (nodes : list Node) (todo : list string) :
  (forall k b, nodes_get nodes k = Some b -> settled b) ->
  todo ⊆ ids nodes ->
  ensure_loop fuel children nodes todo = Ok nodes.
Proof.
  intros Hall. induction todo as [|nid todo IH]; intros Hsub; [done|]. simpl.
  assert (ensure_path fuel children nodes nid = Ok nodes) as ->.
  { unfold ensure_path, nodes_item.
    destruct (nodes_get nodes nid) as [n|] eqn:Hn.
    - destruct (Hall _ _ Hn) as [Hs Hf]. simpl. apply nonempty_true in Hs. rewrite Hs.
      pose proof (nodes_get_Some _ _ _ Hn) as [_ <-].
      rewrite nodes_set_same by done.
      destruct (String.eqb (kind n) "external") eqn:Hk; [done|]. simpl.
      apply String.eqb_neq, Hf, nonempty_true in Hk. by rewrite Hk.
    - apply nodes_get_None in Hn. destruct Hn. apply Hsub. by left. }
  simpl. apply IH. intros k Hk. apply Hsub. by right.
Qed.

(** X12. Path derivation is idempotent, and what it changes is little:
    when [ensure_paths] returns, every node is the node it was but for a
    slug or a [file_path] that was empty (an external node keeps its
    [file_path] as it is), every node now has a slug and, unless external, a
    [file_path]; run again on its result, with any bound and any children
    map, it returns that result unchanged. *)
Theorem ensure_paths_idempotent (fuel fuel' : nat)
  (children children' : gmap string (list string)) (nodes nodes' : list Node) :
  ensure_paths fuel nodes children = Ok nodes' ->
  Forall2 paths_filled nodes nodes' /\
  (forall k b, nodes_get nodes' k = Some b -> settled b) /\
  ensure_paths fuel' nodes' children' = Ok nodes'.
Proof.
  intros H. destruct (ensure_paths_sound _ _ _ _ H) as [Hf Hall].
  split; [done|]. split; [done|]. by apply ensure_loop_settled.
Qed.

Lemma ensure_paths_idempotent_witness :
  ensure_paths 0 sample_nodes ∅ = Ok sample_nodes.
Proof.
  apply (ensure_paths_idempotent 1 0 (snd sample_tree) ∅ (fst sample_tree) sample_nodes).
  reflexivity.
Defined.

(** ** The plan of a run *)

Lemma plan_Ok (fuel : nat) (raws : list raw_row) (nodes roots : list Node)
  (children : gmap string (list string)) :
  plan fuel raws = Ok (nodes, children, roots) ->
  exists nodes0,
    read_nodes raws = Ok (nodes0, children) /\
    find_roots nodes0 <> [] /\
    ensure_paths fuel nodes0 children = Ok nodes /\
    deref nodes (map id (sort_by node_key (find_roots nodes0))) = Ok roots.
Proof.
  unfold plan. destruct (read_nodes raws) as [[nodes0 ch]| |] eqn:Hread; simpl; [|done..].
  destruct (sort_by node_key (find_roots nodes0)) as [|r rs] eqn:Hsort; [done|].
  cbn [nonempty_list negb].
  destruct (ensure_paths fuel nodes0 ch) as [nodes1| |] eqn:Hens; simpl; [|done..].
  destruct (nodes_item nodes1 (id r)) as [r'| |] eqn:Hr; simpl; [|done..].
  destruct (deref nodes1 (map id rs)) as [more| |] eqn:Hd; simpl; [|done..].
  intros [= <- <- <-]. exists nodes0. split; [done|]. split.
  - intros Hnil. by rewrite Hnil in Hsort.
  - split; [done|]. rewrite Hsort. cbn [deref map]. rewrite Hr. simpl. by rewrite Hd.
Qed.

Lemma filter_filled (P : Node -> bool) (l l' : list Node) :
  (forall a b, paths_filled a b -> P a = P b) ->
  Forall2 paths_filled l l' ->
  Forall2 paths_filled (filter P l) (filter P l').
Proof.
  intros HP. induction 1 as [|a b l l' Hab _ IH]; [constructor|].
  rewrite !filter_cons. rewrite (HP a b Hab).
  destruct (P b); simpl; [by constructor|done].
Qed.

Lemma insert_by_filled (x y : Node) (l l' : list Node) :
  paths_filled x y -> Forall2 paths_filled l l' ->
  Forall2 paths_filled (insert_by node_key x l) (insert_by node_key y l').
Proof.
  intros Hxy. induction 1 as [|a b l l' Hab Hll IH]; simpl; [by constructor|].
  assert (forall u v, paths_filled u v -> node_key u = node_key v) as Hkey.
  { intros u v Huv. destruct (paths_filled_fields _ _ Huv) as (_ & _ & Hl & _ & Ho & _).
    unfold node_key. by rewrite Hl, Ho. }
  rewrite (Hkey a b Hab), (Hkey x y Hxy).
  destruct (key_lt (node_key b) (node_key y)); constructor; try done. by constructor.
Qed.

Lemma sort_by_filled (l l' : list Node) :
  Forall2 paths_filled l l' ->
  Forall2 paths_filled (sort_by node_key l) (sort_by node_key l').
Proof. induction 1; simpl; [constructor|]. by apply insert_by_filled. Qed.

Lemma is_root_filled (a b : Node) : paths_filled a b -> is_root a = is_root b.
Proof.
  intros H. destruct (paths_filled_fields _ _ H) as (_ & Hp & _ & Hk & _).
  unfold is_root. by rewrite Hp, Hk.
Qed.

Lemma deref_filled (nodes sub sub' : list Node) :
  NoDup (ids nodes) -> Forall2 paths_filled sub sub' ->
  (forall b, b ∈ sub' -> b ∈ nodes) ->
  deref nodes (map id sub) = Ok sub'.
Proof.
  intros Hnd. induction 1 as [|a b sub sub' Hab _ IH]; intros Hin; [done|]. simpl.
  destruct (paths_filled_fields _ _ Hab) as (<- & _). unfold nodes_item.
  rewrite nodes_get_elem by (done || apply Hin; by left). simpl.
  rewrite IH by (intros c Hc; apply Hin; by right). done.
Qed.

Lemma find_roots_elem (nodes : list Node) (r : Node) :
  r ∈ find_roots nodes <-> r ∈ nodes /\ parent_id r = EmptyString /\ kind r = "navbar".
Proof.
  unfold find_roots. rewrite list_elem_of_filter, Is_true_true, is_root_true. tauto.
Qed.

(** The roots of a plan: the roots of the table with its paths, sorted. *)
Lemma plan_roots (fuel : nat) (raws : list raw_row) (nodes roots : list Node)
  (children : gmap string (list string)) :
  plan fuel raws = Ok (nodes, children, roots) ->
  roots = sort_by node_key (find_roots nodes) /\ roots <> [] /\ NoDup (ids nodes) /\
  forall k b, nodes_get nodes k = Some b -> settled b.
Proof.
  intros (nodes0 & Hread & Hne & Hens & Hd)%plan_Ok.
  destruct (read_nodes_Ok _ _ _ Hread) as (_ & _ & Hnd & _ & _).
  destruct (ensure_paths_sound _ _ _ _ Hens) as [Hf Hall].
  assert (NoDup (ids nodes)) as Hnd' by (by rewrite (paths_filled_ids _ _ Hf)).
  assert (Forall2 paths_filled (sort_by node_key (find_roots nodes0))
            (sort_by node_key (find_roots nodes))) as Hs.
  { apply sort_by_filled, filter_filled; [|done].
    intros a b Hab. by apply is_root_filled. }
  rewrite (deref_filled nodes _ _ Hnd' Hs) in Hd.
  2:{ intros b Hb. rewrite sort_by_perm in Hb. by apply find_roots_elem in Hb as [? _]. }
  injection Hd as <-. split; [done|]. split; [|by split].
  intros Hnil. apply Hne. apply sort_by_nil in Hnil. rewrite Hnil in Hs.
  apply sort_by_nil with (key := node_key). by inversion Hs.
Qed.

(** X13. The roots that [main] gives to [build_yaml] are the root navbar
    nodes of the table as it is after path derivation (the list is built
    before, of the very nodes the derivation updates): there is one at
    least, they are sorted by order and then by lowercased label, and each
    has a [file_path], so that each navbar entry is a text with its href. *)
Theorem navbar_roots (fuel : nat) (raws : list raw_row) (nodes roots : list Node)
  (children : gmap string (list string)) :
  plan fuel raws = Ok (nodes, children, roots) ->
  roots <> [] /\
  (forall r, r ∈ roots <-> r ∈ nodes /\ parent_id r = EmptyString /\ kind r = "navbar") /\
  StronglySorted root_le roots /\
  forall r, r ∈ roots ->
    file_path r <> EmptyString /\
    navbar_entry r = [ "      - text: " +:+ dq +:+ label r +:+ dq;
                       "        href: " +:+ file_path r ].
Proof.
  intros (-> & Hne & Hnd & Hall)%plan_roots.
  assert (forall r, r ∈ sort_by node_key (find_roots nodes) <->
            r ∈ nodes /\ parent_id r = EmptyString /\ kind r = "navbar") as Hmem.
  { intros r. rewrite sort_by_perm. apply find_roots_elem. }
  split; [done|]. split; [done|]. split.
  - eapply StronglySorted_impl_elem; [|apply sort_by_sorted].
    intros a b _ _ Hle. by apply key_le_spec in Hle.
  - intros r (Hin & Hp & Hk)%Hmem.
    destruct (Hall (id r) r (nodes_get_elem _ _ Hnd Hin)) as [_ Hfp].
    assert (file_path r <> EmptyString) as Hpath by (apply Hfp; by rewrite Hk).
    split; [done|]. unfold navbar_entry. apply nonempty_true in Hpath. by rewrite Hpath.
Qed.

Lemma navbar_roots_witness :
  [sample_root] <> [] /\
  (forall r, r ∈ [sample_root] <->
     r ∈ sample_nodes /\ parent_id r = EmptyString /\ kind r = "navbar") /\
  StronglySorted root_le [sample_root] /\
  forall r, r ∈ [sample_root] ->
    file_path r <> EmptyString /\
    navbar_entry r = [ "      - text: " +:+ dq +:+ label r +:+ dq;
                       "        href: " +:+ file_path r ].
Proof.
  apply (navbar_roots 1 sample_raws sample_nodes [sample_root] (snd sample_tree)).
  vm_compute. reflexivity.
Defined.

(** ** The modes of a run *)

Lemma main_unfold (fuel : nat) (args : Args) (raws : list raw_row)
  (content : option (list raw_row)) (w : world) :
  main fuel args raws content w =
    match plan fuel raws with
    | Ok (nodes, children, roots) =>
        if validate args then
          match validate_tree fuel nodes children with
          | Ok lines => io_for io_print lines w
          | Raise e => (Raise e, w)
          | OutOfFuel => (OutOfFuel, w)
          end
        else
          match render_yaml fuel args nodes children roots with
          | Ok text =>
              pages_of args nodes children content
                (snd ((if dry_run args then io_print text
                       else write_yaml (yml_out args) text) w))
          | Raise e => (Raise e, w)
          | OutOfFuel => (OutOfFuel, w)
          end
    | Raise e => (Raise e, w)
    | OutOfFuel => (OutOfFuel, w)
    end.
Proof.
  unfold main, pages_of. unfold mbind at 1. unfold io_bind at 1. unfold io_lift at 1.
  destruct (plan fuel raws) as [[[nodes children] roots]| |]; [|done..]. cbn [fst snd].
  destruct (validate args).
  - unfold mbind at 1. unfold io_bind at 1. unfold io_lift at 1.
    by destruct (validate_tree fuel nodes children).
  - unfold mbind at 1. unfold io_bind at 1. unfold io_lift at 1.
    destruct (render_yaml fuel args nodes children roots) as [text| |]; [|done..].
    unfold mbind at 1. unfold io_bind at 1. destruct (dry_run args).
    + by unfold io_print.
    + by rewrite write_yaml_run.
Qed.

Lemma io_for_print (lines : list string) (w : world) :
  io_for io_print lines w = (Ok tt, mkWorld (files w) (trace w ++ map Print lines)).
Proof.
  revert w. induction lines as [|l lines IH]; intros w.
  - simpl. rewrite app_nil_r. by destruct w.
  - simpl. unfold mbind, io_bind. unfold io_print at 1. rewrite IH. simpl.
    by rewrite <- app_assoc.
Qed.

(** X14. A validation run writes no file, and neither does a dry run
    without page creation: whatever the outcome, the files are as before
    and the run has only printed lines. *)
Theorem no_files_written (fuel : nat) (args : Args) (raws : list raw_row)
  (content : option (list raw_row)) (w : world) :
  validate args = true \/ (dry_run args = true /\ create_stubs args = false) ->
  files (snd (main fuel args raws content w)) = files w /\
  exists lines, trace (snd (main fuel args raws content w)) = trace w ++ map Print lines.
Proof.
  intros Hmode. rewrite main_unfold.
  assert (forall r : res unit,
            files (snd (r, w)) = files w /\
            exists lines, trace (snd (r, w)) = trace w ++ map Print lines) as Hstop.
  { intros r. split; [done|]. exists []. by rewrite app_nil_r. }
  destruct (plan fuel raws) as [[[nodes children] roots]| |]; [|apply Hstop..].
  destruct (validate args) eqn:Hv.
  - destruct (validate_tree fuel nodes children) as [lines| |]; [|apply Hstop..].
    rewrite io_for_print. split; [done|]. by exists lines.
  - destruct Hmode as [? | [Hd Hc]]; [done|].
    destruct (render_yaml fuel args nodes children roots) as [text| |]; [|apply Hstop..].
    unfold pages_of. rewrite Hd, Hc. split; [done|]. by exists [text].
Qed.

Lemma no_files_written_witness :
  files (snd (main 2 (mkArgs "NESBp" "_quarto.yml" true false true None None
                        "cosmo" "brand" "styles.css" false)
                sample_raws None (start ∅))) = files (start ∅).
Proof.
  apply (no_files_written 2 (mkArgs "NESBp" "_quarto.yml" true false true None None
                               "cosmo" "brand" "styles.css" false)
           sample_raws None (start ∅)).
  left. reflexivity.
Defined.

(** ** Pages after a run *)

Lemma create_page_cases (nodes : list Node) (children : gmap string (list string))
  (content_by_id : gmap string (gmap string string)) (n : Node) (w : world) :
  (snd (create_page nodes children content_by_id n w) = w \/
   exists text events,
     snd (create_page nodes children content_by_id n w) =
       mkWorld (<[file_path n := text]> (files w)) (trace w ++ events)) /\
  (fst (create_page nodes children content_by_id n w) = Ok tt ->
   kind n <> "external" -> file_path n <> EmptyString ->
   is_Some (files (snd (create_page nodes children content_by_id n w)) !! file_path n)).
Proof.
  destruct (decide (kind n = "external")) as [Hk | Hk].
  { unfold create_page. rewrite Hk. simpl. split; [by left|done]. }
  destruct (decide (file_path n = EmptyString)) as [Hfp | Hfp].
  { unfold create_page. apply String.eqb_neq in Hk. rewrite Hk, Hfp. simpl.
    split; [by left|done]. }
  pose proof (create_page_run nodes children content_by_id n w Hk Hfp) as H.
  destruct (template_of content_by_id n) as [[text template]|].
  - rewrite H, write_content_run. cbn [fst snd].
    destruct (files w !! file_path n) as [held|] eqn:Hheld.
    + destruct (may_write (Some held)).
      * split; [right; by eexists _, _|]. intros _ _ _. cbn [files].
        rewrite lookup_insert_eq. by eexists.
      * split; [|intros _ _ _; cbn [files]; by rewrite Hheld].
        right. exists held. eexists. f_equal. by rewrite insert_id.
    + cbn [may_write]. split; [right; by eexists _, _|]. intros _ _ _. cbn [files].
      rewrite lookup_insert_eq. by eexists.
  - destruct H as [[links ->] | [key ->]]; [|split; [by left|done]].
    rewrite write_stub_run. cbn [fst snd].
    destruct (files w !! file_path n) as [held|] eqn:Hheld.
    + split; [by left|]. intros _ _ _. by rewrite Hheld.
    + split; [right; by eexists _, _|]. intros _ _ _. cbn [files].
      rewrite lookup_insert_eq. by eexists.
Qed.

Lemma create_page_mono (nodes : list Node) (children : gmap string (list string))
  (content_by_id : gmap string (gmap string string)) (n : Node) (w : world)
  (path : string) :
  is_Some (files w !! path) ->
  is_Some (files (snd (create_page nodes children content_by_id n w)) !! path).
Proof.
  intros Hp. destruct (create_page_cases nodes children content_by_id n w)
    as [[-> | (text & events & ->)] _]; [done|].
  cbn [files]. rewrite lookup_insert_is_Some.
  destruct (decide (file_path n = path)); [by left|by right].
Qed.

Lemma io_for_pages (nodes : list Node) (children : gmap string (list string))
  (content_by_id : gmap string (gmap string string)) (l : list Node) (w w1 : world)
  (r : res unit) :
  io_for (create_page nodes children content_by_id) l w = (r, w1) ->
  (forall path, is_Some (files w !! path) -> is_Some (files w1 !! path)) /\
  (r = Ok tt ->
   forall n, n ∈ l -> kind n <> "external" -> file_path n <> EmptyString ->
     is_Some (files w1 !! file_path n)).
Proof.
  revert w. induction l as [|n l IH]; intros w.
  - simpl. intros [= <- <-]. split; [done|]. intros _ n Hn. by apply elem_of_nil in Hn.
  - simpl. unfold mbind, io_bind.
    pose proof (create_page_mono nodes children content_by_id n w) as Hmono.
    pose proof (proj2 (create_page_cases nodes children content_by_id n w)) as Hex.
    destruct (create_page nodes children content_by_id n w) as [[[]| |] w0] eqn:Hn;
      cbn [fst snd] in *.
    + intros Hrest. destruct (IH _ Hrest) as [Hm Hall]. split.
      * intros path Hp. by apply Hm, Hmono.
      * intros Hr m [-> | Hm']%elem_of_cons Hk Hfp; [|by apply Hall].
        apply Hm. by apply Hex.
    + intros [= <- <-]. split; [done|done].
    + intros [= <- <-]. split; [done|done].
Qed.

(** X15. After a run with page creation that returned, every node that
    is not external has a [file_path] and a file exists there, under a dry
    run too (which keeps only the configuration from being written); and
    whatever the run did, no file that existed is gone. *)
Theorem pages_exist_after_run (fuel : nat) (args : Args) (raws : list raw_row)
  (content : option (list raw_row)) (w w1 : world) (nodes roots : list Node)
  (children : gmap string (list string)) :
  validate args = false -> create_stubs args = true ->
  main fuel args raws content w = (Ok tt, w1) ->
  plan fuel raws = Ok (nodes, children, roots) ->
  (forall n, n ∈ nodes -> kind n <> "external" ->
     file_path n <> EmptyString /\ is_Some (files w1 !! file_path n)) /\
  (forall path, is_Some (files w !! path) -> is_Some (files w1 !! path)).
Proof.
  intros Hv Hc Hmain Hplan. rewrite main_unfold, Hplan, Hv in Hmain.
  destruct (render_yaml fuel args nodes children roots) as [text| |]; [|done..].
  unfold pages_of in Hmain. rewrite Hc in Hmain.
  destruct (io_for_pages _ _ _ _ _ _ _ Hmain) as [Hmono Hall].
  destruct (plan_roots _ _ _ _ _ Hplan) as (_ & _ & Hnd & Hset).
  split.
  - intros n Hn Hk. destruct (Hset _ _ (nodes_get_elem _ _ Hnd Hn)) as [_ Hfp].
    split; [by apply Hfp|]. apply Hall; [done..|by apply Hfp].
  - intros path Hp. apply Hmono. destruct (dry_run args); [done|].
    rewrite write_yaml_run. cbn [snd].
    destruct (decide (Py.universal_newlines <$> files w !! yml_out args = Some text));
      [done|].
    cbn [files]. rewrite lookup_insert_is_Some. destruct (decide (yml_out args = path)); [by left|by right].
Qed.

Lemma pages_exist_after_run_witness :
  (forall n, n ∈ sample_nodes -> kind n <> "external" ->
     file_path n <> EmptyString /\ is_Some (files sample_world1 !! file_path n)) /\
  (forall path, is_Some (files (start ∅) !! path) ->
     is_Some (files sample_world1 !! path)).
Proof.
  apply (pages_exist_after_run 2 sample_args sample_raws None (start ∅) sample_world1
           sample_nodes [sample_root] (snd sample_tree)).
  - reflexivity.
  - reflexivity.
  - exact sample_first_run.
  - vm_compute. reflexivity.
Defined.

(** ** A run returns *)

Lemma walk_returns (nodes : list Node) (children : gmap string (list string))
  (bound : nat) :
  rooted_table nodes children bound ->
  forall fuel i n chain depth,
    nodes_get nodes i = Some n -> ancestry nodes i chain ->
    bound < List.length chain + fuel ->
    exists lines, walk fuel nodes children i depth = Ok lines.
Proof.
  intros [Hkids Hrooted]. induction fuel as [|fuel IH]; intros i n chain depth Hn Ha Hfuel.
  { destruct (Hrooted i n Hn) as (c & Hc & Hlen).
    rewrite (ancestry_functional _ _ _ _ Ha Hc) in Hfuel. lia. }
  cbn [walk]. unfold nodes_item at 1. rewrite Hn. simpl.
  destruct (for_lines_returns (fun cid => walk fuel nodes children cid (S depth))
              (children_get children i)) as [below Hbelow].
  - intros cid Hcid. destruct (Hkids i cid Hcid) as (Hi & c & Hc & Hp).
    assert (ancestry nodes cid (chain ++ [slug c])) as Hchain.
    { apply ancestry_child; [done|congruence|by rewrite Hp]. }
    destruct (Hrooted cid c Hc) as (cc & Hcc & Hlen).
    rewrite (ancestry_functional _ _ _ _ Hcc Hchain), length_app in Hlen. simpl in Hlen.
    apply (IH cid c _ (S depth) Hc Hchain). rewrite length_app. simpl. lia.
  - rewrite Hbelow. simpl. by eexists.
Qed.

Lemma validate_tree_returns (nodes : list Node) (children : gmap string (list string))
  (fuel : nat) :
  rooted_table nodes children fuel -> NoDup (ids nodes) ->
  exists lines, validate_tree fuel nodes children = Ok lines.
Proof.
  intros Hrt Hnd. unfold validate_tree.
  destruct (for_lines_returns (fun r => walk fuel nodes children (id r) 0)
              (sort_by node_key (find_roots nodes))) as [tree Htree].
  - intros r Hr. rewrite sort_by_perm in Hr. apply find_roots_elem in Hr as (Hin & Hp & _).
    pose proof (nodes_get_elem _ _ Hnd Hin) as Hr.
    apply (walk_returns _ _ _ Hrt fuel (id r) r [slug r] 0 Hr).
    + by apply ancestry_root.
    + destruct Hrt as [_ Hrooted]. destruct (Hrooted _ _ Hr) as (c & Hc & Hlen).
      rewrite (ancestry_functional _ _ _ _ Hc (ancestry_root _ _ _ Hr Hp)) in Hlen.
      simpl in *. lia.
  - rewrite Htree. simpl. by eexists.
Qed.

Lemma sidebar_block_returns (nodes : list Node) (children : gmap string (list string))
  (fuel : nat) (style background : option string) (root : Node) :
  rooted_table nodes children fuel ->
  exists lines, sidebar_block fuel nodes children style background root = Ok lines.
Proof.
  intros Hrt. unfold sidebar_block.
  destruct (any_landing_spec nodes (children_get children (id root))) as (b & -> & _).
  { intros cid Hcid. destruct Hrt as [Hkids _].
    destruct (Hkids _ _ Hcid) as (_ & c & Hc & _). by exists c. }
  destruct (for_lines_returns (root_child_lines fuel nodes children)
              (children_get children (id root))) as [kids ->].
  { intros cid Hcid. by eapply root_child_lines_returns. }
  simpl. by eexists.
Qed.

Lemma render_yaml_returns (nodes roots : list Node) (children : gmap string (list string))
  (fuel : nat) (args : Args) :
  rooted_table nodes children fuel ->
  exists text, render_yaml fuel args nodes children roots = Ok text.
Proof.
  intros Hrt. unfold render_yaml, build_yaml.
  destruct (for_lines_returns
              (sidebar_block fuel nodes children (sidebar_style args)
                 (sidebar_background args)) roots) as [blocks ->].
  { intros r _. by apply sidebar_block_returns. }
  simpl. by eexists.
Qed.

Lemma child_links_returns (nodes : list Node) (kids : list string) :
  (forall cid, cid ∈ kids -> exists c, nodes_get nodes cid = Some c) ->
  exists links, child_links nodes kids = Ok links.
Proof.
  induction kids as [|cid kids IH]; intros Hall; simpl; [by eexists|].
  destruct (Hall cid ltac:(by left)) as [c Hc]. unfold nodes_item. rewrite Hc. simpl.
  destruct IH as [more ->]. { intros x Hx. apply Hall. by right. }
  simpl. by eexists.
Qed.

Lemma create_page_returns (nodes : list Node) (children : gmap string (list string))
  (content_by_id : gmap string (gmap string string)) (bound : nat) (n : Node) (w : world) :
  rooted_table nodes children bound ->
  exists w', create_page nodes children content_by_id n w = (Ok tt, w').
Proof.
  intros [Hkids _]. unfold create_page.
  destruct (String.eqb (kind n) "external"); [by eexists|].
  destruct (negb (Py.nonempty (file_path n))); [by eexists|]. cbv zeta.
  destruct (selects (content_by_id !! id n) "single_iframe").
  { rewrite write_content_run. by eexists. }
  destruct (selects (content_by_id !! id n) "doble_iframe").
  { rewrite write_content_run. by eexists. }
  destruct (String.eqb (kind n) "landing" || String.eqb (kind n) "section").
  - destruct (children !! id n) as [kids|] eqn:Hk.
    + destruct (child_links_returns nodes kids) as [links Hlinks].
      { intros cid Hcid. destruct (Hkids (id n) cid) as (_ & c & Hc & _); [|by exists c].
        unfold children_get. by rewrite Hk. }
      unfold mbind, io_bind, io_lift, mret, io_ret. rewrite Hlinks. cbv beta iota.
      rewrite write_stub_run. by eexists.
    + unfold mbind, io_bind, mret, io_ret. cbv beta iota. rewrite write_stub_run. by eexists.
  - unfold mbind, io_bind, mret, io_ret. cbv beta iota. rewrite write_stub_run. by eexists.
Qed.

Lemma io_for_returns {A : Type} (body : A -> io unit) (l : list A) (w : world) :
  (forall x w0, exists w', body x w0 = (Ok tt, w')) ->
  exists w', io_for body l w = (Ok tt, w').
Proof.
  intros Hbody. revert w. induction l as [|x l IH]; intros w; [by eexists|].
  simpl. unfold mbind, io_bind. destruct (Hbody x w) as [w0 ->]. apply IH.
Qed.

Lemma Forall2_flip_skeleton (l l' : list Node) :
  Forall2 (fun a b => skeleton a = skeleton b) l l' ->
  Forall2 (fun a b => skeleton a = skeleton b) l' l.
Proof. induction 1; by constructor. Qed.

(** The plan of a run on records whose parent chains reach a root. *)
Lemma plan_returns (fuel : nat) (raws : list raw_row) (nodes0 : list Node)
  (children : gmap string (list string)) :
  read_nodes raws = Ok (nodes0, children) ->
  find_roots nodes0 <> [] ->
  (forall n, n ∈ nodes0 ->
     exists chain, ancestry nodes0 (id n) chain /\ List.length chain <= fuel) ->
  exists nodes roots,
    plan fuel raws = Ok (nodes, children, roots) /\
    rooted_table nodes children fuel /\ NoDup (ids nodes).
Proof.
  intros Hread Hroots Hchains.
  destruct (read_nodes_Ok _ _ _ Hread) as (_ & _ & Hnd & _ & _).
  destruct (ensure_paths_returns raws nodes0 children fuel Hread) as (nodes & Hens & Hd).
  { intros n Hn _. destruct (Hchains n Hn) as (c & Hc & Hlen). exists c. split; [done|lia]. }
  destruct (ensure_paths_sound _ _ _ _ Hens) as [Hf _].
  assert (NoDup (ids nodes)) as Hnd' by (by rewrite (paths_filled_ids _ _ Hf)).
  exists nodes, (sort_by node_key (find_roots nodes)). split; [|split; [|done]].
  - unfold plan. rewrite Hread. cbn [mbind res_bind fst snd].
    destruct (sort_by node_key (find_roots nodes0)) as [|r rs] eqn:Hsort.
    { by apply sort_by_nil in Hsort. }
    cbn [nonempty_list negb]. rewrite Hens. cbn [mbind res_bind]. rewrite <- Hsort.
    rewrite (deref_filled nodes _ (sort_by node_key (find_roots nodes)) Hnd'); [done| |].
    + apply sort_by_filled, filter_filled; [|done]. intros a b Hab. by apply is_root_filled.
    + intros b Hb. rewrite sort_by_perm in Hb. by apply find_roots_elem in Hb as [? _].
  - apply (pipeline_rooted raws nodes0); [done| |done].
    apply Forall2_flip_skeleton. by eapply derived_skeleton.
Qed.

(** X16. On records that [read_nodes] accepts, with a root navbar node,
    in which every parent chain reaches a node without parent within the
    bound given to the loops, every computation of a run returns: the plan,
    the lines of the validation tree, the configuration text and the links
    to the children of every page are computed without lookup error and
    within the bound. A run that writes no file (a validation, or a dry run
    without page creation) returns, whatever the other arguments, the
    content records and the files there are. What a run does when a write
    fails is outside the model. *)
Theorem main_returns (fuel : nat) (args : Args) (raws : list raw_row)
  (content : option (list raw_row)) (w : world) (nodes0 : list Node)
  (children : gmap string (list string)) :
  read_nodes raws = Ok (nodes0, children) ->
  find_roots nodes0 <> [] ->
  (forall n, n ∈ nodes0 ->
     exists chain, ancestry nodes0 (id n) chain /\ List.length chain <= fuel) ->
  exists nodes roots lines text,
    plan fuel raws = Ok (nodes, children, roots) /\
    validate_tree fuel nodes children = Ok lines /\
    render_yaml fuel args nodes children roots = Ok text /\
    (forall pid kids, children !! pid = Some kids ->
       exists links, child_links nodes kids = Ok links) /\
    (validate args = true \/ (dry_run args = true /\ create_stubs args = false) ->
     exists w', main fuel args raws content w = (Ok tt, w')).
Proof.
  intros Hread Hroots Hchains.
  destruct (plan_returns _ _ _ _ Hread Hroots Hchains) as (nodes & roots & Hplan & Hrt & Hnd).
  destruct (validate_tree_returns _ _ _ Hrt Hnd) as [lines Hlines].
  destruct (render_yaml_returns nodes roots children fuel args Hrt) as [text Htext].
  exists nodes, roots, lines, text. split; [done|]. split; [done|]. split; [done|]. split.
  - intros pid kids Hkids. apply child_links_returns. intros cid Hcid.
    destruct Hrt as [Hlisted _]. destruct (Hlisted pid cid) as (_ & c & Hc & _); [|by exists c].
    unfold children_get. by rewrite Hkids.
  - intros Hmode. rewrite main_unfold, Hplan. destruct (validate args).
    + rewrite Hlines, io_for_print. by eexists.
    + destruct Hmode as [? | [Hd Hc]]; [done|].
      rewrite Htext. unfold pages_of. rewrite Hd, Hc. by eexists.
Qed.

Lemma main_returns_witness :
  exists nodes roots lines text,
    plan 2 sample_raws = Ok (nodes, snd sample_tree, roots) /\
    validate_tree 2 nodes (snd sample_tree) = Ok lines /\
    render_yaml 2 sample_args nodes (snd sample_tree) roots = Ok text /\
    (forall pid kids, snd sample_tree !! pid = Some kids ->
       exists links, child_links nodes kids = Ok links) /\
    (validate sample_args = true \/
     (dry_run sample_args = true /\ create_stubs sample_args = false) ->
     exists w', main 2 sample_args sample_raws None (start ∅) = (Ok tt, w')).
Proof.
  apply (main_returns 2 sample_args sample_raws None (start ∅)
           (fst sample_tree) (snd sample_tree)).
  - vm_compute. reflexivity.
  - discriminate.
  - intros n Hn. vm_compute in Hn.
    repeat (apply elem_of_cons in Hn as [-> | Hn]);
      [..|apply elem_of_nil in Hn; destruct Hn].
    all: eexists; split; [walk_up|simpl; lia].
Defined.

(** ** The default entry of a root *)

(** C5, refuted as stated: the record of the root of the sample gives no
    [file_path], the root has no child of kind landing, and the sidebar
    block of the run opens with the entry of the root all the same, its
    href being the derived path. *)
Lemma root_link_without_explicit_path :
  sidebar_block 2 sample_nodes (snd sample_tree) None None sample_root =
    Ok (sidebar_head None None sample_root ++ root_link sample_root ++
        [ "        - text: " +:+ dq +:+ "Intro" +:+ dq;
          "          href: docs/intro.qmd";
          "        - text: " +:+ dq +:+ "Guide" +:+ dq;
          "          href: docs/guide.qmd";
          EmptyString ]) /\
  row_get (normalize_row_keys
             (raw_of [("id", "docs"); ("parent_id", EmptyString); ("kind", "navbar");
                      ("label", "Docs"); ("order", "1")])) "file_path" = EmptyString /\
  ~ explicit_path_decides_root_link.
Proof.
  assert (sidebar_block 2 sample_nodes (snd sample_tree) None None sample_root =
            Ok (sidebar_head None None sample_root ++ root_link sample_root ++
                [ "        - text: " +:+ dq +:+ "Intro" +:+ dq;
                  "          href: docs/intro.qmd";
                  "        - text: " +:+ dq +:+ "Guide" +:+ dq;
                  "          href: docs/guide.qmd";
                  EmptyString ])) as Hblock by (vm_compute; reflexivity).
  split; [exact Hblock|]. split; [vm_compute; reflexivity|]. intros Hclaim.
  destruct (Hclaim 2 sample_raws sample_nodes (snd sample_tree) [sample_root] None None
              sample_root
              (normalize_row_keys
                 (raw_of [("id", "docs"); ("parent_id", EmptyString); ("kind", "navbar");
                          ("label", "Docs"); ("order", "1")]))
              _ ltac:(vm_compute; reflexivity) ltac:(by left)
              ltac:(unfold sample_raws; rewrite records_cons; by left)
              ltac:(vm_compute; reflexivity) Hblock) as [Hemitted _].
  destruct Hemitted as [Hexplicit _]; [by eexists|].
  apply Hexplicit. vm_compute. reflexivity.
Qed.

(** C5, amended. In a run on records whose parent chains reach a root
    within the bound, the plan returns, and for the table and the roots it
    gives:
    - every root has a [file_path] when the configuration is rendered, the
      one of its record or else the one path derivation gave it;
    - the children of a root render to some lines, and the sidebar block of
      the root opens its contents with the default entry of the root (its
      label and its [file_path]) when the root has a [file_path] and no
      direct child is of kind landing, and consists of the lines of the
      children alone when the root has no [file_path] or has a direct child
      of kind landing (this for any node given as root).
    So in a run the entry is there exactly when no direct child of the root
    is of kind landing. *)
Theorem root_link_rule (fuel : nat) (raws : list raw_row) (nodes0 : list Node)
  (children : gmap string (list string)) (style background : option string) :
  read_nodes raws = Ok (nodes0, children) ->
  find_roots nodes0 <> [] ->
  (forall n, n ∈ nodes0 ->
     exists chain, ancestry nodes0 (id n) chain /\ List.length chain <= fuel) ->
  exists nodes roots,
    plan fuel raws = Ok (nodes, children, roots) /\
    (forall root, root ∈ roots -> file_path root <> EmptyString) /\
    forall root : Node,
      exists kid_lines,
        for_lines (root_child_lines fuel nodes children) (children_get children (id root))
          = Ok kid_lines /\
        (file_path root <> EmptyString /\
         (forall cid c, cid ∈ children_get children (id root) ->
            nodes_get nodes cid = Some c -> kind c <> "landing") ->
         sidebar_block fuel nodes children style background root =
           Ok (sidebar_head style background root ++ root_link root ++
               kid_lines ++ [EmptyString])) /\
        (file_path root = EmptyString \/
         (exists cid c, cid ∈ children_get children (id root) /\
            nodes_get nodes cid = Some c /\ kind c = "landing") ->
         sidebar_block fuel nodes children style background root =
           Ok (sidebar_head style background root ++ kid_lines ++ [EmptyString])).
Proof.
  intros Hread Hroots Hchains.
  destruct (plan_returns _ _ _ _ Hread Hroots Hchains) as (nodes & roots & Hplan & Hrt & Hnd).
  exists nodes, roots. split; [done|]. split.
  - intros root Hroot.
    destruct (plan_roots _ _ _ _ _ Hplan) as (-> & _ & _ & Hset).
    rewrite sort_by_perm in Hroot. apply find_roots_elem in Hroot as (Hin & _ & Hk).
    destruct (Hset _ _ (nodes_get_elem _ _ Hnd Hin)) as [_ Hfp].
    apply Hfp. by rewrite Hk.
  - intros root. exact (root_default_link fuel fuel nodes children style background root
                          Hrt (le_n fuel)).
Qed.

Lemma root_link_rule_witness :
  exists nodes roots,
    plan 2 sample_raws = Ok (nodes, snd sample_tree, roots) /\
    (forall root, root ∈ roots -> file_path root <> EmptyString) /\
    forall root : Node,
      exists kid_lines,
        for_lines (root_child_lines 2 nodes (snd sample_tree))
                  (children_get (snd sample_tree) (id root)) = Ok kid_lines /\
        (file_path root <> EmptyString /\
         (forall cid c, cid ∈ children_get (snd sample_tree) (id root) ->
            nodes_get nodes cid = Some c -> kind c <> "landing") ->
         sidebar_block 2 nodes (snd sample_tree) None None root =
           Ok (sidebar_head None None root ++ root_link root ++
               kid_lines ++ [EmptyString])) /\
        (file_path root = EmptyString \/
         (exists cid c, cid ∈ children_get (snd sample_tree) (id root) /\
            nodes_get nodes cid = Some c /\ kind c = "landing") ->
         sidebar_block 2 nodes (snd sample_tree) None None root =
           Ok (sidebar_head None None root ++ kid_lines ++ [EmptyString])).
Proof.
  apply (root_link_rule 2 sample_raws (fst sample_tree) (snd sample_tree) None None).
  - vm_compute. reflexivity.
  - discriminate.
  - intros n Hn. vm_compute in Hn.
    repeat (apply elem_of_cons in Hn as [-> | Hn]);
      [..|apply elem_of_nil in Hn; destruct Hn].
    all: eexists; split; [walk_up|simpl; lia].
Defined.

(** ** Validation and the sidebar agree *)

Lemma landing_mode_two (n : Node) (has_children : bool) :
  fst (landing_render_mode n has_children) = "text" \/
  fst (landing_render_mode n has_children) = "section".
Proof.
  unfold landing_render_mode.
  destruct (String.eqb (Py.lower (sidebar_as n)) "text") eqn:E1.
  { apply String.eqb_eq in E1. by left. }
  destruct (String.eqb (Py.lower (sidebar_as n)) "section") eqn:E2.
  { apply String.eqb_eq in E2. by right. }
  simpl. destruct has_children; [by right|by left].
Qed.

Lemma nonempty_list_true {A : Type} (l : list A) : nonempty_list l = true <-> l <> [].
Proof. by destruct l. Qed.

(** X17. [validate_tree] warns about a node exactly when the sidebar hides
    its children: the node is a landing with children that
    [build_sidebar_contents] renders as a text entry, nothing nested under
    it. *)
Theorem warning_iff_children_hidden (nodes : list Node)
  (children : gmap string (list string)) (n : Node) :
  nodes_get nodes (id n) = Some n ->
  landing_warning children n <> [] <->
  kind n = "landing" /\ children_get children (id n) <> [] /\
  forall fuel, build_sidebar_contents (S fuel) nodes children (id n) = Ok (text_entry n).
Proof.
  intros Hn. unfold landing_warning. split.
  - destruct (String.eqb (kind n) "landing") eqn:Hk; [|done].
    destruct (String.eqb (fst (landing_render_mode n _)) "text") eqn:Hm; [|done].
    destruct (nonempty_list (children_get children (id n))) eqn:Hkids; [|done].
    intros _. apply String.eqb_eq in Hk, Hm. split; [done|].
    split; [by apply nonempty_list_true|]. intros fuel.
    cbn [build_sidebar_contents]. unfold nodes_item at 1. rewrite Hn. simpl.
    unfold sidebar_mode. rewrite Hk, Hkids, Hm. reflexivity.
  - intros (Hk & Hkids & Hb). apply nonempty_list_true in Hkids. rewrite Hk, Hkids. simpl.
    destruct (landing_mode_two n true) as [-> | Hs]; [done|]. exfalso.
    pose proof (start_of_section_or_text 1 nodes children (id n) n _ Hn
                  (or_introl Hk) (Hb 0)) as Hhead.
    unfold sidebar_mode in Hhead. rewrite Hk, Hkids, Hs in Hhead. discriminate Hhead.
Qed.

Lemma warning_iff_children_hidden_witness :
  landing_warning {[ "intro" := ["a"] ]}
    (mkNode "intro" "docs" "Intro" "intro" "landing" EmptyString 999
            EmptyString EmptyString EmptyString EmptyString EmptyString "text") <> [] <->
  "landing" = "landing" /\
  children_get {[ "intro" := ["a"] ]} "intro" <> [] /\
  forall fuel,
    build_sidebar_contents (S fuel)
      [mkNode "intro" "docs" "Intro" "intro" "landing" EmptyString 999
              EmptyString EmptyString EmptyString EmptyString EmptyString "text"]
      {[ "intro" := ["a"] ]} "intro" =
    Ok (text_entry
          (mkNode "intro" "docs" "Intro" "intro" "landing" EmptyString 999
                  EmptyString EmptyString EmptyString EmptyString EmptyString "text")).
Proof.
  apply (warning_iff_children_hidden
           [mkNode "intro" "docs" "Intro" "intro" "landing" EmptyString 999
                   EmptyString EmptyString EmptyString EmptyString EmptyString "text"]
           {[ "intro" := ["a"] ]}
           (mkNode "intro" "docs" "Intro" "intro" "landing" EmptyString 999
                   EmptyString EmptyString EmptyString EmptyString EmptyString "text")).
  reflexivity.
Defined.

(** ** Kinds the renderer does not know *)

(** X18. The kind of a record is stored as written: not checked against
    the five kinds and not lowercased. A child of a root whose kind is none
    of landing, section, item and external gets no entry in the sidebar of
    that root (no error either), while the same node under a section or a
    landing is rendered as a text entry. *)
Theorem unlisted_kind_child (nodes : list Node) (children : gmap string (list string))
  (fuel : nat) (render : string -> res (list string)) (cid : string) (c : Node) :
  nodes_get nodes cid = Some c ->
  kind c <> "landing" -> kind c <> "section" -> kind c <> "item" -> kind c <> "external" ->
  root_child_lines fuel nodes children cid = Ok [] /\
  nested_child_lines render nodes cid =
    Ok [ "    - text: " +:+ dq +:+ label c +:+ dq; "      href: " +:+ file_path c ] /\
  forall row, make_node row = Ok c -> kind c = row_get row "kind".
Proof.
  intros Hc H1 H2 H3 H4. apply String.eqb_neq in H1, H2, H3, H4.
  unfold root_child_lines, nested_child_lines, nodes_item, href_of.
  rewrite Hc. simpl. rewrite H1, H2, H3, H4. simpl. split; [done|]. split; [done|].
  intros row Hrow. by apply make_node_fields in Hrow as (_ & _ & _ & _ & ? & _).
Qed.

Lemma unlisted_kind_child_witness :
  root_child_lines 1 [mkNode "faq" "docs" "FAQ" "faq" "Item" "docs/faq.qmd" 999
                        EmptyString EmptyString EmptyString EmptyString EmptyString
                        EmptyString] ∅ "faq" = Ok [].
Proof.
  apply (unlisted_kind_child
           [mkNode "faq" "docs" "FAQ" "faq" "Item" "docs/faq.qmd" 999
              EmptyString EmptyString EmptyString EmptyString EmptyString EmptyString]
           ∅ 1 (fun _ => Ok []) "faq"
           (mkNode "faq" "docs" "FAQ" "faq" "Item" "docs/faq.qmd" 999
              EmptyString EmptyString EmptyString EmptyString EmptyString EmptyString)).
  - reflexivity.
  - discriminate.
  - discriminate.
  - discriminate.
  - discriminate.
Defined.

(** ** The shape of the rendered text *)

Lemma for_lines_Forall {A : Type} (P : string -> Prop) (body : A -> res (list string))
  (l : list A) (lines : list string) :
  (forall x here, x ∈ l -> body x = Ok here -> Forall P here) ->
  for_lines body l = Ok lines -> Forall P lines.
Proof.
  revert lines. induction l as [|x l IH]; intros lines Hbody; simpl.
  - intros [= <-]. constructor.
  - destruct (body x) as [here| |] eqn:Hx; simpl; [|done..].
    destruct (for_lines body l) as [more| |] eqn:Hl; simpl; [|done..].
    intros [= <-]. apply Forall_app. split.
    + apply (Hbody x); [by left|done].
    + apply IH; [|done]. intros y here' Hy. apply Hbody. by right.
Qed.

(** The item [build_sidebar_contents] returns: an element that opens with
    "- " and, after it, elements that start with two blanks. *)
Lemma sidebar_item_form (fuel : nat) (nodes : list Node)
  (children : gmap string (list string)) (i : string) (lines : list string) :
  build_sidebar_contents fuel nodes children i = Ok lines ->
  exists first rest,
    lines = first :: rest /\ String.prefix "- " first = true /\
    Forall (fun l => String.prefix "  " l = true) rest.
Proof.
  revert i lines. induction fuel as [|fuel IH]; intros i lines; [done|].
  cbn [build_sidebar_contents]. unfold nodes_item at 1.
  destruct (nodes_get nodes i) as [n|]; simpl; [|done].
  assert (forall l, Ok (text_entry n) = Ok l ->
            exists first rest,
              l = first :: rest /\ String.prefix "- " first = true /\
              Forall (fun l => String.prefix "  " l = true) rest) as Htext.
  { intros l [= <-]. eexists _, _. split; [reflexivity|]. split; [reflexivity|].
    by repeat constructor. }
  destruct (String.eqb (kind n) "landing" || String.eqb (kind n) "section"); [|apply Htext].
  destruct (String.eqb (sidebar_mode n (children_get children i)) "section"); [|apply Htext].
  assert (Forall (fun l => String.prefix "  " l = true)
            (if Py.nonempty (file_path n) then ["  href: " +:+ file_path n] else []))
    as Hhref.
  { destruct (Py.nonempty (file_path n)); by repeat constructor. }
  destruct (nonempty_list (children_get children i)).
  - destruct (for_lines _ (children_get children i)) as [sub| |] eqn:Hsub; simpl; [|done..].
    intros [= <-]. eexists _, _. split; [reflexivity|]. split; [reflexivity|].
    apply Forall_app. split; [done|]. constructor; [reflexivity|].
    eapply for_lines_Forall; [|exact Hsub]. intros cid here _.
    unfold nested_child_lines, nodes_item.
    destruct (nodes_get nodes cid) as [c|]; simpl; [|done].
    destruct (String.eqb (kind c) "landing" || String.eqb (kind c) "section").
    + destruct (build_sidebar_contents fuel nodes children cid) as [s| |]; simpl; [|done..].
      intros [= <-]. unfold indent_lines. apply Forall_forall.
      intros l (l0 & -> & _)%list_elem_of_fmap. reflexivity.
    + intros [= <-]. by repeat constructor.
  - intros [= <-]. eexists _, _. split; [reflexivity|]. split; [reflexivity|]. done.
Qed.


Lemma single_line_append (a b : string) :
  single_line (a +:+ b) = single_line a && single_line b.
Proof. apply all_chars_append. Qed.

Lemma sidebar_lines_single (nodes : list Node) (children : gmap string (list string)) :
  (forall n, n ∈ nodes ->
     single_line (label n) = true /\ single_line (file_path n) = true /\
     single_line (external_url n) = true) ->
  forall fuel i lines,
    build_sidebar_contents fuel nodes children i = Ok lines ->
    Forall (fun l => single_line l = true) lines.
Proof.
  intros Hall.
  assert (forall n, n ∈ nodes ->
            single_line (label n) = true /\ single_line (file_path n) = true /\
            single_line (href_of n) = true) as Hnode.
  { intros n Hn. destruct (Hall n Hn) as (Hl & Hf & He). split; [done|]. split; [done|].
    unfold href_of. by destruct (String.eqb (kind n) "external"). }
  induction fuel as [|fuel IH]; intros i lines; [done|].
  cbn [build_sidebar_contents]. unfold nodes_item at 1.
  destruct (nodes_get nodes i) as [n|] eqn:Hn; simpl; [|done].
  apply nodes_get_Some in Hn as [Hin _]. destruct (Hnode n Hin) as (Hl & Hf & Hh).
  assert (forall l, Ok (text_entry n) = Ok l -> Forall (fun l => single_line l = true) l)
    as Htext.
  { intros l [= <-]. unfold text_entry.
    repeat constructor; rewrite !single_line_append, ?Hl, ?Hh; reflexivity. }
  destruct (String.eqb (kind n) "landing" || String.eqb (kind n) "section"); [|apply Htext].
  destruct (String.eqb (sidebar_mode n (children_get children i)) "section"); [|apply Htext].
  assert (single_line ("- section: " +:+ dq +:+ label n +:+ dq) = true) as Hfirst.
  { rewrite !single_line_append, Hl. reflexivity. }
  assert (Forall (fun l => single_line l = true)
            (if Py.nonempty (file_path n) then ["  href: " +:+ file_path n] else []))
    as Hhref.
  { destruct (Py.nonempty (file_path n)); repeat constructor.
    rewrite single_line_append, Hf. reflexivity. }
  destruct (nonempty_list (children_get children i)).
  - destruct (for_lines _ (children_get children i)) as [sub| |] eqn:Hsub; simpl; [|done..].
    intros [= <-]. constructor; [exact Hfirst|]. apply Forall_app. split; [done|].
    constructor; [reflexivity|].
    eapply for_lines_Forall; [|exact Hsub]. intros cid here _.
    unfold nested_child_lines, nodes_item.
    destruct (nodes_get nodes cid) as [c|] eqn:Hc; simpl; [|done].
    apply nodes_get_Some in Hc as [Hcin _]. destruct (Hnode c Hcin) as (Hcl & _ & Hch).
    destruct (String.eqb (kind c) "landing" || String.eqb (kind c) "section").
    + destruct (build_sidebar_contents fuel nodes children cid) as [s| |] eqn:Hs;
        simpl; [|done..].
      intros [= <-]. unfold indent_lines. apply Forall_forall.
      intros l (l0 & -> & Hl0)%list_elem_of_fmap. rewrite single_line_append.
      pose proof (IH _ _ Hs) as Hsingle. rewrite Forall_forall in Hsingle.
      by rewrite (Hsingle _ Hl0).
    + intros [= <-].
      repeat constructor; rewrite !single_line_append, ?Hcl, ?Hch; reflexivity.
  - intros [= <-]. by constructor.
Qed.

(** X19. On a table whose labels, paths and addresses hold no line break,
    what [build_sidebar_contents] returns for a node are the lines of one
    item of a YAML list: each element is a single line, the first opens the
    item with "- " and the others are indented by two blanks or more (the
    href, the contents key and the nested items). *)
Theorem sidebar_item_shape (fuel : nat) (nodes : list Node)
  (children : gmap string (list string)) (i : string) (lines : list string) :
  (forall n, n ∈ nodes ->
     single_line (label n) = true /\ single_line (file_path n) = true /\
     single_line (external_url n) = true) ->
  build_sidebar_contents fuel nodes children i = Ok lines ->
  Forall (fun l => single_line l = true) lines /\
  exists first rest,
    lines = first :: rest /\ String.prefix "- " first = true /\
    Forall (fun l => String.prefix "  " l = true) rest.
Proof.
  intros Hall Hlines. split.
  - by eapply sidebar_lines_single.
  - by eapply sidebar_item_form.
Qed.

Lemma sidebar_item_shape_witness :
  Forall (fun l => single_line l = true)
    [ "- section: " +:+ dq +:+ "Sec" +:+ dq; "  href: docs/sec/index.qmd"; "  contents:";
      "    - text: " +:+ dq +:+ "A" +:+ dq; "      href: docs/sec/a.qmd" ] /\
  exists first rest,
    [ "- section: " +:+ dq +:+ "Sec" +:+ dq; "  href: docs/sec/index.qmd"; "  contents:";
      "    - text: " +:+ dq +:+ "A" +:+ dq; "      href: docs/sec/a.qmd" ]
      = first :: rest /\
    String.prefix "- " first = true /\
    Forall (fun l => String.prefix "  " l = true) rest.
Proof.
  apply (sidebar_item_shape 2
           [mkNode "sec" "docs" "Sec" "sec" "section" "docs/sec/index.qmd" 999
              EmptyString EmptyString EmptyString EmptyString EmptyString EmptyString;
            mkNode "a" "sec" "A" "a" "item" "docs/sec/a.qmd" 999
              EmptyString EmptyString EmptyString EmptyString EmptyString EmptyString]
           {[ "sec" := ["a"] ]} "sec").
  - intros n Hn.
    repeat (apply elem_of_cons in Hn as [-> | Hn]; [by vm_compute|]).
    by apply elem_of_nil in Hn.
  - vm_compute. reflexivity.
Defined.

(** ** The end of the configuration text *)

Lemma rstrip_by_app (p : ascii -> bool) (a b : string) :
  Py.rstrip_by p b <> EmptyString ->
  Py.rstrip_by p (a +:+ b) = a +:+ Py.rstrip_by p b.
Proof.
  intros Hb. induction a as [|c a IH]; [done|].
  change (Py.rstrip_by p (String c (a +:+ b)) = String c (a +:+ Py.rstrip_by p b)).
  rewrite rstrip_by_cons, IH.
  destruct (a +:+ Py.rstrip_by p b) eqn:E; [|done].
  by destruct (append_nonempty_r a _ Hb).
Qed.

Lemma join_snoc (sep : string) (l : list string) (y : string) :
  l <> [] -> Py.join sep (l ++ [y]) = Py.join sep l +:+ sep +:+ y.
Proof.
  induction l as [|x l IH]; [done|]. intros _. destruct l as [|x' l].
  - reflexivity.
  - specialize (IH ltac:(done)). cbn [app] in *.
    rewrite join_cons, IH, join_cons. by rewrite !append_assoc.
Qed.

(** X20. The configuration text ends with the toc line and one newline:
    the blank lines that close the list of lines are stripped, whatever
    the roots and their blocks; and it starts with the project key. *)
Theorem yaml_text_ends (fuel : nat) (site_title : string) (roots nodes : list Node)
  (children : gmap string (list string)) (theme1 theme2 css : string) (toc : bool)
  (sidebar_style sidebar_background : option string) (text : string) :
  build_yaml fuel site_title roots nodes children theme1 theme2 css toc
             sidebar_style sidebar_background = Ok text ->
  (exists before,
     text = before +:+ nl +:+ "    toc: " +:+ (if toc then "true" else "false") +:+ nl) /\
  exists rest, text = "project:" +:+ nl +:+ rest.
Proof.
  unfold build_yaml.
  destruct (for_lines _ roots) as [blocks| |]; simpl; [|done..]. intros [= <-].
  set (head := "    - " +:+ dq +:+ _ +:+ dq).
  set (T := "    toc: " +:+ (if toc then "true" else "false")).
  match goal with
  | |- context [Py.join nl (?a :: ?b :: ?l)] =>
      set (first := a); set (second := b); set (tail := l)
  end.
  assert (exists M, tail = M ++ [T; EmptyString]) as [M HM].
  { subst tail.
    match goal with |- context [ ?P ++ blocks ++ _ ] => set (pre := P) end.
    eexists (_ :: _ :: _ :: _ :: _ :: _ :: _ :: _ :: _ :: _ :: pre ++ blocks ++
             [EmptyString; "format:"; "  html:"; "    theme:";
              "      - " +:+ theme1; "      - " +:+ theme2; "    css: " +:+ css]).
    cbn [app]. do 10 f_equal. rewrite <- !app_assoc. reflexivity. }
  assert (Py.join nl (first :: second :: tail) =
          (Py.join nl (first :: second :: M) +:+ nl) +:+ (T +:+ nl)) as ->.
  { rewrite HM. change (first :: second :: M ++ [T; EmptyString])
      with ((first :: second :: M) ++ [T; EmptyString]).
    replace ((first :: second :: M) ++ [T; EmptyString])
      with (((first :: second :: M) ++ [T]) ++ [EmptyString])
      by (by rewrite <- app_assoc).
    rewrite join_snoc by done. rewrite join_snoc by done.
    by rewrite !append_assoc, append_nil_r. }
  unfold Py.rstrip. rewrite rstrip_by_app.
  2:{ subst T. by destruct toc. }
  assert (Py.rstrip_by Py.isspace (T +:+ nl) = T) as -> by (subst T; by destruct toc).
  split.
  - exists (Py.join nl (first :: second :: M)). subst T. by rewrite !append_assoc.
  - rewrite join_cons. subst first. eexists. rewrite !append_assoc. reflexivity.
Qed.

Lemma yaml_text_ends_witness :
  exists rest,
    match render_yaml 2 sample_args sample_nodes (snd sample_tree) [sample_root] with
    | Ok text => text
    | _ => EmptyString
    end = "project:" +:+ nl +:+ rest.
Proof.
  refine (proj2 (yaml_text_ends 2 (site_title sample_args) [sample_root] sample_nodes
                   (snd sample_tree) (theme1 sample_args) (theme2 sample_args)
                   (css sample_args) (negb (no_toc sample_args))
                   (sidebar_style sample_args) (sidebar_background sample_args) _ _)).
  vm_compute. reflexivity.
Defined.
